(** * Home Value Estimator front end: a shallow embedding and its properties

    The development follows [src/code/frontend/script (1).js].  JavaScript
    values are embedded as follows.

    - Page identifiers, category tags, element ids and the texts of the
      price fields are Rocq [string]s (ASCII texts).  Free text, that is the
      location typed into the search form and the chat messages, which may
      hold any character and are trimmed and scanned one UTF-16 code unit at
      a time, are lists of code units (module [ChatText]).
    - Numbers read from form fields are integers or [NaN] ([JS.number]); the
      model is exact for magnitudes below 2^53, where a double holds every
      integer.
    - DOM lookups that may come back empty ([document.getElementById(..)?.x])
      are [option]s; the document itself is the list of its elements.
    - Side effects ([alert], [fetch], timers) are recorded as lists of
      effects, asynchronous functions as a step relation on the state of the
      object they belong to.
    - Event listeners are recorded as lists, in the order in which they
      were added; an element is named by its place in the document. *)

From Stdlib Require Import ZArith Lia List String Ascii.
From Stdlib Require Import Numbers.DecimalString.
From Stdlib Require Numbers.DecimalPos.
From stdpp Require Import base strings list gmap.
Import ListNotations.

Open Scope string_scope.
Open Scope list_scope.
Open Scope Z_scope.

(** ** JavaScript primitives used by the script *)

Module JS.

(** A JavaScript number as the script meets it: an integer, or NaN. *)
Inductive number : Type :=
| Num (z : Z)
| NaN.

(** [WhiteSpace] and [LineTerminator] code points below 128: the white
    space of the ASCII texts of the price fields.  Free text is trimmed by
    [ChatText.trim], which knows the other white space as well. *)
Definition isWhiteSpace (c : ascii) : bool :=
  let n := N_of_ascii c in
  ((n =? 9) || (n =? 10) || (n =? 11) || (n =? 12) || (n =? 13) || (n =? 32))%N.

Fixpoint trimStart (s : string) : string :=
  match s with
  | EmptyString => EmptyString
  | String c r => if isWhiteSpace c then trimStart r else s
  end.

Fixpoint trimEnd (s : string) : string :=
  match s with
  | EmptyString => EmptyString
  | String c r =>
      match trimEnd r with
      | EmptyString => if isWhiteSpace c then EmptyString else String c EmptyString
      | r' => String c r'
      end
  end.

(** [String.prototype.trim]. *)
Definition trim (s : string) : string := trimEnd (trimStart s).

(** Value of a digit in radixes up to 36. *)
Definition digitValue (c : ascii) : option Z :=
  let n := Z.of_N (N_of_ascii c) in
  if (48 <=? n) && (n <=? 57) then Some (n - 48)
  else if (97 <=? n) && (n <=? 122) then Some (n - 97 + 10)
  else if (65 <=? n) && (n <=? 90) then Some (n - 65 + 10)
  else None.

(** The longest prefix of radix-[R] digits, as a number; [acc] is [None]
    until a digit has been read. *)
Fixpoint readDigits (R : Z) (s : string) (acc : option Z) : option Z :=
  match s with
  | EmptyString => acc
  | String c r =>
      match digitValue c with
      | Some d =>
          if d <? R
          then readDigits R r (Some (R * default 0 acc + d))
          else acc
      | None => acc
      end
  end.

(** [parseInt(string)] with no radix argument: leading white space, an
    optional sign, an optional [0x]/[0X] prefix, then digits; NaN when no
    digit follows. *)
Definition parseInt (s : string) : number :=
  let s1 := trimStart s in
  let '(sign, s2) :=
    match s1 with
    | String "-"%char r => (-1, r)
    | String "+"%char r => (1, r)
    | _ => (1, s1)
    end in
  let '(R, s3) :=
    match s2 with
    | String "0"%char (String "x"%char r) => (16, r)
    | String "0"%char (String "X"%char r) => (16, r)
    | _ => (10, s2)
    end in
  match readDigits R s3 None with
  | Some v => Num (sign * v)
  | None => NaN
  end.

(** [parseInt(el?.value)]: a missing element gives [undefined], which
    [parseInt] reads as the text "undefined". *)
Definition parseIntValue (v : option string) : number :=
  parseInt (default "undefined" v).

(** [n || 0] on a number: NaN and zero are falsy. *)
Definition orZero (n : number) : Z :=
  match n with
  | Num z => if z =? 0 then 0 else z
  | NaN => 0
  end.

(** [n || null] on a number that is not NaN. *)
Definition orNull (z : Z) : option Z :=
  if z =? 0 then None else Some z.

(** [b] for an optional boolean used as a condition ([undefined] is
    falsy). *)
Definition truthy (b : option bool) : bool := default false b.

(** Decimal rendering of an integer, as [String(n)] gives it. *)
Definition toDecimal (z : Z) : string := NilZero.string_of_int (Z.to_int z).

End JS.

(** ** Texts as UTF-16 code units, and the chat widget's message formatting *)

Module ChatText.

(** A chat text is a sequence of UTF-16 code units; the script's regular
    expressions carry no [u] flag and so work on code units. *)
Abbreviation ustring := (list N).

Definition lit (s : string) : ustring :=
  N_of_ascii <$> list_ascii_of_string s.

Definition star : N := 42.
Definition lessThan : N := 60.

(** Emoji of the reply format, as surrogate pairs. *)
Definition house : ustring := [0xD83C; 0xDFE0]%N.
Definition pin : ustring := [0xD83D; 0xDCCD]%N.
Definition houseGarden : ustring := [0xD83C; 0xDFE1]%N.
Definition calendar : ustring := [0xD83D; 0xDCC5]%N.
Definition robot : ustring := [0xD83E; 0xDD16]%N.

(** The code units of the class [[🎯📊📈💰]]. *)
Definition priceIcons : list N :=
  [0xD83C; 0xDFAF; 0xD83D; 0xDCCA; 0xD83D; 0xDCC8; 0xD83D; 0xDCB0]%N.

(** The characters the file holds in front of "Listed Price" and of the
    details line: U+FFFD U+FE0F, and U+FFFD followed by 🏡. *)
Definition listedIcon : ustring := [0xFFFD; 0xFE0F]%N.
Definition detailsIcon : ustring := 0xFFFD%N :: houseGarden.

(** [.] without the [s] flag matches anything but a line terminator. *)
Definition isLineTerminator (c : N) : bool :=
  ((c =? 0x0A) || (c =? 0x0D) || (c =? 0x2028) || (c =? 0x2029))%N.

Definition isDigit (c : N) : bool := ((48 <=? c) && (c <=? 57))%N.

Definition notLessThan (c : N) : bool := negb (c =? lessThan)%N.

(** White space and line terminators, as [trim] strips them. *)
Definition isWhiteSpace (c : N) : bool :=
  ((c =? 0x09) || (c =? 0x0A) || (c =? 0x0B) || (c =? 0x0C) || (c =? 0x0D) ||
   (c =? 0x20) || (c =? 0xA0) || (c =? 0x1680) ||
   ((0x2000 <=? c) && (c <=? 0x200A)) ||
   (c =? 0x2028) || (c =? 0x2029) || (c =? 0x202F) || (c =? 0x205F) ||
   (c =? 0x3000) || (c =? 0xFEFF))%N.

Fixpoint trimStart (s : ustring) : ustring :=
  match s with
  | [] => []
  | c :: r => if isWhiteSpace c then trimStart r else s
  end.

Fixpoint trimEnd (s : ustring) : ustring :=
  match s with
  | [] => []
  | c :: r =>
      match trimEnd r with
      | [] => if isWhiteSpace c then [] else [c]
      | r' => c :: r'
      end
  end.

Definition trim (s : ustring) : ustring := trimEnd (trimStart s).

(** [s] starts with [p]: what follows [p]. *)
Fixpoint stripPrefix (p s : ustring) : option ustring :=
  match p, s with
  | [], _ => Some s
  | a :: p', b :: s' => if (a =? b)%N then stripPrefix p' s' else None
  | _ :: _, [] => None
  end.

(** [String.prototype.includes]. *)
Fixpoint includes (s needle : ustring) : bool :=
  match stripPrefix needle s with
  | Some _ => true
  | None =>
      match s with
      | [] => false
      | _ :: r => includes r needle
      end
  end.

(** A greedy [[class]+]: the longest non-empty run, and what follows. *)
Fixpoint span (p : N → bool) (s : ustring) : ustring * ustring :=
  match s with
  | c :: r =>
      if p c then let '(run, rest) := span p r in (c :: run, rest)
      else ([], s)
  | [] => ([], [])
  end.

Definition takeWhile1 (p : N → bool) (s : ustring)
  : option (ustring * ustring) :=
  match span p s with
  | ([], _) => None
  | (run, rest) => Some (run, rest)
  end.

(** [.replace(/\n/g, '<br>')]. *)
Fixpoint replaceNewlines (s : ustring) : ustring :=
  match s with
  | [] => []
  | c :: r =>
      if (c =? 0x0A)%N then lit "<br>" ++ replaceNewlines r
      else c :: replaceNewlines r
  end.

(** The lazy group [(.*?)] followed by [\*\*]: the shortest run of
    non-terminators up to the next two stars, and what follows them. *)
Fixpoint lazyUntilStars (s : ustring) : option (ustring * ustring) :=
  match s with
  | [] => None
  | c :: r =>
      match stripPrefix [star; star] s with
      | Some rest => Some ([], rest)
      | None =>
          if isLineTerminator c then None
          else
            match lazyUntilStars r with
            | Some (group, rest) => Some (c :: group, rest)
            | None => None
            end
      end
  end.

(** [/\*\*(.*?)\*\*/] at the start of [s]: the group and the rest. *)
Definition matchBold (s : ustring) : option (ustring * ustring) :=
  match stripPrefix [star; star] s with
  | Some r => lazyUntilStars r
  | None => None
  end.

(** The lazy group [(.*?)] followed by [\*]. *)
Fixpoint lazyUntilStar (s : ustring) : option (ustring * ustring) :=
  match s with
  | [] => None
  | c :: r =>
      if (c =? star)%N then Some ([], r)
      else if isLineTerminator c then None
      else
        match lazyUntilStar r with
        | Some (group, rest) => Some (c :: group, rest)
        | None => None
        end
  end.

(** [/\*(.*?)\*/] at the start of [s]. *)
Definition matchEm (s : ustring) : option (ustring * ustring) :=
  match s with
  | c :: r => if (c =? star)%N then lazyUntilStar r else None
  | [] => None
  end.

(** A global [replace]: scan from the left; where the pattern matches,
    emit the replacement and go on after the match, otherwise keep the
    character.  [fuel] bounds the number of positions visited. *)
Fixpoint replaceAllFrom (fuel : nat)
    (matchAt : ustring → option (ustring * ustring))
    (opening closing : ustring) (s : ustring) : ustring :=
  match fuel with
  | O => s
  | S fuel' =>
      match s with
      | [] => []
      | c :: r =>
          match matchAt s with
          | Some (group, rest) =>
              opening ++ group ++ closing ++
              replaceAllFrom fuel' matchAt opening closing rest
          | None => c :: replaceAllFrom fuel' matchAt opening closing r
          end
      end
  end.

(** [.replace(/\*\*(.*?)\*\*/g, '<strong>$1</strong>')]. *)
Definition replaceBold (s : ustring) : ustring :=
  replaceAllFrom (length s) matchBold (lit "<strong>") (lit "</strong>") s.

(** [.replace(/\*(.*?)\*/g, '<em>$1</em>')]. *)
Definition replaceEm (s : ustring) : ustring :=
  replaceAllFrom (length s) matchEm (lit "<em>") (lit "</em>") s.

(** The local [formatted] of [formatMessage]. *)
Definition formatted (content : ustring) : ustring :=
  replaceEm (replaceBold (replaceNewlines content)).

(** The captures of one match of [propertyPattern]; an optional group
    that took no part in the match is [None]. *)
Record PropertyMatch : Type := {
  number : ustring;
  address : ustring;
  aiPrice : option ustring;
  listedPrice : option ustring;
  details : option ustring;
  yearBuilt : option ustring;
  aiConfidence : option ustring
}.

(** An optional group [(?:<br>prefix([^<]+))?]: taken when it matches. *)
Definition optionalLine (prefix : ustring → option ustring) (s : ustring)
  : option ustring * ustring :=
  match stripPrefix (lit "<br>") s with
  | Some r =>
      match prefix r with
      | Some r' =>
          match takeWhile1 notLessThan r' with
          | Some (value, rest) => (Some value, rest)
          | None => (None, s)
          end
      | None => (None, s)
      end
  | None => (None, s)
  end.

(** [[🎯📊📈💰] \*\*Fair Value \(AI\)\*\*: ]: one code unit of the class,
    then the label. *)
Definition fairValuePrefix (s : ustring) : option ustring :=
  match s with
  | c :: r =>
      if bool_decide (c ∈ priceIcons)
      then stripPrefix (lit " **Fair Value (AI)**: ") r
      else None
  | [] => None
  end.

(** [propertyPattern] at the start of [s]: the captures and the rest. *)
Definition matchProperty (s : ustring) : option (PropertyMatch * ustring) :=
  match stripPrefix (house ++ lit " **Property ") s with
  | None => None
  | Some s1 =>
      match takeWhile1 isDigit s1 with
      | None => None
      | Some (number, s2) =>
          match stripPrefix (lit "**<br>" ++ pin ++ lit " ") s2 with
          | None => None
          | Some s3 =>
              match takeWhile1 notLessThan s3 with
              | None => None
              | Some (address, s4) =>
                  let '(aiPrice, s5) := optionalLine fairValuePrefix s4 in
                  let '(listedPrice, s6) :=
                    optionalLine
                      (stripPrefix (listedIcon ++ lit " **Listed Price**: ")) s5 in
                  let '(details, s7) :=
                    optionalLine (stripPrefix (detailsIcon ++ lit " ")) s6 in
                  let '(yearBuilt, s8) :=
                    optionalLine (stripPrefix (calendar ++ lit " Built: ")) s7 in
                  let '(aiConfidence, s9) :=
                    optionalLine (stripPrefix (robot ++ lit " ")) s8 in
                  Some ({| number := number; address := address;
                           aiPrice := aiPrice; listedPrice := listedPrice;
                           details := details; yearBuilt := yearBuilt;
                           aiConfidence := aiConfidence |}, s9)
              end
          end
      end
  end.

(** The [while ((match = propertyPattern.exec(formatted)) !== null)] loop:
    every match from the left, each search starting where the last match
    ended. *)
Fixpoint execAllFrom (fuel : nat) (s : ustring) : list PropertyMatch :=
  match fuel with
  | O => []
  | S fuel' =>
      match s with
      | [] => []
      | _ :: r =>
          match matchProperty s with
          | Some (m, rest) => m :: execAllFrom fuel' rest
          | None => execAllFrom fuel' r
          end
      end
  end.

Definition execAll (s : ustring) : list PropertyMatch :=
  execAllFrom (length s) s.

(** [content.match(/^(.*?)🏠 \*\*Property/s)]: the text before the first
    listing. *)
Fixpoint introMatch (content : ustring) : option ustring :=
  match stripPrefix (house ++ lit " **Property") content with
  | Some _ => Some []
  | None =>
      match content with
      | [] => None
      | c :: r => cons c <$> introMatch r
      end
  end.

(** The outro pattern of [formatMessage] on [content]: at the leftmost
    place where the robot emoji, a space and a non-empty run free of '<'
    are followed by [<br><br>], everything after that (the [s] flag lets
    the final group run to the end of the text). *)
Fixpoint outroMatch (content : ustring) : option ustring :=
  match
    match stripPrefix (robot ++ lit " ") content with
    | Some r =>
        match takeWhile1 notLessThan r with
        | Some (_, r') => stripPrefix (lit "<br><br>") r'
        | None => None
        end
    | None => None
    end
  with
  | Some rest => Some rest
  | None =>
      match content with
      | [] => None
      | _ :: r => outroMatch r
      end
  end.

(** What [formatMessage] returns: the formatted prose, or the
    [property-results] markup, given by the values its templates
    interpolate. *)
Inductive Rendered : Type :=
| Prose (html : ustring)
| PropertyResults (intro : option ustring) (cards : list PropertyMatch)
    (outro : option ustring).

(** The condition under which [formatMessage] parses the reply for
    property cards. *)
Definition looksLikeListing (content : ustring) : bool :=
  includes content (house ++ lit " **Property") && includes content pin.

(** The regular expressions of [formatMessage]. *)
Inductive Pattern : Type :=
| LineFeedPattern
| BoldPattern
| EmphasisPattern
| IntroPattern
| PropertyPattern
| OutroPattern.

(** What [formatMessage] does with a text: a global [replace], an
    [includes] test, a [match], or one call of [exec]. *)
Inductive Operation : Type :=
| Replace (pattern : Pattern) (subject : ustring)
| Includes (subject needle : ustring)
| Match (pattern : Pattern) (subject : ustring)
| Exec (pattern : Pattern) (subject : ustring).

(** [formatMessage]: the operations it performs, in order, and what it
    returns.  The [while] loop calls [exec] once more than the pattern
    matches; the second [includes] is evaluated only when the first has
    succeeded. *)
Definition formatMessageSteps (content : ustring)
  : list Operation * Rendered :=
  let afterBreaks := replaceNewlines content in
  let afterBold := replaceBold afterBreaks in
  let formatted := replaceEm afterBold in
  let steps :=
    [Replace LineFeedPattern content; Replace BoldPattern afterBreaks;
     Replace EmphasisPattern afterBold] in
  let marker := house ++ lit " **Property" in
  let steps := steps ++ [Includes content marker] in
  if includes content marker then
    let steps := steps ++ [Includes content pin] in
    if includes content pin then
      let intro := introMatch content in
      let steps :=
        steps ++ [Match IntroPattern content] ++
        match intro with
        | Some text => [Replace LineFeedPattern text]
        | None => []
        end in
      let cards := execAll formatted in
      let steps :=
        steps ++ replicate (S (length cards)) (Exec PropertyPattern formatted) in
      let outro := outroMatch content in
      let steps :=
        steps ++ [Match OutroPattern content] ++
        match outro with
        | Some text => [Replace LineFeedPattern text]
        | None => []
        end in
      (steps,
       match cards with
       | [] => Prose formatted
       | _ =>
           PropertyResults (replaceNewlines <$> intro) cards
             (replaceNewlines <$> outro)
       end)
    else (steps, Prose formatted)
  else (steps, Prose formatted).

Definition formatMessage (content : ustring) : Rendered :=
  snd (formatMessageSteps content).

(** Two stars side by side somewhere in the text. *)
Fixpoint hasDoubleStar (s : ustring) : bool :=
  match s with
  | a :: r =>
      match r with
      | b :: _ => ((a =? star) && (b =? star))%N || hasDoubleStar r
      | [] => false
      end
  | [] => false
  end.

Definition startsWithStar (s : ustring) : bool :=
  match s with
  | a :: _ => (a =? star)%N
  | [] => false
  end.

(** No star at all. *)
Definition starFree (s : ustring) : Prop := Forall (fun c => c ≠ star) s.

(** A sample reply in the format the pattern is written for. *)
Definition listingReply : ustring :=
  lit "Here is what I found:" ++ [0x0A; 0x0A]%N ++
  house ++ lit " **Property 1**" ++ [0x0A]%N ++
  pin ++ lit " 12 Elm St, Austin, TX" ++ [0x0A]%N ++
  [0xD83D; 0xDCB0]%N ++ lit " **Fair Value (AI)**: $478,000".

End ChatText.

(** ** The demo page's search form *)

Module SearchForm.
Import JS.

(** What the script reads from the document when the search button is
    pressed.  A field is [None] when its element is not in the page.  The
    location is free text and is kept as its UTF-16 code units. *)
Record DemoForm : Type := {
  custom_budget_toggle : option bool;
  custom_min_price : option string;
  custom_max_price : option string;
  min_price : option string;
  max_price : option string;
  demo_location : option ChatText.ustring;
  primary_residence : option bool;
  fix_flip : option bool;
  rental_property : option bool;
  multi_family : option bool;
  quick_deals : option bool
}.

Record Budget : Type := {
  min : Z;
  max : Z;
  customBudget : option bool
}.

Record SearchData : Type := {
  location : ChatText.ustring;
  propertyTypes : list string;
  budget : Budget
}.

(** The [frontend_data] object posted to [/chat/start]; [None] is
    [null]. *)
Record FrontendData : Type := {
  fd_location : ChatText.ustring;
  property_types : list string;
  budget_min : option Z;
  budget_max : option Z
}.

Definition pushIf (b : option bool) (tag : string) (strategies : list string)
  : list string :=
  if truthy b then strategies ++ [tag] else strategies.

Definition getSelectedStrategies (f : DemoForm) : list string :=
  let strategies := [] in
  let strategies := pushIf (primary_residence f) "primary-residence" strategies in
  let strategies := pushIf (fix_flip f) "fix-flip" strategies in
  let strategies := pushIf (rental_property f) "rental-property" strategies in
  let strategies := pushIf (multi_family f) "multi-family" strategies in
  let strategies := pushIf (quick_deals f) "quick-deals" strategies in
  strategies.

Definition getSearchFormData (f : DemoForm) : SearchData :=
  let customBudgetEnabled := custom_budget_toggle f in
  let '(minPrice, maxPrice) :=
    if truthy customBudgetEnabled
    then (orZero (parseIntValue (custom_min_price f)),
          orZero (parseIntValue (custom_max_price f)))
    else (orZero (parseIntValue (min_price f)),
          orZero (parseIntValue (max_price f))) in
  {| location := default [] (demo_location f);
     propertyTypes := getSelectedStrategies f;
     budget := {| min := minPrice; max := maxPrice;
                  customBudget := customBudgetEnabled |} |}.

(** The closure [validateBudgetRange] of [initBudgetFunctionality].  It is
    only installed when the toggle element exists, so [isCustom] is the
    toggle's state. *)
Definition validateBudgetRange (f : DemoForm) : bool :=
  let isCustom := truthy (custom_budget_toggle f) in
  let '(minVal, maxVal) :=
    if isCustom
    then (orZero (parseIntValue (custom_min_price f)),
          orZero (parseIntValue (custom_max_price f)))
    else (orZero (parseIntValue (min_price f)),
          orZero (parseIntValue (max_price f))) in
  if (minVal >? 0) && (maxVal >? 0) && (minVal >=? maxVal)
  then false
  else true.

(** The object literal [frontendData] of [startChatbotWithFormData]. *)
Definition frontendData (searchData : SearchData) : FrontendData :=
  {| fd_location := location searchData;
     property_types := propertyTypes searchData;
     budget_min := orNull (min (budget searchData));
     budget_max := orNull (max (budget searchData)) |}.

Record ChatSession : Type := {
  session_id : string;
  message : string
}.

(** How the request to [/chat/start] and the steps after it can end. *)
Inductive StartResponse : Type :=
| FetchRejected (errorMessage : string)
| NotOk (status : Z) (errorText : string)
| BadJson (errorMessage : string)
| Ok (chatSession : ChatSession).

Record Env : Type := {
  chatbot_widget : bool;
  startResponse : StartResponse;
  updateError : option string
}.

Inductive Effect : Type :=
| Alert (text : string)
| ShowLoadingState
| HideLoadingState
| Fetch (url : string) (frontend_data : FrontendData)
| UpdateExistingChatbot (chatSession : ChatSession) (data : FrontendData).

(** [validateSearchData]: the verdict and the alerts shown. *)
Definition validateSearchData (data : SearchData) : bool * list Effect :=
  if bool_decide (location data = []) ||
     bool_decide (ChatText.trim (location data) = [])
  then (false, [Alert "Please enter a location (city, state, ZIP code, or address)"])
  else if (length (propertyTypes data) =? 0)%nat
  then (false, [Alert "Please select at least one property type"])
  else (true, []).

(** [startChatbotWithFormData]: the effects, and the message of the error
    it rethrows, if any. *)
Definition startChatbotWithFormData (env : Env) (searchData : SearchData)
  : list Effect * option string :=
  let data := frontendData searchData in
  let request := Fetch "http://localhost:8000/chat/start" data in
  let '(effects, thrown) :=
    if negb (chatbot_widget env)
    then ([], Some "Chatbot widget not found")
    else
      match startResponse env with
      | FetchRejected m => ([request], Some m)
      | NotOk status errorText =>
          ([request],
           Some ("HTTP error! status: " +:+ toDecimal status +:+ " - " +:+ errorText))
      | BadJson m => ([request], Some m)
      | Ok chatSession =>
          ([request; UpdateExistingChatbot chatSession data], updateError env)
      end in
  match thrown with
  | Some m =>
      (effects ++
       [Alert ("Sorry, there was an error connecting to the chatbot: " +:+ m +:+
               ". Please make sure the chatbot server is running on port 8001.")],
       Some m)
  | None => (effects, None)
  end.

Definition showSearchError (m : string) : list Effect :=
  [Alert ("Search Error: " +:+ m)].

Definition handleSearch (env : Env) (f : DemoForm) : list Effect :=
  let searchData := getSearchFormData f in
  let '(valid, alerts) := validateSearchData searchData in
  if negb valid then alerts
  else
    let '(effects, thrown) := startChatbotWithFormData env searchData in
    alerts ++ [ShowLoadingState] ++ effects ++
    match thrown with
    | Some m => showSearchError m
    | None => []
    end ++ [HideLoadingState].

(** The requests a run of [handleSearch] hands to [fetch] itself.  The
    update of the widget may start a session on top of them, see
    [FormSummary.updateExistingChatbot]. *)
Definition requests (effects : list Effect) : list FrontendData :=
  omap (fun e => match e with Fetch _ d => Some d | _ => None end) effects.

(** The fixed category vocabulary of the form. *)
Definition categories : list string :=
  ["primary-residence"; "fix-flip"; "rental-property"; "multi-family";
   "quick-deals"].

(** The form field a bound is read from, as the toggle selects it. *)
Definition minField (f : DemoForm) : option string :=
  if truthy (custom_budget_toggle f) then custom_min_price f else min_price f.

Definition maxField (f : DemoForm) : option string :=
  if truthy (custom_budget_toggle f) then custom_max_price f else max_price f.

(** A check box that is in the page and ticked. *)
Definition ticked (b : option bool) : Prop := b = Some true.

Definition locationAlert : Effect :=
  Alert "Please enter a location (city, state, ZIP code, or address)".

Definition categoryAlert : Effect :=
  Alert "Please select at least one property type".

(** Sample inputs: a form filled in with the select boxes, and a server
    that answers. *)
Definition sampleForm (minText maxText : string) : DemoForm :=
  {| custom_budget_toggle := Some false;
     custom_min_price := Some ""; custom_max_price := Some "";
     min_price := Some minText; max_price := Some maxText;
     demo_location := Some (ChatText.lit "Austin, TX");
     primary_residence := Some true; fix_flip := Some false;
     rental_property := Some true; multi_family := Some false;
     quick_deals := Some false |}.

(** The same form with the custom budget inputs switched on. *)
Definition customForm (minText maxText : string) : DemoForm :=
  {| custom_budget_toggle := Some true;
     custom_min_price := Some minText; custom_max_price := Some maxText;
     min_price := Some ""; max_price := Some "";
     demo_location := Some (ChatText.lit "Austin, TX");
     primary_residence := Some true; fix_flip := Some false;
     rental_property := Some true; multi_family := Some false;
     quick_deals := Some false |}.

Definition sampleEnv : Env :=
  {| chatbot_widget := true;
     startResponse := Ok {| session_id := "s-1"; message := "Welcome!" |};
     updateError := None |}.

End SearchForm.

(** ** Marketplace: the sample listings and their price call-out *)

Module Marketplace.
Import JS.

Record Property : Type := {
  id : string;
  address1 : string;
  city : string;
  state : string;
  zip : string;
  beds : Z;
  baths : Z;
  sqft : Z;
  lotSqft : Z;
  yearBuilt : Z;
  hasGarage : bool;
  type : string;
  listPrice : Z;
  estValue : Z;
  photo : string;
  photos : list string
}.

Definition PROPERTIES : list Property :=
  [ {| id := "p_001"; address1 := "123 Oak Street"; city := "Austin";
       state := "TX"; zip := "78701"; beds := 3; baths := 2; sqft := 1850;
       lotSqft := 7200; yearBuilt := 2018; hasGarage := true;
       type := "Single Family"; listPrice := 485000; estValue := 510000;
       photo := "hero-house.jpg";
       photos := ["hero-house.jpg"; "houses-grid.jpg"] |};
    {| id := "p_002"; address1 := "456 Pine Avenue"; city := "Dallas";
       state := "TX"; zip := "75201"; beds := 4; baths := 3; sqft := 2200;
       lotSqft := 8500; yearBuilt := 2020; hasGarage := true;
       type := "Single Family"; listPrice := 625000; estValue := 645000;
       photo := "houses-grid.jpg";
       photos := ["houses-grid.jpg"; "investment-house.jpg"] |};
    {| id := "p_003"; address1 := "789 Maple Drive"; city := "Houston";
       state := "TX"; zip := "77001"; beds := 2; baths := 2; sqft := 1200;
       lotSqft := 5000; yearBuilt := 2015; hasGarage := false;
       type := "Condo"; listPrice := 285000; estValue := 295000;
       photo := "investment-house.jpg";
       photos := ["investment-house.jpg"; "hero-house.jpg"] |} ].

(** Digits with a comma before every group of three, counted from the
    right (en-US grouping). *)
Fixpoint groupThousands (digits : string) : string :=
  match digits with
  | EmptyString => EmptyString
  | String c r =>
      let n := String.length r in
      if ((0 <? n) && (n mod 3 =? 0))%nat
      then String c ("," +:+ groupThousands r)
      else String c (groupThousands r)
  end.

(** [Number.prototype.toLocaleString] on an integer, in an en-US
    environment. *)
Definition toLocaleString (z : Z) : string :=
  (if z <? 0 then "-" else "") +:+ groupThousands (toDecimal (Z.abs z)).

(** [formatMoney]: en-US currency, USD, no fraction digits. *)
Definition formatMoney (amount : Z) : string :=
  (if amount <? 0 then "-" else "") +:+ "$" +:+
  groupThousands (toDecimal (Z.abs amount)).

(** The values a listing card of [renderProperties] interpolates into its
    markup, in the order of the template. *)
Record PropertyCard : Type := {
  card_onclick : string;
  card_photo : string;
  card_alt : string;
  card_address : string;
  card_location : string;
  card_details : list string;
  card_list_price : string;
  card_est_value : string;
  card_savings_class : string;
  card_savings_text : string
}.

Definition savingsOf (property : Property) : Z :=
  estValue property - listPrice property.

Definition savingsClass (savings : Z) : string :=
  if savings >? 0 then "positive"
  else if savings <? 0 then "negative"
  else "neutral".

Definition savingsText (savings : Z) : string :=
  if savings >? 0 then "You save " +:+ formatMoney savings
  else if savings <? 0 then formatMoney savings
  else "Fair value".

Definition propertyCard (property : Property) : PropertyCard :=
  let savings := savingsOf property in
  {| card_onclick := id property;
     card_photo := photo property;
     card_alt := address1 property;
     card_address := address1 property;
     card_location :=
       city property +:+ ", " +:+ state property +:+ " " +:+ zip property;
     card_details :=
       [toDecimal (beds property) +:+ " beds";
        toDecimal (baths property) +:+ " baths";
        type property];
     card_list_price := formatMoney (listPrice property);
     card_est_value := "Est. Value: " +:+ formatMoney (estValue property);
     card_savings_class := savingsClass savings;
     card_savings_text := savingsText savings |}.

(** The savings pill of [renderPropertyDetails]: text and class name. *)
Definition savingsPill (savings : Z) : string * string :=
  if savings >? 0
  then ("You save " +:+ formatMoney savings, "savings-pill positive")
  else if savings <? 0
  then (formatMoney savings, "savings-pill negative")
  else ("Fair value", "savings-pill neutral").

End Marketplace.

(** ** Page navigation and the property details page *)

Module Navigation.
Import JS Marketplace.

(** The own properties of the object literal [pages]. *)
Definition pages : gmap string string :=
  list_to_map
    [("home", "home-page"); ("demo", "demo-page");
     ("marketplace", "marketplace-page");
     ("property-details", "property-details-page");
     ("pricing", "pricing-page"); ("signin", "signin-page");
     ("signup", "signup-page"); ("analyzer", "analyzer-page");
     ("chat", "chat-page"); ("agent-connect", "agent-connect-page")].

(** [pages] is an ordinary object, so a lookup that misses its own
    properties goes on to [Object.prototype]. *)
Definition objectPrototypeKeys : list string :=
  ["constructor"; "__proto__"; "hasOwnProperty"; "isPrototypeOf";
   "propertyIsEnumerable"; "toLocaleString"; "toString"; "valueOf";
   "__defineGetter__"; "__defineSetter__"; "__lookupGetter__";
   "__lookupSetter__"].

(** The value of [pages[key]] when it is not [undefined]: a page element
    id, or a member inherited from [Object.prototype] (always truthy). *)
Inductive PageValue : Type :=
| PageId (elementId : string)
| Inherited (key : string).

Definition pagesGet (key : string) : option PageValue :=
  match pages !! key with
  | Some elementId => Some (PageId elementId)
  | None =>
      if bool_decide (key ∈ objectPrototypeKeys)
      then Some (Inherited key)
      else None
  end.

(** What an element's [innerHTML] was set to: the values interpolated
    into the script's templates. *)
Inductive Markup : Type :=
| Static
| Cards (cards : list PropertyCard)
| Facts (facts : list (string * string))
| Thumbnails (photos : list string).

Record Element : Type := {
  el_id : string;
  className : string;
  display : string;
  textContent : string;
  src : string;
  alt : string;
  innerHTML : Markup
}.

Definition setDisplay (v : string) (e : Element) : Element :=
  {| el_id := el_id e; className := className e; display := v;
     textContent := textContent e; src := src e; alt := alt e;
     innerHTML := innerHTML e |}.

Definition setTextContent (v : string) (e : Element) : Element :=
  {| el_id := el_id e; className := className e; display := display e;
     textContent := v; src := src e; alt := alt e;
     innerHTML := innerHTML e |}.

Definition setClassName (v : string) (e : Element) : Element :=
  {| el_id := el_id e; className := v; display := display e;
     textContent := textContent e; src := src e; alt := alt e;
     innerHTML := innerHTML e |}.

Definition setSrc (v : string) (e : Element) : Element :=
  {| el_id := el_id e; className := className e; display := display e;
     textContent := textContent e; src := v; alt := alt e;
     innerHTML := innerHTML e |}.

Definition setAlt (v : string) (e : Element) : Element :=
  {| el_id := el_id e; className := className e; display := display e;
     textContent := textContent e; src := src e; alt := v;
     innerHTML := innerHTML e |}.

Definition setInnerHTML (v : Markup) (e : Element) : Element :=
  {| el_id := el_id e; className := className e; display := display e;
     textContent := textContent e; src := src e; alt := alt e;
     innerHTML := v |}.

(** ASCII white space, which separates the tokens of a class attribute. *)
Definition isAsciiWhitespace (c : ascii) : bool :=
  let n := N_of_ascii c in
  ((n =? 9) || (n =? 10) || (n =? 12) || (n =? 13) || (n =? 32))%N.

(** The class tokens of a [className]; [current] is the token being read. *)
Fixpoint classTokens (s : string) (current : string) : list string :=
  match s with
  | EmptyString =>
      if String.eqb current "" then [] else [current]
  | String c r =>
      if isAsciiWhitespace c
      then (if String.eqb current "" then [] else [current]) ++ classTokens r ""
      else classTokens r (current +:+ String c EmptyString)
  end.

Definition hasClass (cls : string) (e : Element) : bool :=
  bool_decide (cls ∈ classTokens (className e) "").

(** The document: its elements in document order. *)
Abbreviation Document := (list Element).

(** Index of the first element with the given id. *)
Fixpoint getElementById (doc : Document) (elementId : string) : option nat :=
  match doc with
  | [] => None
  | e :: rest =>
      if String.eqb (el_id e) elementId then Some 0%nat
      else S <$> getElementById rest elementId
  end.

(** [const el = document.getElementById(id); if (el) { f(el) }]. *)
Definition withElement (elementId : string) (f : Element → Element)
    (doc : Document) : Document :=
  match getElementById doc elementId with
  | Some i => alter f i doc
  | None => doc
  end.

(** Callbacks handed to [setTimeout] by [showPage]. *)
Inductive Task : Type :=
| InitDemoPage
| InitPricingPage
| InitAnalyzerPage
| InitChatPage.

Record State : Type := {
  document : Document;
  currentPage : string;
  selectedProperty : option Property;
  timers : list Task
}.

Definition initialState (doc : Document) : State :=
  {| document := doc; currentPage := "home"; selectedProperty := None;
     timers := [] |}.

Definition renderProperties (doc : Document) : Document :=
  withElement "properties-grid"
    (setInnerHTML (Cards (propertyCard <$> PROPERTIES))) doc.

(** A change to an element that leaves its id alone. *)
Definition keepsId (f : Element → Element) : Prop :=
  ∀ e, el_id (f e) = el_id e.

(** What [showPage] decides on: an element's id, class and display. *)
Definition shape (e : Element) : string * string * string :=
  (el_id e, className e, display e).

(** A change to an element that leaves its id, class and display alone. *)
Definition keepsShape (f : Element → Element) : Prop :=
  ∀ e, shape (f e) = shape e.

(** What [showPage] does to each element of
    [document.querySelectorAll('.page')], and to no other. *)
Definition hidePage (page : Element) : Element :=
  if hasClass "page" page then setDisplay "none" page else page.

(** The ids of the elements [renderPropertyDetails] writes to. *)
Definition detailIds : list string :=
  ["property-hero-image"; "property-address"; "property-list-price";
   "property-est-value"; "property-savings"; "property-facts"; "photo-strip"].

(** [pages[pageId] || pages['home']]. *)
Definition targetPageId (pageId : string) : PageValue :=
  default (PageId "home-page") (pagesGet pageId).

Definition renderPropertyDetails (property : Property) (doc : Document)
  : Document :=
  let doc :=
    withElement "property-hero-image"
      (fun heroImage =>
         setAlt (address1 property +:+ ", " +:+ city property)
           (setSrc (photo property) heroImage)) doc in
  let doc :=
    withElement "property-address"
      (setTextContent
         (address1 property +:+ ", " +:+ city property +:+ ", " +:+
          state property +:+ " " +:+ zip property)) doc in
  let doc :=
    withElement "property-list-price"
      (setTextContent (formatMoney (listPrice property))) doc in
  let doc :=
    withElement "property-est-value"
      (setTextContent (formatMoney (estValue property))) doc in
  let savings := estValue property - listPrice property in
  let doc :=
    withElement "property-savings"
      (fun savingsElement =>
         setClassName (snd (savingsPill savings))
           (setTextContent (fst (savingsPill savings)) savingsElement)) doc in
  let doc :=
    withElement "property-facts"
      (setInnerHTML
         (Facts
            [("Bedrooms", toDecimal (beds property));
             ("Bathrooms", toDecimal (baths property));
             ("Square Feet",
              if sqft property =? 0 then "N/A"
              else toLocaleString (sqft property));
             ("Lot Size",
              if lotSqft property =? 0 then "N/A"
              else toLocaleString (lotSqft property) +:+ " sqft");
             ("Year Built",
              if yearBuilt property =? 0 then "N/A"
              else toDecimal (yearBuilt property));
             ("Garage", if hasGarage property then "Yes" else "No");
             ("Property Type", type property)])) doc in
  withElement "photo-strip"
    (fun photoStrip =>
       if (1 <? length (photos property))%nat
       then setInnerHTML (Thumbnails (photos property))
              (setDisplay "block" photoStrip)
       else setDisplay "none" photoStrip) doc.

Section WithEngine.

(** The text the engine gives for a member of [Object.prototype] when it
    is used as an element id (for a built-in function, its
    implementation-defined source text). *)
Variable inheritedText : string → string.

Definition elementIdOf (v : PageValue) : string :=
  match v with
  | PageId elementId => elementId
  | Inherited key => inheritedText key
  end.

Definition showPage (pageId : string) (st : State) : State :=
  let hidden := hidePage <$> document st in
  match getElementById hidden (elementIdOf (targetPageId pageId)) with
  | Some i =>
      let shown := alter (setDisplay "block") i hidden in
      if String.eqb pageId "marketplace" then
        {| document := renderProperties shown; currentPage := pageId;
           selectedProperty := selectedProperty st; timers := timers st |}
      else
        let task :=
          if String.eqb pageId "demo" then [InitDemoPage]
          else if String.eqb pageId "pricing" then [InitPricingPage]
          else if String.eqb pageId "analyzer" then [InitAnalyzerPage]
          else if String.eqb pageId "chat" then [InitChatPage]
          else [] in
        {| document := shown; currentPage := pageId;
           selectedProperty := selectedProperty st;
           timers := timers st ++ task |}
  | None =>
      {| document := hidden; currentPage := currentPage st;
         selectedProperty := selectedProperty st; timers := timers st |}
  end.

Definition showPropertyDetails (propertyId : string) (st : State) : State :=
  match find (fun p => String.eqb (id p) propertyId) PROPERTIES with
  | None => st
  | Some property =>
      let st :=
        showPage "property-details"
          {| document := document st; currentPage := currentPage st;
             selectedProperty := Some property; timers := timers st |} in
      {| document := renderPropertyDetails property (document st);
         currentPage := currentPage st;
         selectedProperty := selectedProperty st;
         timers := timers st |}
  end.

End WithEngine.

(** Sample inputs: an element, the text an engine gives for inherited
    members, and two small documents. *)
Definition element (elementId cls : string) : Element :=
  {| el_id := elementId; className := cls; display := ""; textContent := "";
     src := ""; alt := ""; innerHTML := Static |}.

Definition nativeText (key : string) : string :=
  if String.eqb key "__proto__" then "[object Object]"
  else if String.eqb key "constructor" then "function Object() { [native code] }"
  else "function " +:+ key +:+ "() { [native code] }".

Definition sampleDocument : Document :=
  [element "home-page" "page active"; element "marketplace-page" "page";
   element "properties-grid" "grid";
   element "property-details-page" "page";
   element "property-savings" "savings-pill";
   element "pricing-page" "page"].

Definition documentWithoutPricing : Document :=
  [element "home-page" "page active"; element "marketplace-page" "page"].

End Navigation.

(** ** The chatbot widget: sending messages *)

Module Chatbot.
Import ChatText.

Inductive Role : Type := user | assistant | system.

(** The fields of a [ChatbotManager] and of its elements that the
    modelled methods read or write. *)
Record Manager : Type := {
  sessionId : option string;
  isOpen : bool;
  isTyping : bool;
  inputValue : ustring;
  messages : list (Role * Rendered);
  typingDisplay : string;
  sendDisabled : bool
}.

(** The state the constructor leaves. *)
Definition newManager : Manager :=
  {| sessionId := None; isOpen := false; isTyping := false;
     inputValue := []; messages := []; typingDisplay := "";
     sendDisabled := false |}.

(** The body of a POST to [/chat/message]. *)
Record MessageRequest : Type := {
  session_id : option string;
  message : ustring
}.

(** The fields [sendMessage] reads from the JSON reply; [data_message] is
    [None] when the reply carries no text. *)
Record MessageData : Type := {
  data_message : option ustring;
  completed : bool;
  preferences_collected : bool
}.

Definition addMessage (role : Role) (content : ustring) (m : Manager)
  : Manager :=
  {| sessionId := sessionId m; isOpen := isOpen m; isTyping := isTyping m;
     inputValue := inputValue m;
     messages := messages m ++ [(role, formatMessage content)];
     typingDisplay := typingDisplay m; sendDisabled := sendDisabled m |}.

Definition showTyping (m : Manager) : Manager :=
  {| sessionId := sessionId m; isOpen := isOpen m; isTyping := true;
     inputValue := inputValue m; messages := messages m;
     typingDisplay := "flex"; sendDisabled := true |}.

Definition hideTyping (m : Manager) : Manager :=
  {| sessionId := sessionId m; isOpen := isOpen m; isTyping := false;
     inputValue := inputValue m; messages := messages m;
     typingDisplay := "none"; sendDisabled := false |}.

Definition setInput (v : ustring) (m : Manager) : Manager :=
  {| sessionId := sessionId m; isOpen := isOpen m; isTyping := isTyping m;
     inputValue := v; messages := messages m;
     typingDisplay := typingDisplay m; sendDisabled := sendDisabled m |}.

Definition setOpen (b : bool) (m : Manager) : Manager :=
  {| sessionId := sessionId m; isOpen := b; isTyping := isTyping m;
     inputValue := inputValue m; messages := messages m;
     typingDisplay := typingDisplay m; sendDisabled := sendDisabled m |}.

Definition setSession (sid : option string)
    (msgs : list (Role * Rendered)) (m : Manager) : Manager :=
  {| sessionId := sid; isOpen := isOpen m; isTyping := isTyping m;
     inputValue := inputValue m; messages := msgs;
     typingDisplay := typingDisplay m; sendDisabled := sendDisabled m |}.

(** [sendMessage] up to its first [await]: the new state, and the request
    handed to [fetch], if the guard lets the call through. *)
Definition sendMessage (m : Manager) : Manager * option MessageRequest :=
  let message := trim (inputValue m) in
  if bool_decide (message = []) || isTyping m then (m, None)
  else
    let m := addMessage user message m in
    let m := setInput [] m in
    let m := showTyping m in
    (m, Some {| session_id := sessionId m; message := message |}).

(** The [catch] block of [sendMessage]. *)
Definition sendFailed (m : Manager) : Manager :=
  addMessage assistant
    (lit "Sorry, I encountered an error processing your message. Please try again.")
    (hideTyping m).

(** How the awaited [fetch] ends: rejected, or a response whose [ok] is
    given. *)
Inductive FetchResult : Type :=
| Rejected
| Response (ok : bool).

(** [sendMessage] after [response.json()] has settled; the flag tells
    whether the completion notice was scheduled. *)
Definition onJson (result : option MessageData) (m : Manager)
  : Manager * bool :=
  match result with
  | None => (sendFailed m, false)
  | Some data =>
      let m := hideTyping m in
      match data_message data with
      | None => (sendFailed m, false)
      | Some text =>
          (addMessage assistant text m,
           completed data && preferences_collected data)
      end
  end.

Definition completionNotice : ustring :=
  lit "Perfect! I have all the information I need. Our property finding team will now search for investments that match your criteria. You should hear from us soon with some exciting opportunities!".

Definition sessionError : ustring :=
  lit "Sorry, I encountered an error starting our conversation. Please try refreshing the page.".

(** What passes between the widget and [/chat/message]. *)
Inductive NetEvent : Type :=
| Sent (request : MessageRequest)
| Settled (request : MessageRequest).

(** The widget together with the asynchronous work it has started:
    [sendMessage] calls waiting for their response or for its body,
    [startSession] calls under way, completion notices scheduled, and the
    traffic with [/chat/message] so far, oldest first. *)
Record System : Type := {
  chatbot : Manager;
  awaitingFetch : list MessageRequest;
  awaitingJson : nat;
  startingSession : nat;
  notices : nat;
  log : list NetEvent
}.

Definition initial : System :=
  {| chatbot := newManager; awaitingFetch := []; awaitingJson := 0;
     startingSession := 0; notices := 0; log := [] |}.

Definition withChatbot (m : Manager) (s : System) : System :=
  {| chatbot := m; awaitingFetch := awaitingFetch s;
     awaitingJson := awaitingJson s; startingSession := startingSession s;
     notices := notices s; log := log s |}.

(** One turn of the event loop. *)
Inductive step : System → System → Prop :=
| step_type v s :
    (* the user edits the input box *)
    step s (withChatbot (setInput v (chatbot s)) s)
| step_send s :
    (* a click on Send or the Enter key runs [sendMessage] *)
    step s
      {| chatbot := fst (sendMessage (chatbot s));
         awaitingFetch :=
           awaitingFetch s ++ option_list (snd (sendMessage (chatbot s)));
         awaitingJson := awaitingJson s;
         startingSession := startingSession s;
         notices := notices s;
         log := log s ++ (Sent <$> option_list (snd (sendMessage (chatbot s)))) |}
| step_fetch_ok before request after s :
    (* a response with [ok] arrives; [sendMessage] goes on to read it *)
    awaitingFetch s = before ++ request :: after →
    step s
      {| chatbot := chatbot s;
         awaitingFetch := before ++ after;
         awaitingJson := S (awaitingJson s);
         startingSession := startingSession s;
         notices := notices s;
         log := log s ++ [Settled request] |}
| step_fetch_failed before request after (result : FetchResult) s :
    (* the request is rejected or its response is not [ok] *)
    awaitingFetch s = before ++ request :: after →
    result ≠ Response true →
    step s
      {| chatbot := sendFailed (chatbot s);
         awaitingFetch := before ++ after;
         awaitingJson := awaitingJson s;
         startingSession := startingSession s;
         notices := notices s;
         log := log s ++ [Settled request] |}
| step_json result n s :
    (* the body of a response has been read, or could not be *)
    awaitingJson s = S n →
    step s
      {| chatbot := fst (onJson result (chatbot s));
         awaitingFetch := awaitingFetch s;
         awaitingJson := n;
         startingSession := startingSession s;
         notices := if snd (onJson result (chatbot s))
                    then S (notices s) else notices s;
         log := log s |}
| step_notice n s :
    (* the completion notice scheduled a second earlier *)
    notices s = S n →
    step s
      {| chatbot := addMessage assistant completionNotice (chatbot s);
         awaitingFetch := awaitingFetch s;
         awaitingJson := awaitingJson s;
         startingSession := startingSession s;
         notices := n;
         log := log s |}
| step_open s :
    (* [openChat]: starts a session when there is none *)
    step s
      {| chatbot := setOpen true (chatbot s);
         awaitingFetch := awaitingFetch s;
         awaitingJson := awaitingJson s;
         startingSession :=
           match sessionId (chatbot s) with
           | Some sid =>
               if String.eqb sid "" then S (startingSession s)
               else startingSession s
           | None => S (startingSession s)
           end;
         notices := notices s;
         log := log s |}
| step_close s :
    (* [closeChat] *)
    step s (withChatbot (setOpen false (chatbot s)) s)
| step_session_started sid text n s :
    (* [startSession] got its reply *)
    startingSession s = S n →
    step s
      {| chatbot :=
           addMessage assistant text
             (setSession (Some sid) (messages (chatbot s)) (chatbot s));
         awaitingFetch := awaitingFetch s;
         awaitingJson := awaitingJson s;
         startingSession := n;
         notices := notices s;
         log := log s |}
| step_session_failed n s :
    (* [startSession] failed *)
    startingSession s = S n →
    step s
      {| chatbot := addMessage assistant sessionError (chatbot s);
         awaitingFetch := awaitingFetch s;
         awaitingJson := awaitingJson s;
         startingSession := n;
         notices := notices s;
         log := log s |}
| step_update_existing sid msgs s :
    (* [updateExistingChatbot], called by the search form: it replaces the
       session id, opens the widget and rewrites the message list *)
    step s
      (withChatbot
         (setOpen true (setSession (Some sid) msgs (chatbot s))) s).

Inductive reachable : System → Prop :=
| reachable_initial : reachable initial
| reachable_step s s' : reachable s → step s s' → reachable s'.

(** The traffic is serialized when every request is sent only after the
    one before it has been settled; [pending] tells whether a request is
    out at the start of the log. *)
Fixpoint serialized (pending : bool) (events : list NetEvent) : bool :=
  match events with
  | [] => true
  | Sent _ :: rest => negb pending && serialized true rest
  | Settled _ :: rest => pending && serialized false rest
  end.

(** Whether a request is out at the end of the log. *)
Fixpoint pendingAfter (pending : bool) (events : list NetEvent) : bool :=
  match events with
  | [] => pending
  | Sent _ :: rest => pendingAfter true rest
  | Settled _ :: rest => pendingAfter false rest
  end.

(** The [sendMessage] calls that have not finished. *)
Definition inProgress (s : System) : nat :=
  (length (awaitingFetch s) + awaitingJson s)%nat.

(** The invariant of the event loop: at most one [sendMessage] call is
    under way, the typing flag is on while it is, and the traffic so far is
    serialized, with a request out exactly when a call awaits its
    response. *)
Definition invariant (s : System) : Prop :=
  (inProgress s ≤ 1)%nat ∧
  (inProgress s = 1%nat → isTyping (chatbot s) = true) ∧
  serialized false (log s) = true ∧
  pendingAfter false (log s) = bool_decide (awaitingFetch s ≠ []).

(** A sample run: the user types a greeting and presses Send. *)
Definition afterTyping : System :=
  withChatbot (setInput (lit "hello") (chatbot initial)) initial.

Definition afterSending : System :=
  {| chatbot := fst (sendMessage (chatbot afterTyping));
     awaitingFetch :=
       awaitingFetch afterTyping ++
       option_list (snd (sendMessage (chatbot afterTyping)));
     awaitingJson := awaitingJson afterTyping;
     startingSession := startingSession afterTyping;
     notices := notices afterTyping;
     log := log afterTyping ++
            (Sent <$> option_list (snd (sendMessage (chatbot afterTyping)))) |}.

End Chatbot.

(** ** The reply to a chat message *)

Module Reply.
Import ChatText Chatbot.










End Reply.

(** ** The toggle button of the chat widget *)

Module Toggling.
Import Chatbot.

(** [openChat] up to its [await]: the widget is shown, and a session is
    started when there is none. *)
Definition openChat (s : System) : System :=
  {| chatbot := setOpen true (chatbot s);
     awaitingFetch := awaitingFetch s;
     awaitingJson := awaitingJson s;
     startingSession :=
       match sessionId (chatbot s) with
       | Some sid =>
           if String.eqb sid "" then S (startingSession s)
           else startingSession s
       | None => S (startingSession s)
       end;
     notices := notices s;
     log := log s |}.

Definition closeChat (s : System) : System :=
  withChatbot (setOpen false (chatbot s)) s.

(** [toggleChat], the click listener of the toggle button. *)
Definition toggleChat (s : System) : System :=
  if isOpen (chatbot s) then closeChat s else openChat s.

(** The states reached from the initial one by clicks on the toggle
    button alone. *)
Inductive toggled : System → Prop :=
| toggled_initial : toggled initial
| toggled_click s : toggled s → toggled (toggleChat s).

End Toggling.

(** ** The valuation aggregator *)

Module Valuation.

(** Modelled from the spec: the confidence tags of a price signal; the
    aggregator and its types belong to the Python back end, which is not
    among the sources. *)
Inductive Confidence : Type := high | medium | low.

(** Modelled from the spec: the sources of a price signal (back end, not
    among the sources). *)
Inductive Source : Type := MarketAVM | ThirdPartyEstimate | GenerativeEstimate.

(** Modelled from the spec: [PriceSignal], with [None] for an absent
    confidence or reasoning (back end, not among the sources). *)
Record PriceSignal : Type := {
  source : Source;
  amount : Z;
  confidence : option Confidence;
  reasoning : option string
}.

(** Modelled from the spec: the property facts handed to the estimator
    (back end, not among the sources). *)
Record PropertyFacts : Type := {
  propertyId : string;
  characteristics : list (string * string)
}.

(** Modelled from the spec: [ValuationResult] (back end, not among the
    sources). *)
Record ValuationResult : Type := {
  result_propertyId : string;
  signals : list PriceSignal;
  reconciledValue : Z;
  reconciledConfidence : Confidence;
  deltaFromMarket : Z;
  isUndervalued : bool
}.

(** Modelled from the spec: how the awaited [estimatorCall] ends: with a
    signal, with a failure, with a reply that does not parse, or not
    within the caller's timeout (back end, not among the sources). *)
Inductive EstimatorOutcome : Type :=
| Estimated (signal : PriceSignal)
| Failed
| Malformed
| TimedOut.

(** Modelled from the spec: a failed, malformed or timed-out call counts
    as "generative signal absent" (back end, not among the sources). *)
Definition generativeSignal (outcome : EstimatorOutcome) : option PriceSignal :=
  match outcome with
  | Estimated signal => Some signal
  | Failed | Malformed | TimedOut => None
  end.

(** Modelled from the spec: the reconciliation rule of section 4.3 (back
    end, not among the sources): the generative estimate when it is
    present with confidence high or medium, else the market signal at
    confidence medium. *)
Definition reconcile (marketSignal : PriceSignal)
    (generative : option PriceSignal) : Z * Confidence :=
  match generative with
  | Some g =>
      match confidence g with
      | Some high => (amount g, high)
      | Some medium => (amount g, medium)
      | Some low | None => (amount marketSignal, medium)
      end
  | None => (amount marketSignal, medium)
  end.

(** Modelled from the spec: [aggregate(propertyFacts, marketSignal,
    thirdPartySignalOrNone, estimatorCall)] of section 4.3 (back end, not
    among the sources). *)
Definition aggregate (propertyFacts : PropertyFacts)
    (marketSignal : PriceSignal) (thirdPartySignalOrNone : option PriceSignal)
    (estimatorCall : PropertyFacts → EstimatorOutcome) : ValuationResult :=
  let generative := generativeSignal (estimatorCall propertyFacts) in
  let '(value, tag) := reconcile marketSignal generative in
  let delta := value - amount marketSignal in
  {| result_propertyId := propertyId propertyFacts;
     signals :=
       marketSignal :: option_list thirdPartySignalOrNone ++
       option_list generative;
     reconciledValue := value;
     reconciledConfidence := tag;
     deltaFromMarket := delta;
     isUndervalued := delta >? 0 |}.

(** Modelled from the spec: the scenario of section 8, a market signal of
    450000 and a generative estimate of 478000 at high confidence. *)
Definition scenarioMarket : PriceSignal :=
  {| source := MarketAVM; amount := 450000; confidence := None;
     reasoning := None |}.

(** Modelled from the spec: the generative estimate of that scenario. *)
Definition scenarioEstimate : PriceSignal :=
  {| source := GenerativeEstimate; amount := 478000; confidence := Some high;
     reasoning := Some "Recent comparable sales" |}.

(** Modelled from the spec: the facts of the property being valued there. *)
Definition scenarioFacts : PropertyFacts :=
  {| propertyId := "p_001"; characteristics := [("beds", "3")] |}.

End Valuation.

(** ** The custom budget inputs *)

Module NumberInput.
Import JS Marketplace.

(** [value.replace(/,/g, '')]. *)
Fixpoint removeCommas (s : string) : string :=
  match s with
  | EmptyString => EmptyString
  | String c r =>
      if Ascii.eqb c ","%char then removeCommas r else String c (removeCommas r)
  end.

Definition isDecimalDigit (c : ascii) : bool :=
  let n := N_of_ascii c in ((48 <=? n) && (n <=? 57))%N.

(** What follows the leading decimal digits. *)
Fixpoint skipDigits (s : string) : string :=
  match s with
  | EmptyString => EmptyString
  | String c r => if isDecimalDigit c then skipDigits r else s
  end.

Definition startsWithDigit (s : string) : bool :=
  match s with
  | String c _ => isDecimalDigit c
  | EmptyString => false
  end.

(** Every character is a digit of radix [R]. *)
Fixpoint allDigits (R : Z) (s : string) : bool :=
  match s with
  | EmptyString => true
  | String c r =>
      match digitValue c with
      | Some d => (d <? R) && allDigits R r
      | None => false
      end
  end.

Definition isOneOf (c a b : ascii) : bool := Ascii.eqb c a || Ascii.eqb c b.

(** A binary, octal or hexadecimal integer literal: [Some] when the text
    starts with such a prefix, telling whether digits follow to the end. *)
Definition nonDecimalLiteral (s : string) : option bool :=
  match s with
  | String "0"%char (String p r) =>
      let digits R := negb (String.eqb r "") && allDigits R r in
      if isOneOf p "x" "X" then Some (digits 16)
      else if isOneOf p "o" "O" then Some (digits 8)
      else if isOneOf p "b" "B" then Some (digits 2)
      else None
  | _ => None
  end.

Definition stripSign (s : string) : string :=
  match s with
  | String "+"%char r => r
  | String "-"%char r => r
  | _ => s
  end.

(** Nothing, or an exponent part running to the end of the text. *)
Definition exponentPart (s : string) : bool :=
  match s with
  | EmptyString => true
  | String c r =>
      isOneOf c "e" "E" && startsWithDigit (stripSign r) &&
      String.eqb (skipDigits (stripSign r)) ""
  end.

(** An unsigned decimal literal of the string-to-number grammar. *)
Definition unsignedDecimal (s : string) : bool :=
  if String.eqb s "Infinity" then true
  else
    match skipDigits s with
    | String "."%char r =>
        (startsWithDigit s || startsWithDigit r) && exponentPart (skipDigits r)
    | afterInteger => startsWithDigit s && exponentPart afterInteger
    end.

(** Whether [Number(s)] is a number: white space around an empty text or
    around a numeric literal. *)
Definition isNumericString (s : string) : bool :=
  let t := trim s in
  if String.eqb t "" then true
  else
    match nonDecimalLiteral t with
    | Some verdict => verdict
    | None => unsignedDecimal (stripSign t)
    end.

(** [isNaN(value)] on a string. *)
Definition isNaN (value : string) : bool := negb (isNumericString value).

Definition startsWithMinus (s : string) : bool :=
  match s with
  | String c _ => Ascii.eqb c "-"%char
  | EmptyString => false
  end.

(** [formatNumberInput], as a function from the value of the input to its
    new value.  [parseInt] gives negative zero for a text such as "-0",
    which [toLocaleString] prints as "-0". *)
Definition formatNumberInput (v : string) : string :=
  let value := removeCommas v in
  if negb (String.eqb value "") && negb (isNaN value) then
    match parseInt value with
    | NaN => "NaN"
    | Num z =>
        if (z =? 0) && startsWithMinus (trimStart value) then "-0"
        else toLocaleString z
    end
  else v.

(** The custom budget form after the input listener has run on both
    fields. *)
Definition typedCustomForm (minText maxText : string) : SearchForm.DemoForm :=
  SearchForm.customForm (formatNumberInput minText) (formatNumberInput maxText).

(** The value of a digit string read from the left, [acc] being what has
    been read so far. *)
Fixpoint uintValue (u : Decimal.uint) (acc : Z) : Z :=
  match u with
  | Decimal.Nil => acc
  | Decimal.D0 u => uintValue u (10 * acc)
  | Decimal.D1 u => uintValue u (10 * acc + 1)
  | Decimal.D2 u => uintValue u (10 * acc + 2)
  | Decimal.D3 u => uintValue u (10 * acc + 3)
  | Decimal.D4 u => uintValue u (10 * acc + 4)
  | Decimal.D5 u => uintValue u (10 * acc + 5)
  | Decimal.D6 u => uintValue u (10 * acc + 6)
  | Decimal.D7 u => uintValue u (10 * acc + 7)
  | Decimal.D8 u => uintValue u (10 * acc + 8)
  | Decimal.D9 u => uintValue u (10 * acc + 9)
  end.

(** What [parseInt] makes of a sign and of the digits read. *)
Definition numberOf (sign : Z) (digits : option Z) : number :=
  match digits with
  | Some v => Num (sign * v)
  | None => NaN
  end.

(** Texts made of decimal digits only. *)
Fixpoint digitsOnly (s : string) : bool :=
  match s with
  | EmptyString => true
  | String c r => isDecimalDigit c && digitsOnly r
  end.

End NumberInput.

(** ** The summary of a search in the chat widget *)

Module FormSummary.
Import JS Marketplace ChatText Chatbot.

(** Emoji and the bullet of the summary, as UTF-16 code units. *)
Definition clipboard : ustring := [0xD83D; 0xDCCB]%N.
Definition moneyBag : ustring := [0xD83D; 0xDCB0]%N.
Definition bullet : N := 0x2022%N.

(** The own properties of the object literal [typeMap]. *)
Definition typeMap : gmap string string :=
  list_to_map
    [("primary-residence", "Primary Residence"); ("fix-flip", "Fix & Flip");
     ("rental-property", "Rental Property"); ("multi-family", "Multi-Family");
     ("quick-deals", "Quick Deals")].

(** [Array.prototype.join]. *)
Definition join (separator : ustring) (parts : list ustring) : ustring :=
  match parts with
  | [] => []
  | part :: rest => part ++ flat_map (fun q => separator ++ q) rest
  end.

(** A number used as a condition: [null], zero and NaN are falsy. *)
Definition truthyNumber (n : option Z) : bool :=
  match n with
  | Some z => negb (z =? 0)
  | None => false
  end.

(** The text of a number under [toLocaleString]; the summary only asks
    for it where the number is not [null]. *)
Definition amount (n : option Z) : ustring :=
  lit "$" ++ lit (toLocaleString (default 0 n)).

(** A session id used as a condition: [null] and the empty text are
    falsy. *)
Definition truthySession (sid : option string) : bool :=
  match sid with
  | Some text => negb (String.eqb text "")
  | None => false
  end.

Section WithEngine.

(** The text the engine gives for a member of [Object.prototype], as in
    [Navigation]: [typeMap] is an ordinary object too. *)
Variable inheritedText : string → string.

(** [typeMap[type] || type], as [join] renders it. *)
Definition typeName (type : string) : string :=
  match typeMap !! type with
  | Some name => name
  | None =>
      if bool_decide (type ∈ Navigation.objectPrototypeKeys)
      then inheritedText type
      else type
  end.

Definition createFormDataSummary (frontendData : SearchForm.FrontendData)
  : ustring :=
  let parts := [] in
  let parts :=
    if negb (bool_decide (SearchForm.fd_location frontendData = []))
    then parts ++ [pin ++ lit " " ++ SearchForm.fd_location frontendData]
    else parts in
  let parts :=
    if (0 <? length (SearchForm.property_types frontendData))%nat
    then
      let typeNames :=
        (fun type => lit (typeName type)) <$>
        SearchForm.property_types frontendData in
      parts ++ [house ++ lit " " ++ join (lit ", ") typeNames]
    else parts in
  let parts :=
    if truthyNumber (SearchForm.budget_min frontendData) ||
       truthyNumber (SearchForm.budget_max frontendData)
    then
      let budget := [] in
      let budget :=
        if truthyNumber (SearchForm.budget_min frontendData)
        then budget ++ [amount (SearchForm.budget_min frontendData)]
        else budget in
      let budget :=
        if truthyNumber (SearchForm.budget_max frontendData)
        then budget ++ [amount (SearchForm.budget_max frontendData)]
        else budget in
      parts ++ [moneyBag ++ lit " " ++ join (lit " - ") budget]
    else parts in
  join (lit " " ++ [bullet] ++ lit " ") parts.

(** [updateExistingChatbot] on the widget and the work it has under way.
    [openChat] starts a session of its own when the id just stored is
    empty. *)
Definition updateExistingChatbot (chatSession : SearchForm.ChatSession)
    (frontendData : SearchForm.FrontendData) (s : System) : System :=
  let widget := chatbot s in
  let kept :=
    if truthySession (sessionId widget) &&
       negb (bool_decide
               (sessionId widget = Some (SearchForm.session_id chatSession)))
    then []
    else messages widget in
  let widget :=
    setSession (Some (SearchForm.session_id chatSession)) kept widget in
  let starting :=
    if negb (isOpen widget) &&
       negb (truthySession (sessionId widget))
    then S (startingSession s)
    else startingSession s in
  let widget := if negb (isOpen widget) then setOpen true widget else widget in
  let widget :=
    addMessage assistant (lit (SearchForm.message chatSession)) widget in
  let formSummary := createFormDataSummary frontendData in
  let widget :=
    if negb (bool_decide (formSummary = []))
    then addMessage system (clipboard ++ lit " " ++ formSummary) widget
    else widget in
  {| chatbot := widget;
     awaitingFetch := awaitingFetch s;
     awaitingJson := awaitingJson s;
     startingSession := starting;
     notices := notices s;
     log := log s |}.

End WithEngine.

(** The updates of the widget that a run of [handleSearch] asks for. *)
Definition updates (effects : list SearchForm.Effect)
  : list (SearchForm.ChatSession * SearchForm.FrontendData) :=
  omap (fun e =>
          match e with
          | SearchForm.UpdateExistingChatbot chatSession data =>
              Some (chatSession, data)
          | _ => None
          end) effects.

(** A sample: the widget after a first conversation in session "s-0". *)
Definition talking : System :=
  {| chatbot :=
       {| sessionId := Some "s-0"; isOpen := false; isTyping := false;
          inputValue := [];
          messages := [(assistant, formatMessage (lit "Hi!"))];
          typingDisplay := "none"; sendDisabled := false |};
     awaitingFetch := []; awaitingJson := 0; startingSession := 0;
     notices := 0; log := [] |}.

End FormSummary.

(** ** Initialisation of the demo page *)

Module DemoPage.
Import Navigation.

(** The functions the demo page installs as event listeners. *)
Inductive Handler : Type :=
| FillLocation
| ToggleCustomBudget
| FormatNumberInput
| ValidateBudgetRange
| HandleSearch.

(** [formatNumberInput] and [handleSearch] are functions of the script,
    the same object at every call; the others are closures made anew by
    each run of the function that installs them. *)
Definition isNamed (h : Handler) : bool :=
  match h with
  | FormatNumberInput | HandleSearch => true
  | _ => false
  end.

(** A listener: its target, as a place in the document, the event type
    and the function. *)
Record Listener : Type := {
  target : nat;
  event : string;
  handler : Handler
}.

Definition sameHandler (f g : Handler) : bool :=
  match f, g with
  | FillLocation, FillLocation
  | ToggleCustomBudget, ToggleCustomBudget
  | FormatNumberInput, FormatNumberInput
  | ValidateBudgetRange, ValidateBudgetRange
  | HandleSearch, HandleSearch => true
  | _, _ => false
  end.

Definition sameListener (a b : Listener) : bool :=
  (target a =? target b)%nat && String.eqb (event a) (event b) &&
  sameHandler (handler a) (handler b).

(** [addEventListener]: a function already listening for the same event
    on the same target is not added again. *)
Definition addEventListener (l : Listener) (listeners : list Listener)
  : list Listener :=
  if isNamed (handler l) && existsb (sameListener l) listeners
  then listeners
  else listeners ++ [l].

Record State : Type := {
  demoPageInitialized : bool;
  listeners : list Listener
}.

Definition initialState : State :=
  {| demoPageInitialized := false; listeners := [] |}.

(** [document.querySelectorAll] for a class: the places of the elements
    that have it, in document order; [i] is the place of the head of
    [doc]. *)
Fixpoint querySelectorAllFrom (i : nat) (cls : string) (doc : Document)
  : list nat :=
  match doc with
  | [] => []
  | e :: rest =>
      (if hasClass cls e then [i] else []) ++
      querySelectorAllFrom (S i) cls rest
  end.

(** [if (el) el.addEventListener(type, f)]. *)
Definition listenIfPresent (el : option nat) (type : string) (f : Handler)
    (ls : list Listener) : list Listener :=
  match el with
  | Some i => addEventListener {| target := i; event := type; handler := f |} ls
  | None => ls
  end.

Definition initLocationExamples (doc : Document) (ls : list Listener)
  : list Listener :=
  let examples := querySelectorAllFrom 0 "demo-example" doc in
  let locationInput := getElementById doc "demo-location" in
  match locationInput with
  | None => ls
  | Some _ =>
      foldl (fun ls example =>
               addEventListener
                 {| target := example; event := "click";
                    handler := FillLocation |} ls)
        ls examples
  end.

Definition initBudgetFunctionality (doc : Document) (ls : list Listener)
  : list Listener :=
  let customBudgetToggle := getElementById doc "custom-budget-toggle" in
  let customBudgetInputs := getElementById doc "custom-budget-inputs" in
  let minPriceSelect := getElementById doc "min-price" in
  let maxPriceSelect := getElementById doc "max-price" in
  match customBudgetToggle, customBudgetInputs with
  | Some toggle, Some _ =>
      let ls :=
        addEventListener
          {| target := toggle; event := "change";
             handler := ToggleCustomBudget |} ls in
      let customMinPrice := getElementById doc "custom-min-price" in
      let customMaxPrice := getElementById doc "custom-max-price" in
      let ls := listenIfPresent customMinPrice "input" FormatNumberInput ls in
      let ls := listenIfPresent customMaxPrice "input" FormatNumberInput ls in
      let ls := listenIfPresent minPriceSelect "change" ValidateBudgetRange ls in
      let ls := listenIfPresent maxPriceSelect "change" ValidateBudgetRange ls in
      let ls := listenIfPresent customMinPrice "blur" ValidateBudgetRange ls in
      let ls := listenIfPresent customMaxPrice "blur" ValidateBudgetRange ls in
      ls
  | _, _ => ls
  end.

Definition initSearchFunctionality (doc : Document) (ls : list Listener)
  : list Listener :=
  let searchButton := getElementById doc "demo-search-btn" in
  match searchButton with
  | None => ls
  | Some button =>
      addEventListener
        {| target := button; event := "click"; handler := HandleSearch |} ls
  end.

(** [initDemoPage], run on the document as it is at that moment. *)
Definition initDemoPage (doc : Document) (st : State) : State :=
  if demoPageInitialized st then st
  else
    let ls := listeners st in
    let ls := initLocationExamples doc ls in
    let ls := initBudgetFunctionality doc ls in
    let ls := initSearchFunctionality doc ls in
    {| demoPageInitialized := true; listeners := ls |}.

(** The click listeners that run [handleSearch]. *)
Definition searchListeners (st : State) : list Listener :=
  List.filter (fun l => sameHandler (handler l) HandleSearch) (listeners st).

(** A sample demo page. *)
Definition demoDocument : Document :=
  [element "demo-page" "page"; element "demo-location" "input";
   element "example-1" "demo-example"; element "example-2" "demo-example";
   element "custom-budget-toggle" ""; element "custom-budget-inputs" "";
   element "min-price" ""; element "max-price" "";
   element "custom-min-price" ""; element "custom-max-price" "";
   element "demo-search-btn" "btn"].

End DemoPage.

(** ** The buttons of the pricing page *)

Module PricingPage.
Import ChatText Navigation.

(** Which of the two loops of [initPricingPage] installed a listener. *)
Inductive Installer : Type :=
| PricingCta
| FinalCta.

(** A click listener on a button, the button given by its place in the
    document. *)
Record Listener : Type := {
  target : nat;
  installer : Installer
}.

Inductive Effect : Type :=
| ShowPage (pageId : string)
| Alert (text : string).

Section WithButtons.

(** The places of the elements that the descendant selector
    [.pricing-final-cta .btn] matches. *)
Variable finalButtons : list nat.

(** [initPricingPage]: every button gets one more listener, a new closure
    at each run. *)
Definition initPricingPage (doc : Document) (ls : list Listener)
  : list Listener :=
  let ls :=
    foldl (fun ls button =>
             ls ++ [{| target := button; installer := PricingCta |}])
      ls (DemoPage.querySelectorAllFrom 0 "pricing-cta" doc) in
  foldl (fun ls button =>
           ls ++ [{| target := button; installer := FinalCta |}])
    ls finalButtons.

End WithButtons.

(** [button.textContent.includes(text)]. *)
Definition textIncludes (button : Element) (text : string) : bool :=
  includes (lit (textContent button)) (lit text).

(** What a listener does when its button is clicked. *)
Definition onClick (l : Listener) (button : Element) : list Effect :=
  match installer l with
  | PricingCta =>
      if textIncludes button "Start Free Trial" then [ShowPage "signup"]
      else if textIncludes button "Contact Sales"
      then [Alert "Thank you for your interest! Our sales team will contact you within 24 hours."]
      else []
  | FinalCta =>
      if textIncludes button "Start Free Trial" then [ShowPage "signup"]
      else if textIncludes button "Book a Demo"
      then [Alert "Demo booking coming soon! Please contact us for a personalized demonstration."]
      else []
  end.

(** A click on the element at place [i]: its listeners run in the order
    in which they were added. *)
Definition click (doc : Document) (ls : list Listener) (i : nat)
  : list Effect :=
  match doc !! i with
  | Some button =>
      flat_map (fun l => if (target l =? i)%nat then onClick l button else [])
        ls
  | None => []
  end.

(** A sample pricing page. *)
Definition pricingDocument : Document :=
  [element "pricing-page" "page";
   setTextContent "Contact Sales" (element "cta-sales" "btn pricing-cta");
   setTextContent "Start Free Trial" (element "cta-trial" "btn pricing-cta")].

End PricingPage.

(** * Properties *)

(** ** The search form *)

Module SearchFormFacts.
Import JS SearchForm.

Example parseInt_samples :
  parseInt "  42px" = Num 42 ∧ parseInt "" = NaN ∧ parseInt "-0x1F" = Num (-31) ∧
  parseInt "500,000" = Num 500 ∧ parseIntValue None = NaN.
Proof. repeat split. Qed.

Example trim_samples :
  ChatText.trim (ChatText.lit "  Austin, TX ") = ChatText.lit "Austin, TX" ∧
  ChatText.trim (ChatText.lit "   ") = [] ∧
  ChatText.trim [0xA0; 0x2028; 0xFEFF]%N = [].
Proof. repeat split. Qed.

Lemma elem_of_pushIf b tag strategies t :
  t ∈ pushIf b tag strategies ↔ t ∈ strategies ∨ (ticked b ∧ t = tag).
Proof.
  unfold pushIf, ticked, truthy.
  destruct b as [[]|]; simpl.
  - rewrite elem_of_app, list_elem_of_singleton. tauto.
  - intuition discriminate.
  - intuition discriminate.
Qed.

Lemma elem_of_getSelectedStrategies f t :
  t ∈ getSelectedStrategies f ↔
    (ticked (primary_residence f) ∧ t = "primary-residence") ∨
    (ticked (fix_flip f) ∧ t = "fix-flip") ∨
    (ticked (rental_property f) ∧ t = "rental-property") ∨
    (ticked (multi_family f) ∧ t = "multi-family") ∨
    (ticked (quick_deals f) ∧ t = "quick-deals").
Proof.
  unfold getSelectedStrategies.
  rewrite !elem_of_pushIf, elem_of_nil. tauto.
Qed.

Lemma getSelectedStrategies_NoDup f : NoDup (getSelectedStrategies f).
Proof.
  unfold getSelectedStrategies, pushIf, truthy.
  destruct (primary_residence f) as [[]|], (fix_flip f) as [[]|],
    (rental_property f) as [[]|], (multi_family f) as [[]|],
    (quick_deals f) as [[]|]; simpl;
    repeat (apply NoDup_cons; split;
            [rewrite ?elem_of_cons, ?elem_of_nil; intuition discriminate|]);
    apply NoDup_nil_2.
Qed.

Lemma budget_of_form f :
  min (budget (getSearchFormData f)) = orZero (parseIntValue (minField f)) ∧
  max (budget (getSearchFormData f)) = orZero (parseIntValue (maxField f)).
Proof.
  unfold getSearchFormData, minField, maxField.
  destruct (truthy (custom_budget_toggle f)); simpl; auto.
Qed.

Lemma validateSearchData_true data :
  fst (validateSearchData data) = true →
  snd (validateSearchData data) = [] ∧
  ChatText.trim (location data) ≠ [] ∧ location data ≠ [] ∧
  propertyTypes data ≠ [].
Proof.
  unfold validateSearchData.
  destruct (bool_decide (location data = [])) eqn:E1; simpl; [discriminate|].
  destruct (bool_decide (ChatText.trim (location data) = [])) eqn:E2; simpl;
    [discriminate|].
  destruct (propertyTypes data) as [|t ts] eqn:E3; simpl; [discriminate|].
  intros _. apply bool_decide_eq_false in E1, E2.
  repeat split; auto; discriminate.
Qed.

Lemma requests_app l1 l2 : requests (l1 ++ l2) = requests l1 ++ requests l2.
Proof. unfold requests. apply omap_app. Qed.

Lemma requests_start env data :
  ∀ d, d ∈ requests (fst (startChatbotWithFormData env data)) →
       d = frontendData data.
Proof.
  intros d. unfold startChatbotWithFormData.
  destruct (chatbot_widget env); simpl.
  - destruct (startResponse env) as [m|st tx|m|cs]; simpl;
      try (rewrite list_elem_of_singleton; auto).
    destruct (updateError env); simpl;
      rewrite list_elem_of_singleton; auto.
  - rewrite elem_of_nil. tauto.
Qed.

(** Every request [handleSearch] sends is the [frontendData] of the form,
    and it is sent only after validation has passed. *)
Lemma requests_handleSearch env f d :
  d ∈ requests (handleSearch env f) →
  d = frontendData (getSearchFormData f) ∧
  fst (validateSearchData (getSearchFormData f)) = true.
Proof.
  unfold handleSearch.
  destruct (validateSearchData (getSearchFormData f)) as [valid alerts] eqn:V.
  destruct valid; simpl.
  - pose proof (validateSearchData_true (getSearchFormData f)) as H.
    rewrite V in H. destruct (H eq_refl) as [Ha _]. simpl in Ha. subst alerts.
    pose proof (requests_start env (getSearchFormData f)) as R.
    destruct (startChatbotWithFormData env (getSearchFormData f))
      as [effects thrown].
    simpl in *. rewrite requests_app.
    intros Hd. apply elem_of_app in Hd as [Hd|Hd]; [auto|].
    destruct thrown; simpl in Hd; apply elem_of_nil in Hd; tauto.
  - revert V. unfold validateSearchData.
    repeat match goal with
           | |- context [if ?c then _ else _] => destruct c
           end; intros [= <-]; simpl;
      rewrite elem_of_nil; tauto.
Qed.

End SearchFormFacts.

Module SearchFormClaims.
Import JS SearchForm SearchFormFacts.

(** C8.  The category tags collected from the form are exactly the ticked
    categories: each of the five tags is returned if and only if its box
    is ticked (so several ticked categories are all returned), every
    returned tag belongs to the fixed five-tag vocabulary, and no tag is
    returned twice. *)
Theorem selected_categories_exact (f : DemoForm) :
  (∀ t, t ∈ getSelectedStrategies f → t ∈ categories) ∧
  ("primary-residence" ∈ getSelectedStrategies f ↔ ticked (primary_residence f)) ∧
  ("fix-flip" ∈ getSelectedStrategies f ↔ ticked (fix_flip f)) ∧
  ("rental-property" ∈ getSelectedStrategies f ↔ ticked (rental_property f)) ∧
  ("multi-family" ∈ getSelectedStrategies f ↔ ticked (multi_family f)) ∧
  ("quick-deals" ∈ getSelectedStrategies f ↔ ticked (quick_deals f)) ∧
  NoDup (getSelectedStrategies f).
Proof.
  split.
  { intros t Ht. apply elem_of_getSelectedStrategies in Ht.
    unfold categories. rewrite !elem_of_cons.
    destruct Ht as [[_ ->]|[[_ ->]|[[_ ->]|[[_ ->]|[_ ->]]]]]; tauto. }
  repeat split; try apply getSelectedStrategies_NoDup;
    try (intros Ht; apply elem_of_getSelectedStrategies in Ht;
         intuition discriminate);
    intros Ht; apply elem_of_getSelectedStrategies; tauto.
Qed.

Lemma selected_categories_exact_witness :
  getSelectedStrategies (sampleForm "300000" "500000") =
    ["primary-residence"; "rental-property"] ∧
  ("rental-property" ∈ getSelectedStrategies (sampleForm "300000" "500000") ↔
   ticked (rental_property (sampleForm "300000" "500000"))).
Proof.
  split; [reflexivity|].
  apply (selected_categories_exact (sampleForm "300000" "500000")).
Defined.

(** C5.  A search request is sent only when the location is not empty and
    at least one category box is ticked; the categories in the request are
    the ticked ones and no others; with an empty or blank location (blank
    as [String.prototype.trim] has it: white space and line terminators of
    every kind), or with no category ticked, [handleSearch] shows one alert
    and sends nothing. *)
Theorem search_needs_location_and_category (env : Env) (f : DemoForm) :
  (requests (handleSearch env f) ≠ [] →
     default [] (demo_location f) ≠ [] ∧ getSelectedStrategies f ≠ []) ∧
  (∀ d t, d ∈ requests (handleSearch env f) → t ∈ property_types d →
     t ∈ getSelectedStrategies f) ∧
  (default [] (demo_location f) = [] → handleSearch env f = [locationAlert]) ∧
  (ChatText.trim (default [] (demo_location f)) = [] →
     handleSearch env f = [locationAlert]) ∧
  (ChatText.trim (default [] (demo_location f)) ≠ [] →
     getSelectedStrategies f = [] →
     handleSearch env f = [categoryAlert]).
Proof.
  assert (Hloc : location (getSearchFormData f) = default [] (demo_location f)).
  { unfold getSearchFormData.
    destruct (truthy (custom_budget_toggle f)); reflexivity. }
  assert (Htypes : propertyTypes (getSearchFormData f) = getSelectedStrategies f).
  { unfold getSearchFormData.
    destruct (truthy (custom_budget_toggle f)); reflexivity. }
  assert (Hblank : ChatText.trim (default [] (demo_location f)) = [] →
                   handleSearch env f = [locationAlert]).
  { intros Hb. unfold handleSearch, validateSearchData.
    rewrite Hloc, Hb. rewrite orb_true_r. reflexivity. }
  split; [|split; [|split; [|split]]].
  - intros Hne.
    destruct (requests (handleSearch env f)) as [|d ds] eqn:E; [congruence|].
    assert (Hd : d ∈ requests (handleSearch env f))
      by (rewrite E; apply elem_of_cons; auto).
    apply requests_handleSearch in Hd as [_ Hv].
    apply validateSearchData_true in Hv as (_ & _ & Hl & Ht).
    rewrite <- Hloc, <- Htypes. auto.
  - intros d t Hd Ht.
    apply requests_handleSearch in Hd as [-> _].
    unfold frontendData in Ht. simpl in Ht. rewrite Htypes in Ht. exact Ht.
  - intros He. apply Hblank. rewrite He. reflexivity.
  - exact Hblank.
  - intros Hb Hn. unfold handleSearch, validateSearchData.
    rewrite Hloc, Htypes, Hn.
    assert (He : default [] (demo_location f) ≠ [])
      by (intros He; apply Hb; rewrite He; reflexivity).
    rewrite (bool_decide_eq_false_2 _ He), (bool_decide_eq_false_2 _ Hb).
    reflexivity.
Qed.

Lemma search_needs_location_and_category_witness :
  requests (handleSearch sampleEnv (sampleForm "300000" "500000")) ≠ [] ∧
  default [] (demo_location (sampleForm "300000" "500000")) ≠ [] ∧
  getSelectedStrategies (sampleForm "300000" "500000") ≠ [].
Proof.
  assert (H : requests (handleSearch sampleEnv (sampleForm "300000" "500000")) ≠ [])
    by (vm_compute; discriminate).
  split; [exact H|].
  exact (proj1 (search_needs_location_and_category sampleEnv
                  (sampleForm "300000" "500000")) H).
Defined.

(** C3, as the claim states it, fails: a form whose minimum exceeds its
    maximum is sent to the chatbot with both bounds untouched (although
    [validateBudgetRange] reports that very range as invalid). *)
Lemma inverted_budget_is_sent :
  requests (handleSearch sampleEnv (sampleForm "500000" "200000")) =
    [ {| fd_location := ChatText.lit "Austin, TX";
         property_types := ["primary-residence"; "rental-property"];
         budget_min := Some 500000;
         budget_max := Some 200000 |} ] ∧
  validateBudgetRange (sampleForm "500000" "200000") = false.
Proof. split; reflexivity. Qed.

(** C3, amended.  Input processing corrects no budget bound: every request
    [handleSearch] sends carries each bound as parsed from its own form
    field (zero or unparseable text becoming null), whatever the other
    bound is.  [validateBudgetRange] only reports on the range: it returns
    [false] exactly when both parsed bounds are positive and the minimum
    is greater than or equal to the maximum. *)
Theorem budget_bounds_forwarded_as_entered (env : Env) (f : DemoForm)
    (d : FrontendData) :
  d ∈ requests (handleSearch env f) →
  budget_min d = orNull (orZero (parseIntValue (minField f))) ∧
  budget_max d = orNull (orZero (parseIntValue (maxField f))) ∧
  (validateBudgetRange f = false ↔
     0 < orZero (parseIntValue (minField f)) ∧
     0 < orZero (parseIntValue (maxField f)) ∧
     orZero (parseIntValue (maxField f)) ≤ orZero (parseIntValue (minField f))).
Proof.
  intros Hd. apply requests_handleSearch in Hd as [-> _].
  destruct (budget_of_form f) as [Hmin Hmax].
  unfold frontendData; simpl. rewrite Hmin, Hmax.
  split; [reflexivity|]. split; [reflexivity|].
  unfold validateBudgetRange, minField, maxField.
  destruct (truthy (custom_budget_toggle f)); simpl;
    match goal with
    | |- (if ?c then _ else _) = _ ↔ _ => destruct c eqn:E
    end;
    (split; [intros H | intros (H1 & H2 & H3)]);
    try discriminate; try reflexivity;
    rewrite ?andb_true_iff, ?andb_false_iff in E; lia.
Qed.

Lemma budget_bounds_forwarded_as_entered_witness :
  ∃ d, d ∈ requests (handleSearch sampleEnv (sampleForm "300000" "500000")) ∧
       budget_min d = Some 300000 ∧ budget_max d = Some 500000.
Proof.
  eexists. split; [vm_compute; apply list_elem_of_here|].
  split;
    [etransitivity;
     [apply (budget_bounds_forwarded_as_entered sampleEnv
               (sampleForm "300000" "500000"));
      vm_compute; apply list_elem_of_here
     | reflexivity]
    | etransitivity;
      [apply (budget_bounds_forwarded_as_entered sampleEnv
                (sampleForm "300000" "500000"));
       vm_compute; apply list_elem_of_here
      | reflexivity] ].
Defined.

(** C4, as the claim states it, fails: a minimum typed in as 0 reaches the
    request as null, exactly like a minimum that was left empty. *)
Lemma zero_bound_is_sent_as_null :
  requests (handleSearch sampleEnv (customForm "0" "900")) =
    [ {| fd_location := ChatText.lit "Austin, TX";
         property_types := ["primary-residence"; "rental-property"];
         budget_min := None;
         budget_max := Some 900 |} ] ∧
  requests (handleSearch sampleEnv (customForm "0" "900")) =
  requests (handleSearch sampleEnv (customForm "" "900")).
Proof. split; reflexivity. Qed.

(** C4, amended.  A bound that is absent (its element missing, its text
    empty or not a number) is sent as null and never as zero; a bound of
    zero is sent as null as well, so null stands for "absent or zero"; a
    bound that parses to a non-zero number is sent unchanged. *)
Theorem absent_or_zero_bound_is_null (f : DemoForm) :
  let d := frontendData (getSearchFormData f) in
  (budget_min d ≠ Some 0 ∧ budget_max d ≠ Some 0) ∧
  (budget_min d = None ↔
     parseIntValue (minField f) = NaN ∨ parseIntValue (minField f) = Num 0) ∧
  (budget_max d = None ↔
     parseIntValue (maxField f) = NaN ∨ parseIntValue (maxField f) = Num 0) ∧
  (∀ z, z ≠ 0 → parseIntValue (minField f) = Num z → budget_min d = Some z) ∧
  (∀ z, z ≠ 0 → parseIntValue (maxField f) = Num z → budget_max d = Some z) ∧
  (minField f = None ∨ minField f = Some "" → budget_min d = None) ∧
  (maxField f = None ∨ maxField f = Some "" → budget_max d = None).
Proof.
  intros d. subst d.
  destruct (budget_of_form f) as [Hmin Hmax].
  unfold frontendData; simpl. rewrite Hmin, Hmax. clear Hmin Hmax.
  assert (Hnull : ∀ n, orNull (orZero n) ≠ Some 0 ∧
                       (orNull (orZero n) = None ↔ n = NaN ∨ n = Num 0) ∧
                       (∀ z, z ≠ 0 → n = Num z → orNull (orZero n) = Some z)).
  { intros [z|]; unfold orNull, orZero.
    - destruct (Z.eqb_spec z 0) as [->|Hz]; simpl.
      + repeat split; auto; try discriminate.
        intros z' Hz' [= <-]. contradiction.
      + destruct (Z.eqb_spec z 0) as [|_]; [contradiction|].
        repeat split; try discriminate.
        * intros [= ->]. contradiction.
        * intros [H|[= ->]]; [discriminate|contradiction].
        * intros z' _ [= <-]. reflexivity.
    - simpl. repeat split; auto; discriminate. }
  repeat split; try apply Hnull.
  - intros [->| ->]; reflexivity.
  - intros [->| ->]; reflexivity.
Qed.

Lemma absent_or_zero_bound_is_null_witness :
  parseIntValue (minField (sampleForm "300000" "")) = Num 300000 ∧
  budget_min (frontendData (getSearchFormData (sampleForm "300000" ""))) =
    Some 300000 ∧
  budget_max (frontendData (getSearchFormData (sampleForm "300000" ""))) = None.
Proof.
  split; [reflexivity|]. split.
  - apply (absent_or_zero_bound_is_null (sampleForm "300000" ""));
      [discriminate | reflexivity].
  - apply (absent_or_zero_bound_is_null (sampleForm "300000" "")).
    right; reflexivity.
Defined.

End SearchFormClaims.

(** ** Navigation and the marketplace *)

Module NavigationFacts.
Import JS Marketplace Navigation.

Lemma getElementById_Some doc x i :
  getElementById doc x = Some i → ∃ e, doc !! i = Some e ∧ el_id e = x.
Proof.
  revert i. induction doc as [|a doc IH]; intros i; simpl; [discriminate|].
  destruct (String.eqb (el_id a) x) eqn:E.
  - intros [= <-]. exists a. split; [reflexivity|]. now apply String.eqb_eq.
  - destruct (getElementById doc x) as [j|]; simpl; [|discriminate].
    intros [= <-]. simpl. apply IH. reflexivity.
Qed.

Lemma getElementById_None doc x e :
  getElementById doc x = None → e ∈ doc → el_id e ≠ x.
Proof.
  induction doc as [|a doc IH]; simpl; intros Hn He.
  - apply elem_of_nil in He. contradiction.
  - destruct (String.eqb (el_id a) x) eqn:E; [discriminate|].
    destruct (getElementById doc x); [discriminate|].
    apply elem_of_cons in He as [->|He]; [now apply String.eqb_neq|auto].
Qed.

(** The lookup only reads the ids. *)
Lemma getElementById_ids doc1 doc2 x :
  el_id <$> doc1 = el_id <$> doc2 → getElementById doc1 x = getElementById doc2 x.
Proof.
  revert doc2. induction doc1 as [|a doc1 IH]; intros [|b doc2]; simpl;
    try discriminate; auto.
  intros [= Hab Hrest]. rewrite Hab. rewrite (IH doc2 Hrest). reflexivity.
Qed.

Lemma ids_alter f i (doc : Document) :
  keepsId f → el_id <$> alter f i doc = el_id <$> doc.
Proof.
  intros Hf. revert i. induction doc as [|a doc IH]; intros [|i]; simpl; auto.
  - now rewrite Hf.
  - f_equal. apply IH.
Qed.

Lemma ids_fmap f (doc : Document) :
  keepsId f → el_id <$> (f <$> doc) = el_id <$> doc.
Proof.
  intros Hf. induction doc as [|a doc IH]; simpl; auto.
  rewrite Hf. f_equal. exact IH.
Qed.

Lemma ids_withElement x f doc :
  keepsId f → el_id <$> withElement x f doc = el_id <$> doc.
Proof.
  intros Hf. unfold withElement.
  destruct (getElementById doc x); [now apply ids_alter|reflexivity].
Qed.

Lemma getElementById_withElement x f doc y :
  keepsId f → getElementById (withElement x f doc) y = getElementById doc y.
Proof. intros Hf. apply getElementById_ids. now apply ids_withElement. Qed.

(** The element that [withElement] found is changed... *)
Lemma withElement_found x f doc i :
  getElementById doc x = Some i → withElement x f doc !! i = f <$> doc !! i.
Proof.
  intros H. unfold withElement. rewrite H. apply list_lookup_alter_eq.
Qed.

(** ...and an element with another id is not. *)
Lemma withElement_other x f doc i e :
  doc !! i = Some e → el_id e ≠ x → withElement x f doc !! i = Some e.
Proof.
  intros He Hne. unfold withElement.
  destruct (getElementById doc x) as [j|] eqn:Hj; [|exact He].
  destruct (decide (j = i)) as [->|Hji].
  - apply getElementById_Some in Hj as (e' & He' & Hid).
    rewrite He in He'. injection He' as <-. contradiction.
  - rewrite list_lookup_alter_ne by exact Hji. exact He.
Qed.

(** A change that keeps shapes keeps the shape of every element of the
    document. *)
Lemma withElement_shape x f doc i :
  keepsShape f → shape <$> withElement x f doc !! i = shape <$> doc !! i.
Proof.
  intros Hf. unfold withElement.
  destruct (getElementById doc x) as [j|]; [|reflexivity].
  destruct (decide (j = i)) as [->|Hji].
  - rewrite list_lookup_alter_eq.
    destruct (doc !! i) as [e0|]; simpl; [|reflexivity]. now rewrite Hf.
  - now rewrite list_lookup_alter_ne by exact Hji.
Qed.

Lemma keepsId_setDisplay v : keepsId (setDisplay v).
Proof. intros e; reflexivity. Qed.

Lemma keepsId_setTextContent v : keepsId (setTextContent v).
Proof. intros e; reflexivity. Qed.

Lemma keepsId_setInnerHTML v : keepsId (setInnerHTML v).
Proof. intros e; reflexivity. Qed.

Lemma keepsShape_setInnerHTML v : keepsShape (setInnerHTML v).
Proof. intros e; reflexivity. Qed.

Lemma keepsId_hidePage : keepsId hidePage.
Proof. intros e. unfold hidePage. destruct (hasClass "page" e); reflexivity. Qed.

Lemma hasClass_shape cls e1 e2 :
  shape e1 = shape e2 → hasClass cls e1 = hasClass cls e2.
Proof. unfold shape, hasClass. intros [= _ -> _]. reflexivity. Qed.

(** The document [showPage] leaves, up to the markup of the listing grid. *)
Lemma showPage_document txt pageId st j :
  shape <$> document (showPage txt pageId st) !! j =
  shape <$>
    match getElementById (document st) (elementIdOf txt (targetPageId pageId)) with
    | Some i => alter (setDisplay "block") i (hidePage <$> document st)
    | None => hidePage <$> document st
    end !! j.
Proof.
  unfold showPage.
  rewrite (getElementById_ids (hidePage <$> document st) (document st))
    by (apply ids_fmap, keepsId_hidePage).
  destruct (getElementById (document st) (elementIdOf txt (targetPageId pageId)));
    [|reflexivity].
  destruct (String.eqb pageId "marketplace"); [|reflexivity].
  simpl. unfold renderProperties.
  apply withElement_shape, keepsShape_setInnerHTML.
Qed.

Lemma showPage_currentPage txt pageId st :
  currentPage (showPage txt pageId st) =
  match getElementById (document st) (elementIdOf txt (targetPageId pageId)) with
  | Some _ => pageId
  | None => currentPage st
  end.
Proof.
  unfold showPage.
  rewrite (getElementById_ids (hidePage <$> document st) (document st))
    by (apply ids_fmap, keepsId_hidePage).
  destruct (getElementById (document st) (elementIdOf txt (targetPageId pageId)));
    [|reflexivity].
  destruct (String.eqb pageId "marketplace"); reflexivity.
Qed.

Lemma showPage_selectedProperty txt pageId st :
  selectedProperty (showPage txt pageId st) = selectedProperty st.
Proof.
  unfold showPage.
  destruct (getElementById _ _); [|reflexivity].
  destruct (String.eqb pageId "marketplace"); reflexivity.
Qed.

Lemma hasClass_hidePage cls e : hasClass cls (hidePage e) = hasClass cls e.
Proof. unfold hidePage. destruct (hasClass "page" e); reflexivity. Qed.

Lemma shape_eq e1 e2 :
  shape e1 = shape e2 →
  el_id e1 = el_id e2 ∧ className e1 = className e2 ∧ display e1 = display e2.
Proof. unfold shape. intros [= H1 H2 H3]. auto. Qed.

(** Every page but the target is hidden. *)
Lemma showPage_hides txt pageId st j e :
  document (showPage txt pageId st) !! j = Some e →
  hasClass "page" e = true →
  getElementById (document st) (elementIdOf txt (targetPageId pageId)) ≠ Some j →
  display e = "none".
Proof.
  intros He Hpage Hj.
  pose proof (showPage_document txt pageId st j) as H. rewrite He in H.
  assert (Hh : Some (shape e) = shape <$> (hidePage <$> document st) !! j).
  { destruct (getElementById (document st) _) as [i|]; [|exact H].
    rewrite list_lookup_alter_ne in H by congruence. exact H. }
  rewrite list_lookup_fmap in Hh.
  destruct (document st !! j) as [e0|]; [|discriminate Hh].
  change (Some (shape e) = Some (shape (hidePage e0))) in Hh.
  assert (Hs : shape e = shape (hidePage e0)) by congruence.
  rewrite (hasClass_shape _ _ _ Hs), hasClass_hidePage in Hpage.
  apply shape_eq in Hs as (_ & _ & ->).
  unfold hidePage. rewrite Hpage. reflexivity.
Qed.

(** The target, when the document has it, is displayed. *)
Lemma showPage_shows txt pageId st i :
  getElementById (document st) (elementIdOf txt (targetPageId pageId)) = Some i →
  ∃ e, document (showPage txt pageId st) !! i = Some e ∧
       el_id e = elementIdOf txt (targetPageId pageId) ∧ display e = "block".
Proof.
  intros Hi.
  pose proof (showPage_document txt pageId st i) as H. rewrite Hi in H.
  rewrite list_lookup_alter_eq, list_lookup_fmap in H.
  apply getElementById_Some in Hi as (e0 & He0 & Hid). rewrite He0 in H.
  destruct (document (showPage txt pageId st) !! i) as [e|]; [|discriminate H].
  exists e. split; [reflexivity|].
  change (Some (shape e) = Some (shape (setDisplay "block" (hidePage e0)))) in H.
  assert (Hs : shape e = shape (setDisplay "block" (hidePage e0)))
    by congruence.
  apply shape_eq in Hs as (-> & _ & ->).
  split; [|reflexivity]. rewrite <- Hid. apply keepsId_hidePage.
Qed.

(** [renderPropertyDetails] leaves every element alone whose id is not one
    of those it writes to. *)
Lemma renderPropertyDetails_other property doc i e :
  doc !! i = Some e → el_id e ∉ detailIds →
  renderPropertyDetails property doc !! i = Some e.
Proof.
  intros He Hid. unfold detailIds in Hid.
  rewrite !not_elem_of_cons in Hid.
  destruct Hid as (H1 & H2 & H3 & H4 & H5 & H6 & H7 & _).
  unfold renderPropertyDetails.
  repeat apply withElement_other; assumption.
Qed.

(** The savings pill, when the document has it, gets the text and class
    computed by [savingsPill]. *)
Lemma renderPropertyDetails_pill property doc i :
  getElementById doc "property-savings" = Some i →
  ∃ e, renderPropertyDetails property doc !! i = Some e ∧
       textContent e = fst (savingsPill (estValue property - listPrice property)) ∧
       className e = snd (savingsPill (estValue property - listPrice property)).
Proof.
  intros Hi.
  destruct (getElementById_Some _ _ _ Hi) as (e0 & He0 & Hid).
  set (pill := savingsPill (estValue property - listPrice property)).
  exists (setClassName (snd pill) (setTextContent (fst pill) e0)).
  split; [|split; reflexivity].
  unfold renderPropertyDetails. fold pill.
  apply withElement_other; [apply withElement_other|];
    [| simpl; rewrite Hid; discriminate | simpl; rewrite Hid; discriminate].
  rewrite withElement_found.
  - rewrite (withElement_other _ _ _ i e0);
      [reflexivity | | rewrite Hid; discriminate].
    repeat (apply withElement_other; [|rewrite Hid; discriminate]).
    exact He0.
  - rewrite !getElementById_withElement; [exact Hi | intros e; reflexivity ..].
Qed.

Lemma renderProperties_grid doc i :
  getElementById doc "properties-grid" = Some i →
  ∃ e, renderProperties doc !! i = Some e ∧
       innerHTML e = Cards (propertyCard <$> PROPERTIES).
Proof.
  intros Hi. unfold renderProperties. rewrite (withElement_found _ _ _ _ Hi).
  apply getElementById_Some in Hi as (e0 & -> & _).
  eexists. split; reflexivity.
Qed.

Lemma find_property_None propertyId :
  (∀ p, p ∈ PROPERTIES → id p ≠ propertyId) →
  find (fun p => String.eqb (id p) propertyId) PROPERTIES = None.
Proof.
  intros H. induction PROPERTIES as [|a l IH]; simpl; [reflexivity|].
  destruct (String.eqb_spec (id a) propertyId) as [E|E].
  - exfalso. apply (H a); [apply list_elem_of_here|exact E].
  - apply IH. intros p Hp. apply H. now apply list_elem_of_further.
Qed.

Lemma find_property_Some p :
  p ∈ PROPERTIES →
  find (fun q => String.eqb (id q) (id p)) PROPERTIES = Some p.
Proof.
  unfold PROPERTIES. rewrite !elem_of_cons, elem_of_nil.
  intros [->|[->|[->|[]]]]; reflexivity.
Qed.

End NavigationFacts.

Module MarketplaceClaims.
Import JS Marketplace Navigation NavigationFacts.

Example formatMoney_samples :
  formatMoney 485000 = "$485,000" ∧ formatMoney (-25000) = "-$25,000" ∧
  formatMoney 999 = "$999" ∧ formatMoney 0 = "$0".
Proof. repeat split. Qed.

Lemma formatMoney_negative savings :
  savings < 0 → ∃ rest, formatMoney savings = String "-"%char rest.
Proof.
  intros H. unfold formatMoney.
  destruct (Z.ltb_spec savings 0) as [_|Hge]; [|lia].
  eexists. reflexivity.
Qed.

(** The three cases of the call-out, for the card and for the pill. *)
Lemma savings_cases savings :
  (0 < savings ∧
   savingsClass savings = "positive" ∧
   savingsText savings = "You save " +:+ formatMoney savings ∧
   savingsPill savings =
     ("You save " +:+ formatMoney savings, "savings-pill positive")) ∨
  (savings < 0 ∧
   savingsClass savings = "negative" ∧
   savingsText savings = formatMoney savings ∧
   savingsPill savings = (formatMoney savings, "savings-pill negative")) ∨
  (savings = 0 ∧
   savingsClass savings = "neutral" ∧
   savingsText savings = "Fair value" ∧
   savingsPill savings = ("Fair value", "savings-pill neutral")).
Proof.
  unfold savingsClass, savingsText, savingsPill.
  destruct (Z.gtb_spec savings 0) as [Hpos|Hle].
  - left. auto.
  - destruct (Z.ltb_spec savings 0) as [Hneg|Hge].
    + right; left. auto.
    + right; right. repeat split. lia.
Qed.

(** C2.  The call-out follows the sign of the raw difference between the
    estimated value and the list price, with no tolerance band: on the
    listing card and on the details page alike it is positive ("You save
    ...") exactly when the difference is above zero, negative exactly when
    it is below zero, and neutral ("Fair value") exactly when it is zero. *)
Theorem savings_callout_no_tolerance (property : Property) :
  let savings := estValue property - listPrice property in
  let card := propertyCard property in
  (card_savings_class card = "positive" ↔ 0 < savings) ∧
  (card_savings_class card = "negative" ↔ savings < 0) ∧
  (card_savings_class card = "neutral" ↔ savings = 0) ∧
  (card_savings_text card = "You save " +:+ formatMoney savings ↔ 0 < savings) ∧
  (card_savings_text card = "Fair value" ↔ savings = 0) ∧
  (∀ doc i, getElementById doc "property-savings" = Some i →
     ∃ e, renderPropertyDetails property doc !! i = Some e ∧
          (className e = "savings-pill positive" ↔ 0 < savings) ∧
          (className e = "savings-pill negative" ↔ savings < 0) ∧
          (className e = "savings-pill neutral" ↔ savings = 0) ∧
          (textContent e = "You save " +:+ formatMoney savings ↔ 0 < savings) ∧
          (textContent e = "Fair value" ↔ savings = 0)).
Proof.
  intros savings card.
  assert (Hcard : card_savings_class card = savingsClass savings ∧
                  card_savings_text card = savingsText savings)
    by (split; reflexivity).
  destruct Hcard as [Hc Ht]. rewrite Hc, Ht. clear Hc Ht.
  assert (Hpill : ∀ doc i, getElementById doc "property-savings" = Some i →
            ∃ e, renderPropertyDetails property doc !! i = Some e ∧
                 textContent e = fst (savingsPill savings) ∧
                 className e = snd (savingsPill savings))
    by (intros doc i; apply renderPropertyDetails_pill).
  destruct (savings_cases savings)
    as [(Hs & -> & -> & Hp)|[(Hs & -> & -> & Hp)|(Hs & -> & -> & Hp)]];
    try (destruct (formatMoney_negative savings Hs) as [rest Hrest]);
    (repeat split; try (rewrite Hrest); try discriminate; try lia;
     try reflexivity;
     try (intros doc i Hi; destruct (Hpill doc i Hi) as (e & He & Ht & Hc);
          rewrite Hp in Ht, Hc; simpl in Ht, Hc;
          exists e; split; [exact He|]; rewrite Ht, Hc;
          repeat split; try (rewrite Hrest); try discriminate; try lia;
          try reflexivity)).
Qed.

Lemma savings_callout_no_tolerance_witness :
  ∃ e, renderPropertyDetails
         {| id := "p_001"; address1 := "123 Oak Street"; city := "Austin";
            state := "TX"; zip := "78701"; beds := 3; baths := 2; sqft := 1850;
            lotSqft := 7200; yearBuilt := 2018; hasGarage := true;
            type := "Single Family"; listPrice := 485000; estValue := 510000;
            photo := "hero-house.jpg";
            photos := ["hero-house.jpg"; "houses-grid.jpg"] |}
         sampleDocument !! 4%nat = Some e ∧
       className e = "savings-pill positive".
Proof.
  edestruct (savings_callout_no_tolerance
      {| id := "p_001"; address1 := "123 Oak Street"; city := "Austin";
         state := "TX"; zip := "78701"; beds := 3; baths := 2; sqft := 1850;
         lotSqft := 7200; yearBuilt := 2018; hasGarage := true;
         type := "Single Family"; listPrice := 485000; estValue := 510000;
         photo := "hero-house.jpg";
         photos := ["hero-house.jpg"; "houses-grid.jpg"] |})
    as (_ & _ & _ & _ & _ & H).
  destruct (H sampleDocument 4%nat eq_refl) as (e & He & Hpos & _).
  exists e. split; [exact He|]. apply Hpos. simpl. lia.
Defined.

End MarketplaceClaims.

Module NavigationClaims.
Import JS Marketplace Navigation NavigationFacts.

(** C9, as the claim states it, fails twice over.  When the document lacks
    the element the page maps to, [showPage] displays nothing and leaves
    [currentPage] as it was.  And a page id that names a member of
    [Object.prototype], though it has no entry in [pages], does not fall
    back to the home page: the lookup finds the inherited member, no element
    has its text as id, and again nothing is displayed. *)
Lemma showPage_without_target_element :
  (currentPage (showPage nativeText "pricing" (initialState documentWithoutPricing))
     = "home" ∧
   display <$> document
     (showPage nativeText "pricing" (initialState documentWithoutPricing))
     = ["none"; "none"]) ∧
  (pages !! "constructor" = None ∧
   currentPage (showPage nativeText "constructor" (initialState sampleDocument))
     = "home" ∧
   display <$> document
     (showPage nativeText "constructor" (initialState sampleDocument))
     = ["none"; "none"; ""; "none"; ""; "none"]).
Proof. vm_compute. repeat split. Qed.

(** C9, amended.  [showPage] is total.  Its target is the element whose id
    is [pages[pageId]], or "home-page" when that lookup yields nothing.
    Every element of class "page" other than the target ends up hidden.  If
    the document has the target, the target is displayed and [currentPage]
    becomes the requested page id, mapped or not; if it has not, no page is
    displayed and [currentPage] is unchanged. *)
Theorem showPage_shows_target_if_present (txt : string → string)
    (pageId : string) (st : State) :
  let target := elementIdOf txt (targetPageId pageId) in
  let st' := showPage txt pageId st in
  (∀ elementId, pages !! pageId = Some elementId → target = elementId) ∧
  (pagesGet pageId = None → target = "home-page") ∧
  (∀ j e, document st' !! j = Some e → hasClass "page" e = true →
     getElementById (document st) target ≠ Some j → display e = "none") ∧
  (∀ i, getElementById (document st) target = Some i →
     currentPage st' = pageId ∧
     ∃ e, document st' !! i = Some e ∧ el_id e = target ∧ display e = "block") ∧
  (getElementById (document st) target = None →
     currentPage st' = currentPage st ∧
     ∀ j e, document st' !! j = Some e → hasClass "page" e = true →
            display e = "none").
Proof.
  intros target st'. subst target st'.
  split; [|split; [|split; [|split]]].
  - intros elementId H. unfold targetPageId, pagesGet. rewrite H. reflexivity.
  - intros H. unfold targetPageId. rewrite H. reflexivity.
  - apply showPage_hides.
  - intros i Hi. split.
    + rewrite showPage_currentPage, Hi. reflexivity.
    + now apply showPage_shows.
  - intros Hn. split.
    + rewrite showPage_currentPage, Hn. reflexivity.
    + intros j e He Hp. apply (showPage_hides txt pageId st j e He Hp).
      rewrite Hn. discriminate.
Qed.

Lemma showPage_shows_target_if_present_witness :
  getElementById (document (initialState sampleDocument)) "pricing-page"
    = Some 5%nat ∧
  currentPage (showPage nativeText "pricing" (initialState sampleDocument))
    = "pricing".
Proof.
  split; [reflexivity|].
  apply (showPage_shows_target_if_present nativeText "pricing"
           (initialState sampleDocument)) with (i := 5%nat).
  reflexivity.
Defined.

(** C10.  For a property id that is not in [PROPERTIES],
    [showPropertyDetails] leaves the whole state as it is: the selected
    property, the pages and [currentPage] are unchanged and nothing is
    rendered.  For the id of a listed property it selects that property,
    and (the details page being in the document) shows the details page and
    makes it the current page. *)
Theorem showPropertyDetails_unknown_id_is_noop (txt : string → string)
    (propertyId : string) (st : State) :
  ((∀ p, p ∈ PROPERTIES → id p ≠ propertyId) →
     showPropertyDetails txt propertyId st = st) ∧
  (∀ p, p ∈ PROPERTIES → id p = propertyId →
     selectedProperty (showPropertyDetails txt propertyId st) = Some p ∧
     ∀ i, getElementById (document st) "property-details-page" = Some i →
       currentPage (showPropertyDetails txt propertyId st) = "property-details" ∧
       ∃ e, document (showPropertyDetails txt propertyId st) !! i = Some e ∧
            el_id e = "property-details-page" ∧ display e = "block").
Proof.
  split.
  - intros H. unfold showPropertyDetails.
    rewrite (find_property_None propertyId H). reflexivity.
  - intros p Hp <-. unfold showPropertyDetails.
    rewrite (find_property_Some p Hp).
    set (st0 := {| document := document st; currentPage := currentPage st;
                   selectedProperty := Some p; timers := timers st |}).
    cbn [selectedProperty currentPage document].
    split; [apply showPage_selectedProperty|].
    intros i Hi.
    assert (Ht : elementIdOf txt (targetPageId "property-details")
                 = "property-details-page") by reflexivity.
    assert (Hi0 : getElementById (document st0)
                    (elementIdOf txt (targetPageId "property-details")) = Some i)
      by (rewrite Ht; exact Hi).
    split.
    + rewrite showPage_currentPage, Hi0. reflexivity.
    + destruct (showPage_shows txt "property-details" st0 i Hi0)
        as (e & He & Hid & Hd).
      exists e. rewrite Ht in Hid.
      split; [|split; assumption].
      apply renderPropertyDetails_other; [exact He|].
      rewrite Hid. unfold detailIds.
      rewrite !not_elem_of_cons. repeat split; try discriminate.
      apply not_elem_of_nil.
Qed.

Lemma showPropertyDetails_unknown_id_is_noop_witness :
  (∀ p, p ∈ PROPERTIES → id p ≠ "p_999") ∧
  showPropertyDetails nativeText "p_999" (initialState sampleDocument)
    = initialState sampleDocument.
Proof.
  assert (H : ∀ p, p ∈ PROPERTIES → id p ≠ "p_999").
  { intros p. unfold PROPERTIES. rewrite !elem_of_cons, elem_of_nil.
    intros [->|[->|[->|[]]]]; discriminate. }
  split; [exact H|].
  exact (proj1 (showPropertyDetails_unknown_id_is_noop nativeText "p_999"
                  (initialState sampleDocument)) H).
Defined.

End NavigationClaims.

(** ** The chatbot widget *)

Module ChatTextFacts.
Import ChatText.

(** What [formatMessage] returns. *)
Lemma formatMessage_cases content :
  formatMessage content =
  if looksLikeListing content then
    match execAll (formatted content) with
    | [] => Prose (formatted content)
    | cards =>
        PropertyResults (replaceNewlines <$> introMatch content) cards
          (replaceNewlines <$> outroMatch content)
    end
  else Prose (formatted content).
Proof.
  unfold formatMessage, formatMessageSteps, looksLikeListing, formatted.
  destruct (includes content (house ++ lit " **Property")); [|reflexivity].
  destruct (includes content pin); [|reflexivity].
  cbn [andb snd]. destruct (execAll _); reflexivity.
Qed.



Example formatted_sample :
  formatted (lit "**Hi**" ++ [0x0A]%N ++ lit "*there* 2*3") =
  lit "<strong>Hi</strong><br><em>there</em> 2*3".
Proof. reflexivity. Qed.

(** On a text whose stars are still in place the property pattern finds
    the listing. *)
Example pattern_on_unformatted_text :
  (fun m => (number m, address m)) <$> execAll (replaceNewlines listingReply) =
  [(lit "1", lit "12 Elm St, Austin, TX")].
Proof. reflexivity. Qed.

Lemma stripPrefix_Some p s r : stripPrefix p s = Some r → s = p ++ r.
Proof.
  revert s. induction p as [|a p IH]; intros [|b s]; simpl;
    try discriminate; try (intros [= ->]; reflexivity).
  destruct (N.eqb_spec a b) as [->|]; [|discriminate].
  intros H. now rewrite (IH s H).
Qed.

(** The lazy group of the emphasis pattern holds no star, and the match
    ends inside the text it started in. *)
Lemma lazyUntilStar_Some s group rest :
  lazyUntilStar s = Some (group, rest) →
  starFree group ∧ (length rest < length s)%nat.
Proof.
  revert group. induction s as [|c s IH]; intros group; simpl; [discriminate|].
  destruct (N.eqb_spec c star) as [->|Hc].
  - intros [= <- <-]. split; [constructor|lia].
  - destruct (isLineTerminator c); [discriminate|].
    destruct (lazyUntilStar s) as [[g r]|]; [|discriminate].
    intros [= <- <-]. destruct (IH g eq_refl) as [Hg Hl].
    split; [constructor; assumption|lia].
Qed.

Lemma matchEm_Some s group rest :
  matchEm s = Some (group, rest) →
  starFree group ∧ (length rest < length s)%nat.
Proof.
  destruct s as [|c s]; simpl; [discriminate|].
  destruct (c =? star)%N; [|discriminate].
  intros H. apply lazyUntilStar_Some in H as [Hg Hl]. split; [exact Hg|lia].
Qed.

(** A star that opens no emphasis is not followed by another star. *)
Lemma matchEm_None_next r :
  matchEm (star :: r) = None → startsWithStar r = false.
Proof.
  simpl. destruct r as [|b r]; simpl; [reflexivity|].
  destruct (b =? star)%N; [discriminate|reflexivity].
Qed.

Lemma hasDoubleStar_cons a r :
  hasDoubleStar (a :: r) = ((a =? star)%N && startsWithStar r) || hasDoubleStar r.
Proof. destruct r as [|b r]; simpl; [now rewrite andb_false_r|reflexivity]. Qed.

Lemma hasDoubleStar_starFree_app s t :
  starFree s → hasDoubleStar (s ++ t) = hasDoubleStar t.
Proof.
  induction 1 as [|a s Ha _ IH]; [reflexivity|].
  change ((a :: s) ++ t) with (a :: (s ++ t)).
  rewrite hasDoubleStar_cons, IH.
  destruct (N.eqb_spec a star); [contradiction|reflexivity].
Qed.

Lemma hasDoubleStar_app_r s t :
  hasDoubleStar t = true → hasDoubleStar (s ++ t) = true.
Proof.
  intros H. induction s as [|a s IH]; [exact H|].
  change ((a :: s) ++ t) with (a :: (s ++ t)).
  rewrite hasDoubleStar_cons, IH. apply orb_true_r.
Qed.

Lemma starFree_lit_em : starFree (lit "<em>") ∧ starFree (lit "</em>").
Proof. split; repeat constructor; discriminate. Qed.

(** After the emphasis pass no two stars stand side by side, and the text
    starts with a star only if it did before. *)
Lemma replaceEm_stars n s :
  (length s ≤ n)%nat →
  hasDoubleStar (replaceAllFrom n matchEm (lit "<em>") (lit "</em>") s) = false ∧
  (startsWithStar (replaceAllFrom n matchEm (lit "<em>") (lit "</em>") s) = true →
   startsWithStar s = true).
Proof.
  revert s. induction n as [|n IH]; intros s Hlen.
  - destruct s; [split; [reflexivity|auto]|simpl in Hlen; lia].
  - destruct s as [|c r]; [split; [reflexivity|auto]|].
    cbn [replaceAllFrom].
    destruct (matchEm (c :: r)) as [[group rest]|] eqn:E.
    + apply matchEm_Some in E as [Hg Hl]. simpl in Hlen, Hl.
      destruct (IH rest ltac:(lia)) as [IH1 _].
      destruct starFree_lit_em as [Ho Hc].
      split.
      * rewrite !hasDoubleStar_starFree_app by assumption. exact IH1.
      * discriminate.
    + simpl in Hlen. destruct (IH r ltac:(lia)) as [IH1 IH2].
      rewrite hasDoubleStar_cons, IH1, orb_false_r.
      split; [|intros H; exact H].
      destruct (N.eqb_spec c star) as [->|Hc]; [|reflexivity].
      apply matchEm_None_next in E. simpl.
      destruct (startsWithStar (replaceAllFrom n matchEm _ _ r)) eqn:S;
        [|reflexivity].
      rewrite (IH2 eq_refl) in E. discriminate.
Qed.

Lemma formatted_no_double_star content : hasDoubleStar (formatted content) = false.
Proof. unfold formatted, replaceEm. apply replaceEm_stars. lia. Qed.

(** The property pattern needs two stars side by side. *)
Lemma matchProperty_needs_stars s :
  hasDoubleStar s = false → matchProperty s = None.
Proof.
  intros H. unfold matchProperty.
  destruct (stripPrefix (house ++ lit " **Property ") s) as [s1|] eqn:E;
    [|reflexivity].
  apply stripPrefix_Some in E. subst s. discriminate H.
Qed.

Lemma hasDoubleStar_tail a r : hasDoubleStar (a :: r) = false → hasDoubleStar r = false.
Proof. rewrite hasDoubleStar_cons. now intros [_ H]%orb_false_elim. Qed.

Lemma execAllFrom_no_stars n s : hasDoubleStar s = false → execAllFrom n s = [].
Proof.
  revert s. induction n as [|n IH]; intros s H; [reflexivity|].
  destruct s as [|a r]; [reflexivity|]. cbn [execAllFrom].
  rewrite (matchProperty_needs_stars _ H).
  apply IH. exact (hasDoubleStar_tail _ _ H).
Qed.

(** A slip in [formatMessage]: the property pattern is run over
    [formatted], in which the bold and emphasis passes have already
    rewritten every pair of stars, so it never matches and every reply comes
    out as its formatted prose. *)
Lemma formatMessage_is_prose content :
  formatMessage content = Prose (formatted content).
Proof.
  rewrite formatMessage_cases. unfold execAll.
  rewrite (execAllFrom_no_stars _ _ (formatted_no_double_star content)).
  destruct (looksLikeListing content); reflexivity.
Qed.

(** With fuel for every position the scan does not depend on the fuel. *)
Lemma replaceAllFrom_enough matchAt opening closing :
  (∀ s group rest, matchAt s = Some (group, rest) → (length rest < length s)%nat) →
  ∀ n m s, (length s ≤ n)%nat → (length s ≤ m)%nat →
    replaceAllFrom n matchAt opening closing s =
    replaceAllFrom m matchAt opening closing s.
Proof.
  intros Hshort. induction n as [|n IH]; intros m s Hn Hm.
  - destruct s; [destruct m; reflexivity|simpl in Hn; lia].
  - destruct s as [|c r]; [destruct m; reflexivity|].
    destruct m as [|m]; [simpl in Hm; lia|]. cbn [replaceAllFrom].
    simpl in Hn, Hm.
    destruct (matchAt (c :: r)) as [[group rest]|] eqn:E.
    + apply Hshort in E. simpl in E. rewrite (IH m rest) by lia. reflexivity.
    + rewrite (IH m r) by lia. reflexivity.
Qed.

End ChatTextFacts.

Module ChatbotFacts.
Import ChatText Chatbot.

Lemma serialized_app p l1 l2 :
  serialized p (l1 ++ l2) = serialized p l1 && serialized (pendingAfter p l1) l2.
Proof.
  revert p. induction l1 as [|[r|r] l1 IH]; intros p; simpl.
  - reflexivity.
  - rewrite IH. now rewrite andb_assoc.
  - rewrite IH. now rewrite andb_assoc.
Qed.

Lemma pendingAfter_app p l1 l2 :
  pendingAfter p (l1 ++ l2) = pendingAfter (pendingAfter p l1) l2.
Proof.
  revert p. induction l1 as [|[r|r] l1 IH]; intros p; simpl; auto.
Qed.

(** While the typing indicator is on, [sendMessage] does nothing. *)
Lemma sendMessage_while_typing m :
  isTyping m = true → sendMessage m = (m, None).
Proof.
  intros H. unfold sendMessage. rewrite H, orb_true_r. reflexivity.
Qed.

(** What a call of [sendMessage] does to the typing flag. *)
Lemma sendMessage_cases m :
  (sendMessage m = (m, None)) ∨
  (isTyping m = false ∧ isTyping (fst (sendMessage m)) = true ∧
   ∃ r, snd (sendMessage m) = Some r ∧ message r = trim (inputValue m) ∧
        message r ≠ []).
Proof.
  unfold sendMessage.
  destruct (bool_decide (trim (inputValue m) = [])) eqn:E; simpl; [left; reflexivity|].
  destruct (isTyping m) eqn:T; simpl; [left; reflexivity|].
  right. repeat split. eexists. repeat split.
  simpl. now apply bool_decide_eq_false in E.
Qed.

Lemma isTyping_sendFailed m : isTyping (sendFailed m) = false.
Proof. reflexivity. Qed.

Lemma isTyping_onJson result m : isTyping (fst (onJson result m)) = false.
Proof.
  unfold onJson. destruct result as [data|]; [|reflexivity].
  destruct (data_message data); reflexivity.
Qed.

Lemma length_le_1_split {A} (before after : list A) x :
  (length (before ++ x :: after) ≤ 1)%nat → before = [] ∧ after = [].
Proof.
  rewrite length_app. simpl.
  destruct before, after; simpl; intros H; try lia. auto.
Qed.

Lemma invariant_initial : invariant initial.
Proof. unfold invariant, inProgress. simpl. repeat split; auto; lia. Qed.

Lemma invariant_step s s' : invariant s → step s s' → invariant s'.
Proof.
  intros (Hle & Hty & Hser & Hpend) Hstep. unfold invariant, inProgress in *.
  destruct Hstep as
    [ v s | s | before request after s Hq | before request after result s Hq Hr
    | result n s Hj | n s Hn | s | s | sid text n s Hs | n s Hs | sid msgs s ];
    simpl in *.
  - (* typing *) auto.
  - (* send *)
    destruct (sendMessage_cases (chatbot s)) as [E|(Hoff & Hon & r & E & _)].
    + rewrite E. simpl. rewrite !app_nil_r. auto.
    + rewrite E. simpl.
      assert (H0 : (length (awaitingFetch s) + awaitingJson s)%nat ≠ 1%nat)
        by (intros H1; rewrite (Hty H1) in Hoff; discriminate).
      destruct (awaitingFetch s) as [|q qs]; simpl in *; [|lia].
      assert (awaitingJson s = 0%nat) as -> by lia.
      rewrite serialized_app, pendingAfter_app, Hser, Hpend. simpl.
      repeat split; auto.
  - (* a response arrives *)
    rewrite Hq in *.
    assert (Hlen : (length (before ++ request :: after) ≤ 1)%nat) by lia.
    destruct (length_le_1_split _ _ _ Hlen) as [-> ->]. simpl in *.
    assert (awaitingJson s = 0%nat) as HJ by lia. rewrite HJ in *.
    rewrite serialized_app, pendingAfter_app, Hser, Hpend. simpl.
    repeat split; auto.
  - (* a request fails *)
    rewrite Hq in *.
    assert (Hlen : (length (before ++ request :: after) ≤ 1)%nat) by lia.
    destruct (length_le_1_split _ _ _ Hlen) as [-> ->]. simpl in *.
    assert (awaitingJson s = 0%nat) as HJ by lia. rewrite HJ in *.
    rewrite serialized_app, pendingAfter_app, Hser, Hpend. simpl.
    repeat split; auto; lia.
  - (* a body is read *)
    rewrite Hj in *.
    destruct (awaitingFetch s) as [|q qs]; simpl in *; [|lia].
    assert (n = 0%nat) as -> by lia.
    repeat split; auto; lia.
  - (* completion notice *) auto.
  - (* open *) auto.
  - (* close *) auto.
  - (* session started *) auto.
  - (* session failed *) auto.
  - (* update from the search form *) auto.
Qed.

Lemma invariant_reachable s : reachable s → invariant s.
Proof.
  induction 1 as [|s s' _ IH Hstep]; [apply invariant_initial|].
  exact (invariant_step s s' IH Hstep).
Qed.

Lemma reachable_afterSending : reachable afterSending.
Proof.
  eapply reachable_step; [eapply reachable_step; [apply reachable_initial|]|].
  - apply (step_type (lit "hello")).
  - apply (step_send afterTyping).
Qed.

End ChatbotFacts.

Module ChatbotClaims.
Import ChatText ChatTextFacts Chatbot ChatbotFacts Reply.

(** C6.  In every state the widget can reach, at most one request to
    [/chat/message] is in flight, and at most one [sendMessage] call is
    under way at all; while one is, the typing indicator is on, and with the
    indicator on [sendMessage] returns at once without sending.  So the
    requests reach the server one after the other, each sent only after the
    one before it has been settled. *)
Theorem one_message_request_in_flight (s : System) :
  reachable s →
  (length (awaitingFetch s) ≤ 1)%nat ∧
  (length (awaitingFetch s) + awaitingJson s ≤ 1)%nat ∧
  (awaitingFetch s ≠ [] ∨ awaitingJson s ≠ 0%nat → isTyping (chatbot s) = true) ∧
  (isTyping (chatbot s) = true → sendMessage (chatbot s) = (chatbot s, None)) ∧
  serialized false (log s) = true.
Proof.
  intros Hreach.
  destruct (invariant_reachable s Hreach) as (Hle & Hty & Hser & _).
  unfold inProgress in *.
  split; [lia|]. split; [exact Hle|]. split; [|split].
  - intros H. apply Hty.
    destruct H as [H|H].
    + destruct (awaitingFetch s); [contradiction|]. simpl in *. lia.
    + lia.
  - apply sendMessage_while_typing.
  - exact Hser.
Qed.

Lemma one_message_request_in_flight_witness :
  awaitingFetch afterSending =
    [ {| session_id := None; message := lit "hello" |} ] ∧
  sendMessage (chatbot afterSending) = (chatbot afterSending, None).
Proof.
  split; [reflexivity|].
  destruct (one_message_request_in_flight afterSending reachable_afterSending)
    as (_ & _ & Htyping & Hguard & _).
  apply Hguard, Htyping. left. discriminate.
Defined.





End ChatbotClaims.

(** ** The valuation aggregator *)

Module ValuationClaims.
Import Valuation.

Lemma reconcile_cases market generative :
  (∃ g, generative = Some g ∧
        (confidence g = Some high ∨ confidence g = Some medium) ∧
        reconcile market generative = (amount g, default medium (confidence g))) ∨
  ((∀ g, generative = Some g → confidence g = Some low ∨ confidence g = None) ∧
   reconcile market generative = (amount market, medium)).
Proof.
  destruct generative as [g|]; simpl.
  - destruct (confidence g) as [[]|] eqn:E.
    + left. exists g. rewrite E. auto.
    + left. exists g. rewrite E. auto.
    + right. split; [|reflexivity]. intros g' [= <-]. auto.
    + right. split; [|reflexivity]. intros g' [= <-]. auto.
  - right. split; [|reflexivity]. intros g' [=].
Qed.

(** C1.  When the estimator returns a signal with confidence high or
    medium, the reconciled value is that estimate and the reconciled
    confidence is the signal's; in every other case (the call failed, timed
    out or gave no usable reply, or the signal has low or no confidence) the
    reconciled value is the market signal's amount at confidence medium.
    [aggregate] always returns a result, and the result always carries the
    market signal. *)
Theorem reconciliation_rule (propertyFacts : PropertyFacts)
    (marketSignal : PriceSignal) (thirdParty : option PriceSignal)
    (estimatorCall : PropertyFacts → EstimatorOutcome) :
  let result := aggregate propertyFacts marketSignal thirdParty estimatorCall in
  (∀ g, estimatorCall propertyFacts = Estimated g →
        confidence g = Some high ∨ confidence g = Some medium →
        reconciledValue result = amount g ∧
        Some (reconciledConfidence result) = confidence g) ∧
  ((∀ g, estimatorCall propertyFacts = Estimated g →
         confidence g = Some low ∨ confidence g = None) →
   reconciledValue result = amount marketSignal ∧
   reconciledConfidence result = medium) ∧
  marketSignal ∈ signals result ∧
  deltaFromMarket result = reconciledValue result - amount marketSignal ∧
  (isUndervalued result = true ↔ 0 < deltaFromMarket result).
Proof.
  intros result. subst result. unfold aggregate.
  destruct (reconcile_cases marketSignal
              (generativeSignal (estimatorCall propertyFacts)))
    as [(g & Hg & Hc & ->)|(Hall & ->)]; simpl.
  - assert (Hest : estimatorCall propertyFacts = Estimated g).
    { destruct (estimatorCall propertyFacts); simpl in Hg; congruence. }
    split; [|split; [|split; [|split]]].
    + intros g' Hg' _. rewrite Hest in Hg'. injection Hg' as <-.
      split; [reflexivity|]. destruct Hc as [-> | ->]; reflexivity.
    + intros H. destruct (H g Hest) as [Hl|Hl], Hc as [Hc|Hc]; congruence.
    + apply list_elem_of_here.
    + reflexivity.
    + rewrite Z.gtb_ltb, Z.ltb_lt. reflexivity.
  - split; [|split; [|split; [|split]]].
    + intros g Hg Hc. rewrite Hg in Hall. simpl in Hall.
      destruct (Hall g eq_refl) as [Hl|Hl], Hc as [Hc|Hc]; congruence.
    + auto.
    + apply list_elem_of_here.
    + reflexivity.
    + rewrite Z.gtb_ltb, Z.ltb_lt. reflexivity.
Qed.

Lemma reconciliation_rule_witness :
  (let result :=
     aggregate scenarioFacts scenarioMarket None (fun _ => Estimated scenarioEstimate) in
   reconciledValue result = 478000 ∧ deltaFromMarket result = 28000 ∧
   isUndervalued result = true) ∧
  (let result := aggregate scenarioFacts scenarioMarket None (fun _ => TimedOut) in
   reconciledValue result = 450000 ∧ reconciledConfidence result = medium).
Proof.
  split.
  - destruct (reconciliation_rule scenarioFacts scenarioMarket None
                (fun _ => Estimated scenarioEstimate))
      as (Hgen & _ & _ & Hdelta & Hunder).
    destruct (Hgen scenarioEstimate eq_refl (or_introl eq_refl)) as [Hv _].
    cbv zeta. split; [exact Hv|]. split; [reflexivity|].
    apply Hunder. rewrite Hdelta, Hv. reflexivity.
  - destruct (reconciliation_rule scenarioFacts scenarioMarket None
                (fun _ => TimedOut)) as (_ & Hmarket & _).
    apply Hmarket. intros g Hg. discriminate Hg.
Defined.

End ValuationClaims.

(** * Further properties of the script *)

(** ** Message formatting *)

Module FormattingFacts.
Import ChatText ChatTextFacts.

Lemma lazyUntilStar_split s group rest :
  lazyUntilStar s = Some (group, rest) → s = group ++ star :: rest.
Proof.
  revert group. induction s as [|c s IH]; intros group; simpl; [discriminate|].
  destruct (N.eqb_spec c star) as [->|Hc].
  - intros [= <- <-]. reflexivity.
  - destruct (isLineTerminator c); [discriminate|].
    destruct (lazyUntilStar s) as [[g r]|]; [|discriminate].
    intros [= <- <-]. simpl. now rewrite (IH g eq_refl).
Qed.

Lemma lazyUntilStars_split s group rest :
  lazyUntilStars s = Some (group, rest) →
  s = group ++ star :: star :: rest ∧ (length rest < length s)%nat.
Proof.
  revert group. induction s as [|c s IH]; intros group; [discriminate|].
  cbn [lazyUntilStars].
  destruct (stripPrefix [star; star] (c :: s)) as [r0|] eqn:E.
  - intros [= <- <-]. apply stripPrefix_Some in E. rewrite E.
    split; [reflexivity|]. simpl. lia.
  - destruct (isLineTerminator c); [discriminate|].
    destruct (lazyUntilStars s) as [[g r]|]; [|discriminate].
    intros [= <- <-]. destruct (IH g eq_refl) as [-> Hl].
    split; [reflexivity|]. simpl. simpl in Hl. lia.
Qed.

Lemma matchBold_split s group rest :
  matchBold s = Some (group, rest) →
  s = star :: star :: group ++ star :: star :: rest ∧ (length rest < length s)%nat.
Proof.
  unfold matchBold.
  destruct (stripPrefix [star; star] s) as [r|] eqn:E; [|discriminate].
  apply stripPrefix_Some in E. intros H.
  apply lazyUntilStars_split in H as [-> Hl]. subst s.
  split; [reflexivity|]. simpl. lia.
Qed.

Lemma matchEm_split s group rest :
  matchEm s = Some (group, rest) →
  s = star :: group ++ star :: rest ∧ (length rest < length s)%nat.
Proof.
  intros H. destruct (matchEm_Some _ _ _ H) as [_ Hl]. split; [|exact Hl].
  destruct s as [|c s]; simpl in H; [discriminate|].
  destruct (N.eqb_spec c star) as [->|]; [|discriminate].
  now rewrite (lazyUntilStar_split _ _ _ H).
Qed.

(** A scan keeps every property of the characters that the inserted tags
    have too. *)
Lemma replaceAllFrom_Forall (P : N → Prop) matchAt opening closing :
  Forall P opening → Forall P closing →
  (∀ s group rest, matchAt s = Some (group, rest) → Forall P s →
                   Forall P group ∧ Forall P rest) →
  ∀ n s, Forall P s → Forall P (replaceAllFrom n matchAt opening closing s).
Proof.
  intros Ho Hc Hm. induction n as [|n IH]; intros s Hs; [exact Hs|].
  destruct s as [|c r]; [constructor|]. cbn [replaceAllFrom].
  destruct (matchAt (c :: r)) as [[group rest]|] eqn:E.
  - destruct (Hm _ _ _ E Hs) as [Hg Hr].
    rewrite !Forall_app. repeat split; auto.
  - apply Forall_cons in Hs as [Hc0 Hr]. constructor; auto.
Qed.

Lemma replaceNewlines_no_line_feed s :
  Forall (fun c => c ≠ 0x0A%N) (replaceNewlines s).
Proof.
  induction s as [|c s IH]; simpl; [constructor|].
  destruct (N.eqb_spec c 0x0A).
  - repeat (constructor; [discriminate|]). exact IH.
  - constructor; assumption.
Qed.

Lemma replaceNewlines_id s :
  Forall (fun c => c ≠ 0x0A%N) s → replaceNewlines s = s.
Proof.
  induction 1 as [|c s Hc _ IH]; simpl; [reflexivity|].
  destruct (N.eqb_spec c 0x0A); [contradiction|]. now rewrite IH.
Qed.

Lemma matchBold_not_star c r : c ≠ star → matchBold (c :: r) = None.
Proof.
  intros H. unfold matchBold. cbn [stripPrefix].
  destruct (N.eqb_spec star c); [congruence|reflexivity].
Qed.

Lemma matchEm_not_star c r : c ≠ star → matchEm (c :: r) = None.
Proof.
  intros H. cbn [matchEm].
  destruct (N.eqb_spec c star); [contradiction|reflexivity].
Qed.

(** Where the pattern cannot match at a character that is not a star, a
    scan copies a star-free stretch and goes on behind it. *)
Lemma replaceAllFrom_starFree_app matchAt opening closing :
  (∀ c r, c ≠ star → matchAt (c :: r) = None) →
  ∀ a n t, starFree a →
    replaceAllFrom (length a + n) matchAt opening closing (a ++ t) =
    a ++ replaceAllFrom n matchAt opening closing t.
Proof.
  intros Hm a n t Ha. induction Ha as [|c a Hc _ IH]; [reflexivity|].
  simpl. rewrite (Hm c _ Hc), IH. reflexivity.
Qed.

Lemma replaceAllFrom_starFree matchAt opening closing :
  (∀ c r, c ≠ star → matchAt (c :: r) = None) →
  ∀ n s, starFree s → replaceAllFrom n matchAt opening closing s = s.
Proof.
  intros Hm n s Hs. revert n. induction Hs as [|c s Hc _ IH]; intros [|n];
    try reflexivity.
  cbn [replaceAllFrom]. rewrite (Hm c _ Hc), IH. reflexivity.
Qed.

Lemma matchBold_shrinks s group rest :
  matchBold s = Some (group, rest) → (length rest < length s)%nat.
Proof. intros H. now apply matchBold_split in H. Qed.

Lemma matchEm_shrinks s group rest :
  matchEm s = Some (group, rest) → (length rest < length s)%nat.
Proof. intros H. now apply matchEm_Some in H. Qed.

Lemma starFree_app a b : starFree (a ++ b) ↔ starFree a ∧ starFree b.
Proof. apply Forall_app. Qed.

Lemma starFree_tags :
  starFree (lit "<strong>") ∧ starFree (lit "</strong>") ∧
  starFree (lit "<em>") ∧ starFree (lit "</em>").
Proof. repeat split; repeat constructor; discriminate. Qed.

(** The group of the bold pattern, when it is free of stars and of line
    terminators, ends at the next two stars. *)
Lemma lazyUntilStars_group b c :
  starFree b → Forall (fun x => isLineTerminator x = false) b →
  lazyUntilStars (b ++ star :: star :: c) = Some (b, c).
Proof.
  intros Hb Hl. induction Hb as [|x b Hx _ IH].
  - cbn [app lazyUntilStars stripPrefix]. rewrite !N.eqb_refl. reflexivity.
  - apply Forall_cons in Hl as [Hlx Hl].
    change ((x :: b) ++ star :: star :: c) with (x :: (b ++ star :: star :: c)).
    cbn [lazyUntilStars stripPrefix].
    destruct (N.eqb_spec star x); [congruence|].
    rewrite Hlx, (IH Hl). reflexivity.
Qed.

Lemma lazyUntilStar_group b c :
  starFree b → Forall (fun x => isLineTerminator x = false) b →
  lazyUntilStar (b ++ star :: c) = Some (b, c).
Proof.
  intros Hb Hl. induction Hb as [|x b Hx _ IH].
  - cbn [app lazyUntilStar]. rewrite N.eqb_refl. reflexivity.
  - apply Forall_cons in Hl as [Hlx Hl]. cbn [app lazyUntilStar].
    destruct (N.eqb_spec x star); [contradiction|].
    rewrite Hlx, (IH Hl). reflexivity.
Qed.

Lemma replaceAllFrom_match matchAt opening closing n s group rest :
  s ≠ [] → matchAt s = Some (group, rest) →
  replaceAllFrom (S n) matchAt opening closing s =
  opening ++ group ++ closing ++ replaceAllFrom n matchAt opening closing rest.
Proof.
  intros Hs E. destruct s as [|c r]; [contradiction|].
  cbn [replaceAllFrom]. rewrite E. reflexivity.
Qed.

End FormattingFacts.

Module FormattingProperties.
Import ChatText ChatTextFacts FormattingFacts.

Lemma no_line_feed_tags :
  Forall (fun c => c ≠ 0x0A%N) (lit "<strong>") ∧
  Forall (fun c => c ≠ 0x0A%N) (lit "</strong>") ∧
  Forall (fun c => c ≠ 0x0A%N) (lit "<em>") ∧
  Forall (fun c => c ≠ 0x0A%N) (lit "</em>").
Proof. repeat split; repeat constructor; discriminate. Qed.

Lemma replaceAllFrom_no_double_star n s :
  hasDoubleStar s = false →
  replaceAllFrom n matchBold (lit "<strong>") (lit "</strong>") s = s.
Proof.
  revert s. induction n as [|n IH]; intros s H; [reflexivity|].
  destruct s as [|c r]; [reflexivity|]. cbn [replaceAllFrom].
  destruct (matchBold (c :: r)) as [[g rest]|] eqn:E.
  - apply matchBold_split in E as [E _]. rewrite E in H. discriminate H.
  - rewrite (IH r (hasDoubleStar_tail _ _ H)). reflexivity.
Qed.

Lemma hasDoubleStar_starFree s : starFree s → hasDoubleStar s = false.
Proof.
  intros H. rewrite <- (app_nil_r s). now rewrite hasDoubleStar_starFree_app.
Qed.

Lemma startsWithStar_starFree_app b t :
  starFree b → b ≠ [] → startsWithStar (b ++ t) = false.
Proof.
  intros Hb Hne. destruct Hb as [|x b Hx _]; [contradiction|].
  simpl. now apply N.eqb_neq.
Qed.

(** X1.  [formatMessage] never yields property cards: whatever the reply,
    the result is its formatted prose.  (The card pattern needs two stars
    side by side, and the emphasis pass has left none.) *)
Theorem property_cards_are_never_rendered (content : ustring) :
  formatMessage content = Prose (formatted content) ∧
  ∀ intro cards outro, formatMessage content ≠ PropertyResults intro cards outro.
Proof.
  rewrite formatMessage_is_prose. split; [reflexivity|]. discriminate.
Qed.

(** X2.  The formatted text of a reply holds no line feed and no two stars
    side by side: every line feed has become a break tag and every pair of
    stars has been consumed by the bold or the emphasis pass. *)
Theorem formatted_has_no_line_feed_nor_double_star (content : ustring) :
  Forall (fun c => c ≠ 0x0A%N) (formatted content) ∧
  hasDoubleStar (formatted content) = false ∧
  includes (formatted content) [star; star] = false.
Proof.
  destruct no_line_feed_tags as (T1 & T2 & T3 & T4).
  split; [|split].
  - unfold formatted, replaceEm, replaceBold.
    apply replaceAllFrom_Forall; [assumption..| |].
    + intros s g r E Hs. apply matchEm_split in E as [-> _].
      apply Forall_cons in Hs as [_ Hs]. apply Forall_app in Hs as [Hg Hr].
      apply Forall_cons in Hr as [_ Hr]. auto.
    + apply replaceAllFrom_Forall; [assumption..| |].
      * intros s g r E Hs. apply matchBold_split in E as [-> _].
        apply Forall_cons in Hs as [_ Hs]. apply Forall_cons in Hs as [_ Hs].
        apply Forall_app in Hs as [Hg Hr].
        apply Forall_cons in Hr as [_ Hr]. apply Forall_cons in Hr as [_ Hr].
        auto.
      * apply replaceNewlines_no_line_feed.
  - apply formatted_no_double_star.
  - pose proof (formatted_no_double_star content) as H.
    induction (formatted content) as [|a s IH]; [reflexivity|].
    cbn [includes stripPrefix].
    rewrite hasDoubleStar_cons in H. apply orb_false_elim in H as [H1 H2].
    destruct (N.eqb_spec star a) as [<-|Ha].
    + rewrite N.eqb_refl in H1. simpl in H1.
      destruct s as [|b s]; [reflexivity|]. simpl in H1.
      rewrite (N.eqb_sym star b), H1. apply IH, H2.
    + apply IH, H2.
Qed.

(** X3.  Nothing is escaped: a reply with no star and no line feed is
    rendered exactly as it is, markup included. *)
Theorem plain_reply_is_rendered_verbatim (content : ustring) :
  starFree content → Forall (fun c => c ≠ 0x0A%N) content →
  formatMessage content = Prose content.
Proof.
  intros Hs Hn. rewrite formatMessage_is_prose. f_equal.
  unfold formatted, replaceEm, replaceBold.
  rewrite (replaceNewlines_id _ Hn).
  rewrite (replaceAllFrom_starFree _ _ _ matchBold_not_star _ _ Hs).
  apply (replaceAllFrom_starFree _ _ _ matchEm_not_star _ _ Hs).
Qed.

Lemma plain_reply_is_rendered_verbatim_witness :
  formatMessage (lit "<img src=x onerror=alert(1)>") =
  Prose (lit "<img src=x onerror=alert(1)>").
Proof.
  apply plain_reply_is_rendered_verbatim.
  - repeat constructor; discriminate.
  - repeat constructor; discriminate.
Defined.

(** X4.  A stretch of text between two pairs of stars comes out in a
    [strong] element, the text around it unchanged, when the three parts
    hold no star and no line feed and the stretch holds no line terminator. *)
Theorem bold_span_is_formatted (a b c : ustring) :
  starFree a → starFree b → starFree c →
  Forall (fun x => x ≠ 0x0A%N) (a ++ b ++ c) →
  Forall (fun x => isLineTerminator x = false) b →
  formatted (a ++ [star; star] ++ b ++ [star; star] ++ c) =
  a ++ lit "<strong>" ++ b ++ lit "</strong>" ++ c.
Proof.
  intros Ha Hb Hc Hn Hl.
  destruct starFree_tags as (S1 & S2 & _ & _).
  apply Forall_app in Hn as [Hna Hn]. apply Forall_app in Hn as [Hnb Hnc].
  unfold formatted.
  rewrite replaceNewlines_id
    by (rewrite !Forall_app; repeat split; auto;
        repeat (constructor; [discriminate|]); auto).
  assert (Hbold : replaceBold (a ++ [star; star] ++ b ++ [star; star] ++ c) =
                  a ++ lit "<strong>" ++ b ++ lit "</strong>" ++ c).
  { unfold replaceBold. rewrite length_app.
    rewrite (replaceAllFrom_starFree_app _ _ _ matchBold_not_star) by exact Ha.
    f_equal. cbn [app length].
    assert (Hm : matchBold (star :: star :: b ++ star :: star :: c) = Some (b, c)).
    { unfold matchBold. cbn [stripPrefix]. rewrite !N.eqb_refl.
      now apply lazyUntilStars_group. }
    assert (Hcons : star :: star :: b ++ star :: star :: c ≠ []) by discriminate.
    rewrite (replaceAllFrom_match _ _ _ _ _ _ _ Hcons Hm).
    rewrite (replaceAllFrom_starFree _ _ _ matchBold_not_star _ _ Hc).
    reflexivity. }
  rewrite Hbold. unfold replaceEm.
  apply (replaceAllFrom_starFree _ _ _ matchEm_not_star).
  rewrite !starFree_app. auto.
Qed.

Lemma bold_span_is_formatted_witness :
  formatted (lit "Price: " ++ [star; star] ++ lit "$478,000" ++ [star; star] ++
             lit " today") =
  lit "Price: <strong>$478,000</strong> today".
Proof.
  apply (bold_span_is_formatted (lit "Price: ") (lit "$478,000") (lit " today"));
    repeat constructor; discriminate.
Defined.

(** X5.  A non-empty stretch of text between two single stars comes out in
    an [em] element, the text around it unchanged, under the same
    conditions. *)
Theorem emphasis_span_is_formatted (a b c : ustring) :
  starFree a → starFree b → starFree c → b ≠ [] →
  Forall (fun x => x ≠ 0x0A%N) (a ++ b ++ c) →
  Forall (fun x => isLineTerminator x = false) b →
  formatted (a ++ [star] ++ b ++ [star] ++ c) =
  a ++ lit "<em>" ++ b ++ lit "</em>" ++ c.
Proof.
  intros Ha Hb Hc Hne Hn Hl.
  apply Forall_app in Hn as [Hna Hn]. apply Forall_app in Hn as [Hnb Hnc].
  unfold formatted.
  rewrite replaceNewlines_id
    by (rewrite !Forall_app; repeat split; auto;
        repeat (constructor; [discriminate|]); auto).
  assert (Hbold : replaceBold (a ++ [star] ++ b ++ [star] ++ c) =
                  a ++ [star] ++ b ++ [star] ++ c).
  { unfold replaceBold. apply replaceAllFrom_no_double_star.
    rewrite hasDoubleStar_starFree_app by exact Ha.
    cbn [app]. rewrite hasDoubleStar_cons.
    rewrite (startsWithStar_starFree_app b _ Hb Hne), andb_false_r.
    rewrite hasDoubleStar_starFree_app by exact Hb.
    rewrite hasDoubleStar_cons, (hasDoubleStar_starFree c Hc), orb_false_r.
    destruct Hc as [|x c Hx _]; [reflexivity|].
    simpl. now apply N.eqb_neq. }
  rewrite Hbold. unfold replaceEm. rewrite length_app.
  rewrite (replaceAllFrom_starFree_app _ _ _ matchEm_not_star) by exact Ha.
  f_equal. cbn [app length].
  assert (Hm : matchEm (star :: b ++ star :: c) = Some (b, c)).
  { cbn [matchEm]. rewrite N.eqb_refl. now apply lazyUntilStar_group. }
  assert (Hcons : star :: b ++ star :: c ≠ []) by discriminate.
  rewrite (replaceAllFrom_match _ _ _ _ _ _ _ Hcons Hm).
  rewrite (replaceAllFrom_starFree _ _ _ matchEm_not_star _ _ Hc).
  reflexivity.
Qed.

Lemma emphasis_span_is_formatted_witness :
  formatted (lit "a " ++ [star] ++ lit "great" ++ [star] ++ lit " deal") =
  lit "a <em>great</em> deal".
Proof.
  apply (emphasis_span_is_formatted (lit "a ") (lit "great") (lit " deal"));
    try (repeat constructor; discriminate).
Defined.

End FormattingProperties.

(** ** The custom budget inputs *)

Module NumberInputFacts.
Import JS Marketplace NumberInput.

Lemma readDigits_step R c r acc d :
  digitValue c = Some d → d < R →
  readDigits R (String c r) acc = readDigits R r (Some (R * default 0 acc + d)).
Proof.
  intros Hd Hlt. cbn [readDigits]. rewrite Hd.
  destruct (Z.ltb_spec d R); [reflexivity|lia].
Qed.

Lemma digitValue_nonneg c d : digitValue c = Some d → 0 ≤ d.
Proof.
  unfold digitValue.
  repeat match goal with
         | |- context [if ?b then _ else _] => destruct b eqn:?
         end; intros [= <-]; rewrite ?andb_true_iff in *; lia.
Qed.

(** Reading stops at a comma. *)
Lemma readDigits_comma R a b acc :
  readDigits R (a +:+ String ","%char b) acc = readDigits R a acc.
Proof.
  revert acc. induction a as [|c a IH]; intros acc; [reflexivity|].
  change (String c a +:+ String ","%char b) with (String c (a +:+ String ","%char b)).
  cbn [readDigits]. destruct (digitValue c) as [d|]; [|reflexivity].
  destruct (d <? R); [apply IH|reflexivity].
Qed.

(** What has been read of [n] characters is below the next power of ten. *)
Lemma readDigits_bound s acc v :
  0 ≤ default 0 acc → readDigits 10 s acc = Some v →
  0 ≤ v < (default 0 acc + 1) * 10 ^ Z.of_nat (String.length s).
Proof.
  revert acc. induction s as [|c s IH]; intros acc Hacc.
  - simpl. intros ->. simpl in *. lia.
  - cbn [readDigits].
    assert (Hpow : 10 ^ Z.of_nat (String.length (String c s)) =
                   10 * 10 ^ Z.of_nat (String.length s)).
    { cbn [String.length]. rewrite Nat2Z.inj_succ, Z.pow_succ_r by lia.
      reflexivity. }
    assert (Hp : 0 < 10 ^ Z.of_nat (String.length s)) by (apply Z.pow_pos_nonneg; lia).
    destruct (digitValue c) as [d|] eqn:Hd.
    + destruct (Z.ltb_spec d 10) as [Hlt|Hge].
      * intros H. pose proof (digitValue_nonneg _ _ Hd) as Hd0.
        apply IH in H; [|simpl; lia]. simpl in H. rewrite Hpow. nia.
      * intros ->. simpl in *. rewrite Hpow. nia.
    + intros ->. simpl in *. rewrite Hpow. nia.
Qed.

(** The grouped text starts with one to three characters of the digits,
    and then ends or goes on with a comma. *)
Lemma groupThousands_split d :
  d ≠ "" →
  ∃ a b, groupThousands d = a +:+ b ∧ (String.length a ≤ 3)%nat ∧
         (b = "" ∨ ∃ b', b = String ","%char b').
Proof.
  destruct d as [|c1 [|c2 [|c3 r3]]]; intros Hne.
  - contradiction.
  - exists (String c1 ""), "". repeat split; simpl; auto.
  - exists (String c1 (String c2 "")), "". repeat split; simpl; auto.
  - set (n3 := String.length r3).
    pose proof (Nat.div_mod_eq n3 3). pose proof (Nat.div_mod_eq (1 + n3) 3).
    pose proof (Nat.div_mod_eq (2 + n3) 3).
    pose proof (Nat.mod_upper_bound n3 3 ltac:(lia)).
    pose proof (Nat.mod_upper_bound (1 + n3) 3 ltac:(lia)).
    pose proof (Nat.mod_upper_bound (2 + n3) 3 ltac:(lia)).
    cbn [groupThousands String.length]. fold n3.
    change (S (S n3)) with (2 + n3)%nat. change (S n3) with (1 + n3)%nat.
    destruct (Nat.eqb_spec ((2 + n3) mod 3) 0) as [E2|E2].
    + exists (String c1 ""). eexists. split; [|split; [simpl; lia|right; eauto]].
      reflexivity.
    + replace ((0 <? 2 + n3)%nat && false) with false by (now rewrite andb_false_r).
      destruct (Nat.eqb_spec ((1 + n3) mod 3) 0) as [E1|E1].
      * exists (String c1 (String c2 "")). eexists.
        split; [|split; [simpl; lia|right; eauto]]. reflexivity.
      * replace ((0 <? 1 + n3)%nat && false) with false
          by (now rewrite andb_false_r).
        assert (E0 : (n3 mod 3 = 0)%nat) by lia. rewrite E0. cbn [Nat.eqb].
        destruct r3 as [|c4 r4].
        -- exists (String c1 (String c2 (String c3 ""))), "".
           repeat split; simpl; auto.
        -- exists (String c1 (String c2 (String c3 ""))). eexists.
           split; [|split; [simpl; lia|right; eauto]].
           subst n3. reflexivity.
Qed.

Lemma parseInt_digit_start c r :
  isDecimalDigit c = true →
  match r with
  | String x _ => isDecimalDigit x || Ascii.eqb x ","%char
  | EmptyString => true
  end = true →
  parseInt (String c r) = numberOf 1 (readDigits 10 (String c r) None) ∧
  parseInt (String "-"%char (String c r)) =
    numberOf (-1) (readDigits 10 (String c r) None).
Proof.
  intros Hc Hr.
  destruct c as [[] [] [] [] [] [] [] []]; try discriminate Hc;
    try (split; reflexivity).
  destruct r as [|x r']; [split; reflexivity|].
  destruct x as [[] [] [] [] [] [] [] []]; try discriminate Hr;
    split; reflexivity.
Qed.

Lemma string_of_uint_digits u : digitsOnly (NilEmpty.string_of_uint u) = true.
Proof. induction u; simpl; auto. Qed.

Lemma readDigits_string_of_uint u acc :
  readDigits 10 (NilEmpty.string_of_uint u) acc =
  match u with
  | Decimal.Nil => acc
  | _ => Some (uintValue u (default 0 acc))
  end.
Proof.
  revert acc.
  induction u as [|u IH|u IH|u IH|u IH|u IH|u IH|u IH|u IH|u IH|u IH];
    intros acc; [reflexivity|..];
    cbn [NilEmpty.string_of_uint uintValue];
    (erewrite readDigits_step; [|vm_compute; reflexivity|reflexivity]);
    rewrite IH; destruct u; cbn [uintValue default];
    rewrite ?Z.add_0_r; reflexivity.
Qed.

Lemma uintValue_of_uint_acc u acc :
  uintValue u (Z.pos acc) = Z.pos (Pos.of_uint_acc u acc).
Proof.
  revert acc. induction u; intros acc; cbn [uintValue Pos.of_uint_acc];
    [reflexivity|..];
    match goal with
    | |- uintValue _ ?x = Z.pos (Pos.of_uint_acc _ ?y) =>
        replace x with (Z.pos y) by lia
    end; auto.
Qed.

Lemma uintValue_of_uint u : uintValue u 0 = Z.of_N (Pos.of_uint u).
Proof.
  induction u; cbn [uintValue Pos.of_uint]; [reflexivity|exact IHu|..];
    match goal with
    | |- uintValue _ ?x = _ => change x with (Z.pos (Z.to_pos x))
    end; rewrite uintValue_of_uint_acc; reflexivity.
Qed.

(** The decimal text of a non-negative integer. *)
Lemma toDecimal_nonneg z :
  0 ≤ z →
  ∃ u, u ≠ Decimal.Nil ∧ toDecimal z = NilEmpty.string_of_uint u ∧
       uintValue u 0 = z.
Proof.
  intros Hz. destruct z as [|p|p]; [| |lia].
  - exists (Decimal.D0 Decimal.Nil). repeat split. discriminate.
  - assert (Hu : Pos.to_uint p ≠ Decimal.Nil).
    { intros E. pose proof (DecimalPos.Unsigned.of_to p) as H.
      rewrite E in H. discriminate H. }
    exists (Pos.to_uint p). split; [exact Hu|]. split.
    + unfold toDecimal. cbn [Z.to_int NilZero.string_of_int].
      unfold NilZero.string_of_uint. destruct (Pos.to_uint p); congruence.
    + rewrite uintValue_of_uint, DecimalPos.Unsigned.of_to. reflexivity.
Qed.

Lemma toDecimal_negative z :
  z < 0 → toDecimal z = String "-"%char (toDecimal (- z)).
Proof.
  intros Hz. destruct z as [|p|p]; try lia. reflexivity.
Qed.

Lemma digit_cases c :
  isDecimalDigit c = true →
  (c = "0" ∨ c = "1" ∨ c = "2" ∨ c = "3" ∨ c = "4" ∨
   c = "5" ∨ c = "6" ∨ c = "7" ∨ c = "8" ∨ c = "9")%char.
Proof.
  destruct c as [[] [] [] [] [] [] [] []]; intros H; try discriminate H; tauto.
Qed.

Ltac digit_cases c H :=
  destruct (digit_cases c H)
    as [->|[->|[->|[->|[->|[->|[->|[->|[->| ->]]]]]]]]].

Lemma digitsOnly_cons c r :
  digitsOnly (String c r) = true ↔ isDecimalDigit c = true ∧ digitsOnly r = true.
Proof. cbn [digitsOnly]. apply andb_true_iff. Qed.

Lemma readDigits_Some R s x : ∃ v, readDigits R s (Some x) = Some v.
Proof.
  revert x. induction s as [|c s IH]; intros x; [eauto|].
  cbn [readDigits]. destruct (digitValue c); [|eauto].
  destruct (_ <? R); eauto.
Qed.

(** The grouped form of a digit text starts with a digit, followed by a
    digit, a comma or nothing. *)
Lemma groupThousands_head d :
  digitsOnly d = true → d ≠ "" →
  ∃ c r, groupThousands d = String c r ∧ isDecimalDigit c = true ∧
         match r with
         | String x _ => isDecimalDigit x || Ascii.eqb x ","%char
         | EmptyString => true
         end = true.
Proof.
  destruct d as [|c1 r1]; intros Hd Hne; [contradiction|].
  apply digitsOnly_cons in Hd as [Hc1 Hr1].
  cbn [groupThousands].
  destruct ((0 <? String.length r1)%nat && (String.length r1 mod 3 =? 0)%nat).
  - eexists _, _. split; [reflexivity|]. split; [exact Hc1|reflexivity].
  - exists c1, (groupThousands r1). split; [reflexivity|]. split; [exact Hc1|].
    destruct r1 as [|c2 r2]; [reflexivity|].
    apply digitsOnly_cons in Hr1 as [Hc2 _]. cbn [groupThousands].
    destruct (_ && _); rewrite Hc2; reflexivity.
Qed.

Lemma append_nil_r s : s +:+ "" = s.
Proof.
  induction s as [|c s IH]; [reflexivity|].
  change (String c s +:+ "") with (String c (s +:+ "")). now rewrite IH.
Qed.

(** Read back with [parseInt], a grouped text gives less than a thousand:
    reading stops at the first comma. *)
Lemma parseInt_groupThousands d :
  digitsOnly d = true → d ≠ "" →
  ∃ v, 0 ≤ v < 1000 ∧
       parseInt (groupThousands d) = Num (1 * v) ∧
       parseInt (String "-"%char (groupThousands d)) = Num (-1 * v).
Proof.
  intros Hd Hne.
  destruct (groupThousands_head d Hd Hne) as (c & r & E & Hc & Hr).
  destruct (parseInt_digit_start c r Hc Hr) as [P1 P2].
  rewrite E, P1, P2, <- E.
  assert (Hsome : ∃ v, readDigits 10 (groupThousands d) None = Some v).
  { rewrite E. digit_cases c Hc;
      (erewrite readDigits_step; [|vm_compute; reflexivity|reflexivity]);
      apply readDigits_Some. }
  destruct Hsome as [v Hv]. exists v. rewrite Hv. split; [|split; reflexivity].
  destruct (groupThousands_split d Hne) as (a & b & Eab & Hlen & Hb).
  rewrite Eab in Hv.
  assert (Ha : readDigits 10 a None = Some v).
  { destruct Hb as [->|[b' ->]].
    - now rewrite append_nil_r in Hv.
    - now rewrite readDigits_comma in Hv. }
  apply readDigits_bound in Ha; [|simpl; lia]. simpl in Ha.
  assert (10 ^ Z.of_nat (String.length a) ≤ 10 ^ 3)
    by (apply Z.pow_le_mono_r; lia).
  lia.
Qed.

Lemma toLocaleString_shape z :
  ∃ d, digitsOnly d = true ∧ d ≠ "" ∧ toDecimal (Z.abs z) = d ∧
       toLocaleString z = (if z <? 0 then "-" else "") +:+ groupThousands d.
Proof.
  destruct (toDecimal_nonneg (Z.abs z) (Z.abs_nonneg z)) as (u & Hu & E & _).
  exists (NilEmpty.string_of_uint u).
  split; [apply string_of_uint_digits|]. split.
  - destruct u; try discriminate. contradiction.
  - split; [exact E|]. unfold toLocaleString. now rewrite E.
Qed.

Lemma parseInt_toLocaleString z :
  ∃ v, -1000 < v < 1000 ∧ parseInt (toLocaleString z) = Num v.
Proof.
  destruct (toLocaleString_shape z) as (d & Hd & Hne & _ & ->).
  destruct (parseInt_groupThousands d Hd Hne) as (v & Hv & P1 & P2).
  destruct (z <? 0).
  - exists (-1 * v). split; [lia|]. exact P2.
  - exists (1 * v). split; [lia|]. exact P1.
Qed.

Lemma digit_is_plain c :
  isDecimalDigit c = true →
  isWhiteSpace c = false ∧ Ascii.eqb c ","%char = false.
Proof. intros H. digit_cases c H; split; reflexivity. Qed.

Lemma removeCommas_digits d : digitsOnly d = true → removeCommas d = d.
Proof.
  induction d as [|c d IH]; [reflexivity|].
  intros [Hc Hd]%digitsOnly_cons. cbn [removeCommas].
  destruct (digit_is_plain c Hc) as [_ ->]. now rewrite IH.
Qed.

Lemma removeCommas_groupThousands d :
  digitsOnly d = true → removeCommas (groupThousands d) = d.
Proof.
  induction d as [|c d IH]; [reflexivity|].
  intros [Hc Hd]%digitsOnly_cons. cbn [groupThousands].
  destruct (digit_is_plain c Hc) as [_ Hcomma].
  destruct (_ && _).
  - change ("," +:+ groupThousands d) with (String ","%char (groupThousands d)).
    cbn [removeCommas]. rewrite Hcomma.
    change (Ascii.eqb "," ",") with true. cbv iota. now rewrite IH.
  - cbn [removeCommas]. rewrite Hcomma. now rewrite IH.
Qed.

Lemma skipDigits_digits d : digitsOnly d = true → skipDigits d = "".
Proof.
  induction d as [|c d IH]; [reflexivity|].
  intros [Hc Hd]%digitsOnly_cons. cbn [skipDigits]. rewrite Hc. auto.
Qed.

Lemma trimEnd_digits d : digitsOnly d = true → trimEnd d = d.
Proof.
  induction d as [|c d IH]; [reflexivity|].
  intros [Hc Hd]%digitsOnly_cons. cbn [trimEnd]. rewrite (IH Hd).
  destruct (digit_is_plain c Hc) as [-> _]. destruct d; reflexivity.
Qed.

Lemma trim_digits d : digitsOnly d = true → trim d = d.
Proof.
  intros Hd. unfold trim. destruct d as [|c d]; [reflexivity|].
  pose proof Hd as [Hc _]%digitsOnly_cons. cbn [trimStart].
  destruct (digit_is_plain c Hc) as [-> _]. now apply trimEnd_digits.
Qed.

Lemma trim_minus_digits d :
  digitsOnly d = true → d ≠ "" → trim (String "-"%char d) = String "-"%char d.
Proof.
  intros Hd Hne. unfold trim.
  change (trimStart (String "-"%char d)) with (String "-"%char d).
  cbn [trimEnd]. rewrite (trimEnd_digits d Hd).
  destruct d; [contradiction|reflexivity].
Qed.

(** A digit text, with or without a minus sign, is a numeric literal. *)
Lemma isNumericString_digits d :
  digitsOnly d = true → d ≠ "" →
  isNumericString d = true ∧ isNumericString (String "-"%char d) = true.
Proof.
  intros Hd Hne.
  assert (Hdec : unsignedDecimal d = true).
  { unfold unsignedDecimal. rewrite (skipDigits_digits d Hd).
    destruct d as [|c r]; [contradiction|].
    pose proof Hd as [Hc _]%digitsOnly_cons.
    replace (String.eqb (String c r) "Infinity") with false
      by (digit_cases c Hc; reflexivity).
    cbn [startsWithDigit]. rewrite Hc. reflexivity. }
  split.
  - unfold isNumericString. rewrite (trim_digits d Hd).
    destruct d as [|c r]; [contradiction|].
    pose proof Hd as [Hc Hr]%digitsOnly_cons.
    replace (String.eqb (String c r) "") with false by reflexivity.
    assert (Hnon : nonDecimalLiteral (String c r) = None).
    { digit_cases c Hc; try reflexivity.
      destruct r as [|p r']; [reflexivity|].
      pose proof Hr as [Hp _]%digitsOnly_cons.
      digit_cases p Hp; reflexivity. }
    rewrite Hnon.
    replace (stripSign (String c r)) with (String c r)
      by (digit_cases c Hc; reflexivity).
    exact Hdec.
  - unfold isNumericString. rewrite (trim_minus_digits d Hd Hne).
    exact Hdec.
Qed.

Lemma digits_head d :
  digitsOnly d = true → d ≠ "" →
  ∃ c r, d = String c r ∧ isDecimalDigit c = true ∧
         match r with
         | String x _ => isDecimalDigit x || Ascii.eqb x ","%char
         | EmptyString => true
         end = true.
Proof.
  destruct d as [|c r]; intros Hd Hne; [contradiction|].
  apply digitsOnly_cons in Hd as [Hc Hr]. exists c, r.
  split; [reflexivity|]. split; [exact Hc|].
  destruct r as [|x r']; [reflexivity|].
  apply digitsOnly_cons in Hr as [-> _]. reflexivity.
Qed.

(** [parseInt] reads a decimal rendering back. *)
Lemma parseInt_toDecimal z : parseInt (toDecimal z) = Num z.
Proof.
  assert (Hpos : ∀ n, 0 ≤ n →
            parseInt (toDecimal n) = Num n ∧
            parseInt (String "-"%char (toDecimal n)) = Num (- n)).
  { intros n Hn. destruct (toDecimal_nonneg n Hn) as (u & Hu & E & Hval).
    rewrite E.
    assert (Hne : NilEmpty.string_of_uint u ≠ "")
      by (destruct u; try discriminate; contradiction).
    destruct (digits_head _ (string_of_uint_digits u) Hne)
      as (c & r & Ecr & Hc & Hr).
    destruct (parseInt_digit_start c r Hc Hr) as [P1 P2].
    rewrite Ecr, P1, P2, <- Ecr, readDigits_string_of_uint.
    destruct u; [contradiction|..]; cbn [default numberOf]; rewrite Hval;
      split; f_equal; lia. }
  destruct (Z.neg_nonneg_cases z) as [Hz|Hz].
  - rewrite (toDecimal_negative z Hz).
    destruct (Hpos (- z) ltac:(lia)) as [_ ->]. f_equal. lia.
  - now apply Hpos.
Qed.

Lemma toDecimal_shape z :
  ∃ d, digitsOnly d = true ∧ d ≠ "" ∧ toDecimal (Z.abs z) = d ∧
       toDecimal z = (if z <? 0 then "-" else "") +:+ d.
Proof.
  destruct (toLocaleString_shape z) as (d & Hd & Hne & E & _).
  exists d. repeat split; auto.
  destruct (Z.ltb_spec z 0) as [Hz|Hz].
  - rewrite (toDecimal_negative z Hz), <- E.
    change ("-" +:+ toDecimal (Z.abs z)) with (String "-"%char (toDecimal (Z.abs z))).
    do 2 f_equal. lia.
  - change ("" +:+ d) with d. rewrite <- E. f_equal. lia.
Qed.

Lemma removeCommas_toDecimal z : removeCommas (toDecimal z) = toDecimal z.
Proof.
  destruct (toDecimal_shape z) as (d & Hd & Hne & _ & E).
  rewrite E. destruct (z <? 0).
  - change ("-" +:+ d) with (String "-"%char d). cbn [removeCommas].
    change (Ascii.eqb "-" ",") with false. cbv iota.
    rewrite removeCommas_digits by assumption. reflexivity.
  - change ("" +:+ d) with d. now apply removeCommas_digits.
Qed.

Lemma removeCommas_toLocaleString z :
  removeCommas (toLocaleString z) = toDecimal z.
Proof.
  destruct (toLocaleString_shape z) as (d & Hd & Hne & Ed & E).
  destruct (toDecimal_shape z) as (d' & _ & _ & Ed' & E').
  replace d' with d in E' by congruence. clear Ed Ed'.
  rewrite E, E'. destruct (z <? 0).
  - change ("-" +:+ groupThousands d) with (String "-"%char (groupThousands d)).
    cbn [removeCommas]. change (Ascii.eqb "-" ",") with false. cbv iota.
    rewrite removeCommas_groupThousands by assumption. reflexivity.
  - change ("" +:+ groupThousands d) with (groupThousands d).
    rewrite removeCommas_groupThousands by assumption. reflexivity.
Qed.

Lemma toDecimal_is_numeric z :
  negb (String.eqb (toDecimal z) "") && negb (isNaN (toDecimal z)) = true.
Proof.
  destruct (toDecimal_shape z) as (d & Hd & Hne & _ & E).
  destruct (isNumericString_digits d Hd Hne) as [N1 N2].
  unfold isNaN. rewrite E. destruct (z <? 0).
  - change ("-" +:+ d) with (String "-"%char d). now rewrite N2.
  - change ("" +:+ d) with d. rewrite N1.
    destruct d; [contradiction|reflexivity].
Qed.

(** What the listener writes once the commas are gone and the decimal text
    of an integer is left. *)
Lemma formatNumberInput_of_decimal v z :
  removeCommas v = toDecimal z → formatNumberInput v = toLocaleString z.
Proof.
  intros Hrm. unfold formatNumberInput.
  rewrite Hrm, parseInt_toDecimal, toDecimal_is_numeric.
  destruct (Z.eqb_spec z 0) as [->|Hz]; reflexivity.
Qed.

End NumberInputFacts.

Module NumberInputProperties.
Import JS SearchForm Marketplace NumberInput NumberInputFacts SearchFormFacts.

(** What [getSearchFormData] reads back from a field the listener has
    rewritten: the digits before the first comma. *)
Lemma readback_of_formatNumberInput v :
  removeCommas v ≠ "" → isNaN (removeCommas v) = false →
  -1000 < orZero (parseIntValue (Some (formatNumberInput v))) < 1000.
Proof.
  intros Hne Hnum.
  change (parseIntValue (Some (formatNumberInput v)))
    with (parseInt (formatNumberInput v)).
  unfold formatNumberInput. rewrite Hnum.
  destruct (String.eqb_spec (removeCommas v) "") as [E|_]; [contradiction|].
  cbn [negb andb].
  destruct (parseInt (removeCommas v)) as [z|]; [|vm_compute; split; reflexivity].
  destruct ((z =? 0) && startsWithMinus (trimStart (removeCommas v)));
    [vm_compute; split; reflexivity|].
  destruct (parseInt_toLocaleString z) as (b & Hb & ->).
  unfold orZero. destruct (b =? 0); lia.
Qed.

(** X6. [formatNumberInput] groups the digits of an integer typed in
    decimal, with or without the commas it wrote on an earlier keystroke:
    on the decimal text of z, and on any text that is that decimal text
    once its commas are removed, the field is rewritten to the en-US
    grouped form of z.  (z is within the range where JavaScript numbers
    are exact.) *)
Theorem formatNumberInput_groups_integers (v : string) (z : Z) :
  Z.abs z < 2 ^ 53 →
  removeCommas v = toDecimal z →
  formatNumberInput v = toLocaleString z ∧
  formatNumberInput (toDecimal z) = toLocaleString z ∧
  removeCommas (formatNumberInput v) = toDecimal z.
Proof.
  intros _ Hv. rewrite (formatNumberInput_of_decimal v z Hv).
  rewrite (formatNumberInput_of_decimal _ z (removeCommas_toDecimal z)).
  rewrite removeCommas_toLocaleString. auto.
Qed.

Lemma formatNumberInput_groups_integers_witness :
  formatNumberInput "1234,567" = "1,234,567" ∧
  formatNumberInput "1234567" = "1,234,567" ∧
  removeCommas (formatNumberInput "1234,567") = "1234567".
Proof.
  apply (formatNumberInput_groups_integers "1234,567" 1234567);
    [vm_compute; reflexivity | reflexivity].
Defined.



(** X8. The comma grouping written by [formatNumberInput] is not undone
    when the search is submitted: with the custom budget switched on and
    both fields holding what the listener wrote for numeric typed texts,
    every request [handleSearch] sends carries budget bounds of magnitude
    below 1000 (the digits before the first comma), or null. *)
Theorem grouped_budget_is_cut_at_first_comma
    (env : Env) (f : DemoForm) (minText maxText : string) (d : FrontendData) :
  truthy (custom_budget_toggle f) = true →
  custom_min_price f = Some (formatNumberInput minText) →
  custom_max_price f = Some (formatNumberInput maxText) →
  removeCommas minText ≠ "" → isNaN (removeCommas minText) = false →
  removeCommas maxText ≠ "" → isNaN (removeCommas maxText) = false →
  d ∈ requests (handleSearch env f) →
  (∀ b, budget_min d = Some b → -1000 < b < 1000) ∧
  (∀ b, budget_max d = Some b → -1000 < b < 1000).
Proof.
  intros Ht Hmin Hmax Hn1 Hm1 Hn2 Hm2 Hd.
  apply requests_handleSearch in Hd as [-> _].
  destruct (budget_of_form f) as [Emin Emax].
  unfold minField in Emin. unfold maxField in Emax.
  rewrite Ht, Hmin in Emin. rewrite Ht, Hmax in Emax.
  pose proof (readback_of_formatNumberInput minText Hn1 Hm1) as B1.
  pose proof (readback_of_formatNumberInput maxText Hn2 Hm2) as B2.
  unfold frontendData. cbn [budget_min budget_max].
  rewrite Emin, Emax. unfold orNull.
  split; intros b; destruct (_ =? 0); intros [= <-]; assumption.
Qed.

Lemma grouped_budget_is_cut_at_first_comma_witness :
  requests (handleSearch sampleEnv (typedCustomForm "300000" "500000")) =
    [{| fd_location := ChatText.lit "Austin, TX";
        property_types := ["primary-residence"; "rental-property"];
        budget_min := Some 300; budget_max := Some 500 |}] ∧
  (∀ b, Some 300 = Some b → -1000 < b < 1000) ∧
  (∀ b, Some 500 = Some b → -1000 < b < 1000).
Proof.
  split; [vm_compute; reflexivity|].
  apply (grouped_budget_is_cut_at_first_comma sampleEnv
           (typedCustomForm "300000" "500000") "300000" "500000"
           {| fd_location := ChatText.lit "Austin, TX";
              property_types := ["primary-residence"; "rental-property"];
              budget_min := Some 300; budget_max := Some 500 |});
    try reflexivity; try discriminate.
  vm_compute. apply list_elem_of_here.
Defined.

End NumberInputProperties.

(** ** The typing indicator and the messages posted *)

Module ChatbotProperties.
Import ChatText Chatbot ChatbotFacts.

Lemma trimEnd_trimEnd s : trimEnd (trimEnd s) = trimEnd s.
Proof.
  induction s as [|c r IH]; [reflexivity|].
  cbn [trimEnd]. destruct (trimEnd r) as [|x r'] eqn:E.
  - destruct (isWhiteSpace c) eqn:W; [reflexivity|].
    cbn [trimEnd]. rewrite W. reflexivity.
  - change (trimEnd (c :: x :: r'))
      with (match trimEnd (x :: r') with
            | [] => if isWhiteSpace c then [] else [c]
            | r'' => c :: r''
            end).
    rewrite IH. reflexivity.
Qed.

Lemma trimStart_head s :
  match trimStart s with
  | [] => True
  | c :: _ => isWhiteSpace c = false
  end.
Proof.
  induction s as [|c r IH]; [exact I|].
  cbn [trimStart]. destruct (isWhiteSpace c) eqn:W; [exact IH|exact W].
Qed.

Lemma trimEnd_head c r :
  isWhiteSpace c = false → ∃ r', trimEnd (c :: r) = c :: r'.
Proof.
  intros W. cbn [trimEnd]. destruct (trimEnd r); [|eauto].
  rewrite W. eauto.
Qed.

(** Trimming a trimmed text changes nothing. *)
Lemma trim_trim s : trim (trim s) = trim s.
Proof.
  unfold trim. pose proof (trimStart_head s) as H.
  destruct (trimStart s) as [|c r]; [reflexivity|].
  destruct (trimEnd_head c r H) as [r' E].
  rewrite E. cbn [trimStart]. rewrite H, <- E. apply trimEnd_trimEnd.
Qed.

Lemma indicator_fields_addMessage role content m :
  isTyping (addMessage role content m) = isTyping m ∧
  sendDisabled (addMessage role content m) = sendDisabled m ∧
  typingDisplay (addMessage role content m) = typingDisplay m.
Proof. repeat split. Qed.

Lemma indicator_fields_onJson result m :
  isTyping (fst (onJson result m)) = false ∧
  sendDisabled (fst (onJson result m)) = false ∧
  typingDisplay (fst (onJson result m)) = "none".
Proof.
  unfold onJson. destruct result as [data|]; [|repeat split].
  destruct (data_message data); repeat split.
Qed.

(** The indicator is on only while a [sendMessage] call is under way, and
    the Send button and the indicator element follow the flag. *)
Lemma indicator_step s s' :
  invariant s →
  (isTyping (chatbot s) = true → inProgress s = 1%nat) ∧
  sendDisabled (chatbot s) = isTyping (chatbot s) ∧
  (typingDisplay (chatbot s) = "flex" ↔ isTyping (chatbot s) = true) →
  step s s' →
  (isTyping (chatbot s') = true → inProgress s' = 1%nat) ∧
  sendDisabled (chatbot s') = isTyping (chatbot s') ∧
  (typingDisplay (chatbot s') = "flex" ↔ isTyping (chatbot s') = true).
Proof.
  intros (Hle & Hty & _ & _) (Hon & Hbtn & Hdisp) Hstep.
  unfold inProgress in *.
  destruct Hstep as
    [ v s | s | before request after s Hq | before request after result s Hq Hr
    | result n s Hj | n s Hn | s | s | sid text n s Hs | n s Hs | sid msgs s ];
    cbn [chatbot awaitingFetch awaitingJson withChatbot] in *;
    try (split; [|split]; assumption).
  - (* send *)
    destruct (sendMessage_cases (chatbot s)) as [E|(Hoff & Hnow & r & E & _)].
    + rewrite E. cbn [fst snd option_list]. rewrite app_nil_r. auto.
    + rewrite E. cbn [option_list]. rewrite length_app. cbn [length].
      assert (H0 : (length (awaitingFetch s) + awaitingJson s)%nat ≠ 1%nat)
        by (intros H1; rewrite (Hty H1) in Hoff; discriminate).
      unfold sendMessage in *.
      destruct (bool_decide (trim (inputValue (chatbot s)) = []) ||
                isTyping (chatbot s)); [discriminate E|].
      cbn [fst]. cbn [isTyping sendDisabled typingDisplay showTyping].
      change (length (option_list (Some r))) with 1%nat.
      split; [intros _; lia|]. split; [reflexivity|]. split; auto.
  - (* a response arrives *)
    rewrite Hq in *. rewrite length_app in *. cbn [length] in *.
    split; [intros H; specialize (Hon H); lia|]. auto.
  - (* a request fails *)
    cbn [isTyping sendDisabled typingDisplay sendFailed addMessage hideTyping].
    split; [discriminate|]. split; [reflexivity|].
    split; discriminate.
  - (* a body is read *)
    destruct (indicator_fields_onJson result (chatbot s)) as (-> & -> & ->).
    split; [discriminate|]. split; [reflexivity|].
    split; discriminate.
Qed.

Lemma indicator_reachable s :
  reachable s →
  (isTyping (chatbot s) = true → inProgress s = 1%nat) ∧
  sendDisabled (chatbot s) = isTyping (chatbot s) ∧
  (typingDisplay (chatbot s) = "flex" ↔ isTyping (chatbot s) = true).
Proof.
  induction 1 as [|s s' Hr IH Hstep].
  - split; [discriminate|]. split; [reflexivity|]. split; discriminate.
  - exact (indicator_step s s' (invariant_reachable s Hr) IH Hstep).
Qed.

(** The messages still awaiting a response and those in the traffic so far
    are trimmed and not empty. *)
Lemma posted_step s s' :
  Forall (fun r => message r ≠ [] ∧ trim (message r) = message r)
    (awaitingFetch s) ∧
  Forall (fun e => match e with
                   | Sent r | Settled r =>
                       message r ≠ [] ∧ trim (message r) = message r
                   end) (log s) →
  step s s' →
  Forall (fun r => message r ≠ [] ∧ trim (message r) = message r)
    (awaitingFetch s') ∧
  Forall (fun e => match e with
                   | Sent r | Settled r =>
                       message r ≠ [] ∧ trim (message r) = message r
                   end) (log s').
Proof.
  intros [Hq Hl] Hstep.
  destruct Hstep as
    [ v s | s | before request after s Hs | before request after result s Hs Hr
    | result n s Hj | n s Hn | s | s | sid text n s Hs | n s Hs | sid msgs s ];
    cbn [awaitingFetch log withChatbot] in *; try (split; assumption).
  - destruct (sendMessage_cases (chatbot s)) as [E|(_ & _ & r & E & Hm & Hne)].
    + rewrite E. cbn [snd option_list fmap list_fmap]. rewrite !app_nil_r. auto.
    + rewrite E.
      assert (P : message r ≠ [] ∧ trim (message r) = message r)
        by (split; [exact Hne|rewrite Hm; apply trim_trim]).
      change (option_list (Some r)) with [r].
      change (Sent <$> [r]) with [Sent r].
      split; apply Forall_app; split; auto.
  - rewrite Hs in Hq. apply Forall_app in Hq as [Hb Ha].
    apply Forall_cons in Ha as [Hreq Ha].
    split; apply Forall_app; split; auto.
  - rewrite Hs in Hq. apply Forall_app in Hq as [Hb Ha].
    apply Forall_cons in Ha as [Hreq Ha].
    split; apply Forall_app; split; auto.
Qed.

(** X9. The typing indicator cannot get stuck.  In every state the widget
    can reach, the indicator is on exactly while one [sendMessage] call is
    under way and off exactly when none is; the Send button is disabled
    exactly while the indicator is on, and the indicator element is
    displayed exactly then.  So once the reply, or the failure, of a
    message has been handled the user can send again. *)
Theorem typing_indicator_tracks_the_request (s : System) :
  reachable s →
  (isTyping (chatbot s) = true ↔ inProgress s = 1%nat) ∧
  (isTyping (chatbot s) = false ↔ inProgress s = 0%nat) ∧
  sendDisabled (chatbot s) = isTyping (chatbot s) ∧
  (typingDisplay (chatbot s) = "flex" ↔ isTyping (chatbot s) = true).
Proof.
  intros Hr.
  destruct (invariant_reachable s Hr) as (Hle & Hty & _ & _).
  destruct (indicator_reachable s Hr) as (Hon & Hbtn & Hdisp).
  split; [split; assumption|]. split; [|split; assumption].
  destruct (isTyping (chatbot s)) eqn:T.
  - specialize (Hon eq_refl). split; [discriminate|lia].
  - split; [intros _|reflexivity].
    destruct (inProgress s) as [|[|k]] eqn:E; [reflexivity| |lia].
    specialize (Hty eq_refl). discriminate.
Qed.

Lemma typing_indicator_tracks_the_request_witness :
  isTyping (chatbot afterSending) = true ∧
  inProgress afterSending = 1%nat ∧
  sendDisabled (chatbot afterSending) = true.
Proof.
  destruct (typing_indicator_tracks_the_request afterSending
              reachable_afterSending) as (Hon & _ & Hbtn & _).
  split; [reflexivity|]. split; [apply Hon; reflexivity|].
  rewrite Hbtn. reflexivity.
Defined.

(** X10. The widget never posts an empty or blank message, and what it
    posts is trimmed: every request in the traffic of a reachable state
    carries a message that is not empty and is its own trim. *)
Theorem posted_messages_are_trimmed (s : System) (r : MessageRequest) :
  reachable s →
  Sent r ∈ log s →
  message r ≠ [] ∧ trim (message r) = message r.
Proof.
  intros Hr Hin.
  assert (H : Forall (fun r => message r ≠ [] ∧ trim (message r) = message r)
                (awaitingFetch s) ∧
              Forall (fun e => match e with
                               | Sent r | Settled r =>
                                   message r ≠ [] ∧ trim (message r) = message r
                               end) (log s)).
  { clear Hin. induction Hr as [|s s' _ IH Hstep].
    - split; constructor.
    - exact (posted_step s s' IH Hstep). }
  destruct H as [_ Hl]. rewrite Forall_forall in Hl.
  exact (Hl (Sent r) Hin).
Qed.

Lemma posted_messages_are_trimmed_witness :
  lit "hello" ≠ [] ∧ trim (lit "hello") = lit "hello".
Proof.
  apply (posted_messages_are_trimmed afterSending
           {| session_id := None; message := lit "hello" |}
           reachable_afterSending).
  vm_compute. apply list_elem_of_here.
Defined.

End ChatbotProperties.

(** ** The course of a search *)

Module SearchFlowProperties.
Import JS SearchForm SearchFormFacts.

(** What [startChatbotWithFormData] does: it sends nothing, or the one
    request, or the request followed by the update of the widget; when it
    throws, its own alert comes last. *)
Lemma startChatbotWithFormData_cases env data :
  ∃ sent,
    (sent = [] ∨
     sent = [Fetch "http://localhost:8000/chat/start" (frontendData data)] ∨
     ∃ chatSession,
       sent = [Fetch "http://localhost:8000/chat/start" (frontendData data);
               UpdateExistingChatbot chatSession (frontendData data)]) ∧
    match snd (startChatbotWithFormData env data) with
    | Some m =>
        fst (startChatbotWithFormData env data) =
          sent ++
          [Alert ("Sorry, there was an error connecting to the chatbot: " +:+
                  m +:+
                  ". Please make sure the chatbot server is running on port 8001.")]
    | None => fst (startChatbotWithFormData env data) = sent
    end.
Proof.
  unfold startChatbotWithFormData.
  destruct (chatbot_widget env); cbn [negb].
  - destruct (startResponse env) as [m|st tx|m|cs].
    + eexists. split; [right; left; reflexivity|reflexivity].
    + eexists. split; [right; left; reflexivity|reflexivity].
    + eexists. split; [right; left; reflexivity|reflexivity].
    + destruct (updateError env);
        (eexists; split; [right; right; eexists; reflexivity|reflexivity]).
  - exists []. split; [left; reflexivity|reflexivity].
Qed.

Lemma handleSearch_valid env f :
  fst (validateSearchData (getSearchFormData f)) = true →
  handleSearch env f =
    [ShowLoadingState] ++
    fst (startChatbotWithFormData env (getSearchFormData f)) ++
    match snd (startChatbotWithFormData env (getSearchFormData f)) with
    | Some m => showSearchError m
    | None => []
    end ++ [HideLoadingState].
Proof.
  intros Hv. unfold handleSearch.
  destruct (validateSearchData_true _ Hv) as (Ha & _).
  destruct (validateSearchData (getSearchFormData f)) as [valid alerts].
  cbn [fst snd] in Hv, Ha. subst valid alerts. cbn [negb].
  destruct (startChatbotWithFormData env (getSearchFormData f))
    as [effects thrown].
  reflexivity.
Qed.

Lemma handleSearch_invalid env f :
  fst (validateSearchData (getSearchFormData f)) = false →
  handleSearch env f = [locationAlert] ∨ handleSearch env f = [categoryAlert].
Proof.
  unfold handleSearch, validateSearchData.
  destruct (_ || _); cbn [fst negb]; [left; reflexivity|].
  destruct (_ =? _)%nat; cbn [fst negb]; [right; reflexivity|discriminate].
Qed.




(** X12. A search that passes validation but cannot start the chatbot is
    reported by two alerts, one after the other: the alert of
    [startChatbotWithFormData], which names port 8001 although the request
    goes to port 8000, and then the alert of [showSearchError] with the same
    error message.  A search that starts the chatbot shows no alert. *)
Theorem failed_start_is_reported_twice (env : Env) (f : DemoForm) :
  fst (validateSearchData (getSearchFormData f)) = true →
  match snd (startChatbotWithFormData env (getSearchFormData f)) with
  | Some m =>
      ∃ sent,
        handleSearch env f =
          [ShowLoadingState] ++ sent ++
          [Alert ("Sorry, there was an error connecting to the chatbot: " +:+
                  m +:+
                  ". Please make sure the chatbot server is running on port 8001.");
           Alert ("Search Error: " +:+ m);
           HideLoadingState] ∧
        ∀ text, Alert text ∉ sent
  | None =>
      ∀ text, Alert text ∉ handleSearch env f
  end.
Proof.
  intros Hv. rewrite (handleSearch_valid env f Hv).
  destruct (startChatbotWithFormData_cases env (getSearchFormData f))
    as (sent & Hsent & Hstart).
  destruct (snd (startChatbotWithFormData env (getSearchFormData f))) as [m|];
    rewrite Hstart.
  - exists sent. split.
    + unfold showSearchError. rewrite <- !app_assoc. reflexivity.
    + intros text.
      destruct Hsent as [-> | [-> | [cs ->]]];
        rewrite ?not_elem_of_cons; repeat split;
        try discriminate; apply not_elem_of_nil.
  - intros text.
    destruct Hsent as [-> | [-> | [cs ->]]]; cbn [app];
      rewrite ?not_elem_of_cons; repeat split;
      try discriminate; apply not_elem_of_nil.
Qed.

Lemma failed_start_is_reported_twice_witness :
  handleSearch
    {| chatbot_widget := true; startResponse := NotOk 500 "Internal Server Error";
       updateError := None |}
    (sampleForm "300000" "500000") =
  [ShowLoadingState;
   Fetch "http://localhost:8000/chat/start"
     {| fd_location := ChatText.lit "Austin, TX";
        property_types := ["primary-residence"; "rental-property"];
        budget_min := Some 300000; budget_max := Some 500000 |};
   Alert "Sorry, there was an error connecting to the chatbot: HTTP error! status: 500 - Internal Server Error. Please make sure the chatbot server is running on port 8001.";
   Alert "Search Error: HTTP error! status: 500 - Internal Server Error";
   HideLoadingState].
Proof.
  pose proof (failed_start_is_reported_twice
                {| chatbot_widget := true;
                   startResponse := NotOk 500 "Internal Server Error";
                   updateError := None |}
                (sampleForm "300000" "500000") eq_refl) as H.
  vm_compute in H. destruct H as (sent & H & _).
  vm_compute. reflexivity.
Defined.

End SearchFlowProperties.

(** ** The summary of a search in the chat widget *)

Module FormSummaryProperties.
Import JS SearchForm SearchFormFacts SearchFlowProperties.
Import ChatText Chatbot ChatbotFacts FormSummary.

(** An update of the widget is asked for only by a search that passed
    validation and got a session, and with the data that was sent. *)
Lemma updates_handleSearch env f chatSession data :
  (chatSession, data) ∈ updates (handleSearch env f) →
  data = frontendData (getSearchFormData f) ∧
  fst (validateSearchData (getSearchFormData f)) = true ∧
  startResponse env = Ok chatSession.
Proof.
  destruct (fst (validateSearchData (getSearchFormData f))) eqn:Hv.
  - rewrite (handleSearch_valid env f Hv).
    unfold startChatbotWithFormData.
    destruct (chatbot_widget env); cbn [negb].
    + destruct (startResponse env) as [m|st tx|m|cs];
        try (cbn; rewrite elem_of_nil; tauto).
      destruct (updateError env); cbn;
        rewrite list_elem_of_singleton; intros [= -> ->]; auto.
    + cbn. rewrite elem_of_nil. tauto.
  - destruct (handleSearch_invalid env f Hv) as [-> | ->];
      cbn; rewrite elem_of_nil; tauto.
Qed.

(** With a location the summary is not empty: it opens with the pin and
    the location. *)
Lemma createFormDataSummary_location txt data :
  fd_location data ≠ [] →
  ∃ rest,
    createFormDataSummary txt data =
      pin ++ lit " " ++ fd_location data ++ rest.
Proof.
  intros Hloc. unfold createFormDataSummary.
  rewrite (bool_decide_eq_false_2 _ Hloc). cbn [negb].
  destruct (0 <? length (property_types data))%nat;
    destruct (truthyNumber (budget_min data) || truthyNumber (budget_max data));
    cbn [app join flat_map]; rewrite <- ?app_assoc;
    eexists; reflexivity.
Qed.

(** X13. After a search that started the chatbot, the widget shows the
    server's greeting and, after it, a system message with the summary of
    the search, which opens with the location of the form.  The widget is
    open and holds the new session id.  The messages before them are the
    ones the widget had, unless it held another session: then they are
    the only two. *)
Theorem search_adds_greeting_and_summary (txt : string → string)
    (env : Env) (f : DemoForm) (chatSession : ChatSession)
    (data : FrontendData) (s : System) :
  (chatSession, data) ∈ updates (handleSearch env f) →
  let s' := updateExistingChatbot txt chatSession data s in
  (∃ rest,
     createFormDataSummary txt data =
       pin ++ lit " " ++ default [] (demo_location f) ++ rest) ∧
  messages (chatbot s') =
    (if truthySession (sessionId (chatbot s)) &&
        negb (bool_decide
                (sessionId (chatbot s) =
                 Some (SearchForm.session_id chatSession)))
     then []
     else messages (chatbot s)) ++
    [(assistant, formatMessage (lit (SearchForm.message chatSession)));
     (system,
      formatMessage (clipboard ++ lit " " ++ createFormDataSummary txt data))] ∧
  sessionId (chatbot s') = Some (SearchForm.session_id chatSession) ∧
  isOpen (chatbot s') = true.
Proof.
  intros Hin s'.
  apply updates_handleSearch in Hin as (-> & Hv & _).
  apply validateSearchData_true in Hv as (_ & _ & Hloc & _).
  assert (Hloc' : fd_location (frontendData (getSearchFormData f)) ≠ [])
    by exact Hloc.
  destruct (createFormDataSummary_location txt _ Hloc') as [rest Hsum].
  assert (Hplace : fd_location (frontendData (getSearchFormData f)) =
                   default [] (demo_location f))
    by (unfold getSearchFormData;
        destruct (truthy (custom_budget_toggle f)); reflexivity).
  split; [exists rest; rewrite <- Hplace; exact Hsum|].
  assert (Hne : bool_decide
                  (createFormDataSummary txt
                     (frontendData (getSearchFormData f)) = []) = false).
  { apply bool_decide_eq_false. rewrite Hsum. discriminate. }
  unfold s', updateExistingChatbot. cbn [chatbot]. rewrite Hne. cbn [negb].
  cbn [setSession isOpen sessionId].
  destruct (isOpen (chatbot s)) eqn:Ho; cbn [negb];
    cbn [addMessage setOpen setSession messages sessionId isOpen];
    rewrite <- app_assoc, ?Ho; repeat split.
Qed.

Lemma search_adds_greeting_and_summary_witness :
  messages
    (chatbot
       (updateExistingChatbot Navigation.nativeText
          {| SearchForm.session_id := "s-1"; SearchForm.message := "Welcome!" |}
          {| fd_location := ChatText.lit "Austin, TX";
             property_types := ["primary-residence"; "rental-property"];
             budget_min := Some 300000; budget_max := Some 500000 |}
          talking)) =
  [(assistant, Prose (lit "Welcome!"));
   (system,
    Prose (clipboard ++ lit " " ++ pin ++ lit " Austin, TX " ++ [bullet] ++
           lit " " ++ house ++ lit " Primary Residence, Rental Property " ++
           [bullet] ++ lit " " ++ moneyBag ++ lit " $300,000 - $500,000"))].
Proof.
  destruct (search_adds_greeting_and_summary Navigation.nativeText sampleEnv
              (sampleForm "300000" "500000")
              {| SearchForm.session_id := "s-1"; SearchForm.message := "Welcome!" |}
              {| fd_location := ChatText.lit "Austin, TX";
                 property_types := ["primary-residence"; "rental-property"];
                 budget_min := Some 300000; budget_max := Some 500000 |}
              talking) as (_ & H & _).
  - vm_compute. apply list_elem_of_here.
  - rewrite H. vm_compute. reflexivity.
Defined.

(** X14. The summary does not tell a minimum from a maximum: a search
    with only a lower bound and a search with only an upper bound of the
    same amount get the same summary text, whatever the location and the
    categories; and a bound of zero is left out like a missing one. *)
Theorem summary_does_not_tell_min_from_max (txt : string → string)
    (place : ustring) (types : list string) (bound : Z) :
  createFormDataSummary txt
    {| fd_location := place; property_types := types;
       budget_min := Some bound; budget_max := None |} =
  createFormDataSummary txt
    {| fd_location := place; property_types := types;
       budget_min := None; budget_max := Some bound |} ∧
  createFormDataSummary txt
    {| fd_location := place; property_types := types;
       budget_min := Some 0; budget_max := Some bound |} =
  createFormDataSummary txt
    {| fd_location := place; property_types := types;
       budget_min := None; budget_max := Some bound |}.
Proof.
  unfold createFormDataSummary.
  cbn [fd_location property_types budget_min budget_max truthyNumber].
  destruct (bound =? 0); cbn [negb orb]; split; reflexivity.
Qed.

(** X15. Every category the search form can send has an entry in
    [typeMap], so the summary shows its display name and never the raw
    tag. *)
Theorem selected_categories_have_display_names (txt : string → string)
    (f : DemoForm) (tag : string) :
  tag ∈ getSelectedStrategies f →
  ∃ name, typeMap !! tag = Some name ∧ typeName txt tag = name ∧ name ≠ tag.
Proof.
  rewrite elem_of_getSelectedStrategies.
  intros [[_ ->]|[[_ ->]|[[_ ->]|[[_ ->]|[_ ->]]]]];
    eexists; (split; [vm_compute; reflexivity|]);
    (split; [vm_compute; reflexivity|discriminate]).
Qed.

Lemma selected_categories_have_display_names_witness :
  ∃ name, typeMap !! "fix-flip" = Some name ∧
          typeName Navigation.nativeText "fix-flip" = name ∧ name ≠ "fix-flip".
Proof.
  apply (selected_categories_have_display_names Navigation.nativeText
           {| custom_budget_toggle := Some false;
              custom_min_price := None; custom_max_price := None;
              min_price := None; max_price := None;
              demo_location := Some (ChatText.lit "Dallas, TX");
              primary_residence := Some false; fix_flip := Some true;
              rental_property := None; multi_family := Some false;
              quick_deals := Some false |}).
  vm_compute. apply list_elem_of_here.
Defined.

End FormSummaryProperties.

(** ** The details page and the display of amounts *)

Module DetailsProperties.
Import JS Marketplace Navigation NavigationFacts.
Import NumberInput NumberInputFacts.

Ltac keeps_id :=
  let e := fresh "e" in
  intros e; cbn;
  repeat match goal with
         | |- context [if ?c then _ else _] => destruct c
         end;
  reflexivity.

(** What [withElement] leaves at each place of a document, [doc0] being
    any document with the same ids in the same order. *)
Lemma withElement_lookup x f doc doc0 i :
  el_id <$> doc = el_id <$> doc0 →
  withElement x f doc !! i =
  (fun e => if bool_decide (getElementById doc0 x = Some i) then f e else e)
    <$> doc !! i.
Proof.
  intros Hids. rewrite <- (getElementById_ids doc doc0 x Hids).
  unfold withElement. destruct (getElementById doc x) as [j|] eqn:Hj.
  - destruct (decide (j = i)) as [->|Hji].
    + rewrite list_lookup_alter_eq, bool_decide_eq_true_2 by reflexivity.
      reflexivity.
    + rewrite list_lookup_alter_ne by exact Hji.
      rewrite bool_decide_eq_false_2 by congruence.
      destruct (doc !! i); reflexivity.
  - rewrite bool_decide_eq_false_2 by discriminate.
    destruct (doc !! i); reflexivity.
Qed.

(** An element is the first with one id only. *)
Lemma first_id_unique doc x y i :
  getElementById doc x = Some i → getElementById doc y = Some i → x = y.
Proof.
  intros Hx Hy.
  apply getElementById_Some in Hx as (e & He & <-).
  apply getElementById_Some in Hy as (e' & He' & <-).
  congruence.
Qed.

Ltac lookup_in doc :=
  repeat (rewrite (withElement_lookup _ _ _ doc)
            by (rewrite ?ids_withElement by keeps_id; reflexivity)).

(* With [H] telling which id the element at [i] is the first of, decide
   every test on the ids. *)
Ltac settle doc i H :=
  repeat match goal with
         | |- context [bool_decide (getElementById doc ?y = Some i)] =>
             first
               [ rewrite (bool_decide_eq_true_2 (getElementById doc y = Some i))
                   by exact H
               | rewrite (bool_decide_eq_false_2 (getElementById doc y = Some i))
                   by (let Hy := fresh in
                       intros Hy;
                       discriminate (first_id_unique _ _ _ _ H Hy)) ]
         end.

Ltac split_on doc i x finish :=
  let H := fresh "H" in
  destruct (decide (getElementById doc x = Some i)) as [H|H];
  [ settle doc i H; finish
  | rewrite (bool_decide_eq_false_2 (getElementById doc x = Some i)) by exact H ].

Ltac read_off doc i :=
  cbv iota; destruct (doc !! i); reflexivity.

(** The details page after two properties have been rendered in turn
    shows the second one only, as long as the second has several photos
    or the first has not. *)
Lemma renderPropertyDetails_twice p q doc :
  ((1 <? length (photos p))%nat = true → (1 <? length (photos q))%nat = true) →
  renderPropertyDetails q (renderPropertyDetails p doc) =
  renderPropertyDetails q doc.
Proof.
  intros Hphotos. apply list_eq. intros i.
  unfold renderPropertyDetails. lookup_in doc.
  destruct (1 <? length (photos p))%nat;
    [rewrite (Hphotos eq_refl)|destruct (1 <? length (photos q))%nat].
  all: split_on doc i "property-hero-image" ltac:(read_off doc i).
  all: split_on doc i "property-address" ltac:(read_off doc i).
  all: split_on doc i "property-list-price" ltac:(read_off doc i).
  all: split_on doc i "property-est-value" ltac:(read_off doc i).
  all: split_on doc i "property-savings" ltac:(read_off doc i).
  all: split_on doc i "property-facts" ltac:(read_off doc i).
  all: split_on doc i "photo-strip" ltac:(read_off doc i).
  all: read_off doc i.
Qed.

Lemma toLocaleString_inj a b : toLocaleString a = toLocaleString b → a = b.
Proof.
  intros H. apply (f_equal removeCommas) in H.
  rewrite !removeCommas_toLocaleString in H.
  apply (f_equal parseInt) in H. rewrite !parseInt_toDecimal in H.
  now injection H.
Qed.

(** X17. The details page never mixes two properties: rendering the
    details of one property after those of another leaves exactly what
    rendering the second alone leaves (and rendering the same property
    twice changes nothing), provided the second has more than one photo or
    the first has not.  In the remaining case the photo strip is hidden
    but still holds the thumbnails of the first property. *)
Theorem details_page_shows_one_property (p q : Property) (doc : Document) :
  (((1 <? length (photos p))%nat = true →
    (1 <? length (photos q))%nat = true) →
   renderPropertyDetails q (renderPropertyDetails p doc) =
   renderPropertyDetails q doc) ∧
  renderPropertyDetails p (renderPropertyDetails p doc) =
    renderPropertyDetails p doc ∧
  (∀ i, getElementById doc "photo-strip" = Some i →
        (1 <? length (photos p))%nat = true →
        (1 <? length (photos q))%nat = false →
        ∃ e, renderPropertyDetails q (renderPropertyDetails p doc) !! i = Some e ∧
             display e = "none" ∧ innerHTML e = Thumbnails (photos p)).
Proof.
  split; [apply renderPropertyDetails_twice|].
  split; [apply renderPropertyDetails_twice; auto|].
  intros i Hi Hp Hq.
  destruct (getElementById_Some _ _ _ Hi) as (e & He & Hid).
  unfold renderPropertyDetails. lookup_in doc.
  settle doc i Hi. rewrite He, Hp, Hq. cbv iota.
  eexists. split; [reflexivity|]. split; reflexivity.
Qed.

Lemma details_page_shows_one_property_witness :
  renderPropertyDetails
    {| id := "p_002"; address1 := "456 Pine Avenue"; city := "Dallas";
       state := "TX"; zip := "75201"; beds := 4; baths := 3; sqft := 2200;
       lotSqft := 8500; yearBuilt := 2020; hasGarage := true;
       type := "Single Family"; listPrice := 625000; estValue := 645000;
       photo := "houses-grid.jpg";
       photos := ["houses-grid.jpg"; "investment-house.jpg"] |}
    (renderPropertyDetails
       {| id := "p_001"; address1 := "123 Oak Street"; city := "Austin";
          state := "TX"; zip := "78701"; beds := 3; baths := 2; sqft := 1850;
          lotSqft := 7200; yearBuilt := 2018; hasGarage := true;
          type := "Single Family"; listPrice := 485000; estValue := 510000;
          photo := "hero-house.jpg";
          photos := ["hero-house.jpg"; "houses-grid.jpg"] |}
       sampleDocument) =
  renderPropertyDetails
    {| id := "p_002"; address1 := "456 Pine Avenue"; city := "Dallas";
       state := "TX"; zip := "75201"; beds := 4; baths := 3; sqft := 2200;
       lotSqft := 8500; yearBuilt := 2020; hasGarage := true;
       type := "Single Family"; listPrice := 625000; estValue := 645000;
       photo := "houses-grid.jpg";
       photos := ["houses-grid.jpg"; "investment-house.jpg"] |}
    sampleDocument.
Proof.
  apply details_page_shows_one_property. reflexivity.
Defined.

(** X18. Amounts are displayed without loss.  For integers of magnitude
    below 2^53, which a JavaScript number holds exactly, two different
    amounts never get the same text, neither from [formatMoney] nor from
    the en-US grouped form of [toLocaleString]; and the text of a negative
    amount is the minus sign followed by the text of its magnitude. *)
Theorem displayed_amounts_are_distinct (a b : Z) :
  Z.abs a < 2 ^ 53 →
  Z.abs b < 2 ^ 53 →
  (formatMoney a = formatMoney b ↔ a = b) ∧
  (toLocaleString a = toLocaleString b ↔ a = b) ∧
  (a < 0 → formatMoney a = "-" +:+ formatMoney (- a)).
Proof.
  intros _ _.
  assert (Hmoney : ∀ z, formatMoney z =
            (if z <? 0 then "-$" else "$") +:+ toLocaleString (Z.abs z)).
  { intros z. unfold formatMoney, toLocaleString.
    rewrite Z.abs_idemp.
    destruct (Z.ltb_spec z 0); destruct (Z.ltb_spec (Z.abs z) 0);
      try lia; reflexivity. }
  split; [|split].
  - split; [|intros ->; reflexivity].
    rewrite !Hmoney.
    destruct (Z.ltb_spec a 0) as [Ha|Ha]; destruct (Z.ltb_spec b 0) as [Hb|Hb];
      cbn [String.append]; intros Heq;
      try (injection Heq as Heq; apply toLocaleString_inj in Heq; lia).
    + destruct (toLocaleString_shape (Z.abs b)) as (d & _ & Hne & _ & E).
      rewrite E in Heq.
      destruct (Z.ltb_spec (Z.abs b) 0); [lia|]. discriminate Heq.
    + destruct (toLocaleString_shape (Z.abs a)) as (d & _ & Hne & _ & E).
      rewrite E in Heq.
      destruct (Z.ltb_spec (Z.abs a) 0); [lia|]. discriminate Heq.
  - split; [apply toLocaleString_inj|intros ->; reflexivity].
  - intros Ha. rewrite !Hmoney.
    destruct (Z.ltb_spec a 0); [|lia].
    destruct (Z.ltb_spec (- a) 0); [lia|].
    replace (Z.abs (- a)) with (Z.abs a) by lia. reflexivity.
Qed.

Lemma displayed_amounts_are_distinct_witness :
  formatMoney (-25000) = "-" +:+ formatMoney 25000 ∧
  (formatMoney (-25000) = formatMoney 25000 ↔ -25000 = 25000).
Proof.
  destruct (displayed_amounts_are_distinct (-25000) 25000) as (Hinj & _ & Hneg);
    [vm_compute; reflexivity | vm_compute; reflexivity |].
  split; [apply Hneg; reflexivity | exact Hinj].
Defined.

End DetailsProperties.

(** ** Chat sessions *)

Module SessionProperties.
Import ChatText Chatbot ChatbotFacts Toggling.

(** A click on the toggle button is a step of the event loop. *)
Lemma step_toggleChat s : step s (toggleChat s).
Proof.
  unfold toggleChat. destruct (isOpen (chatbot s)).
  - apply step_close.
  - apply step_open.
Qed.

Lemma toggled_reachable s : toggled s → reachable s.
Proof.
  induction 1 as [|s _ IH]; [apply reachable_initial|].
  exact (reachable_step s _ IH (step_toggleChat s)).
Qed.

(** With no session yet, the clicks that open the widget again start one
    more session. *)
Lemma toggled_reopened s :
  toggled s → sessionId (chatbot s) = None →
  ∃ s', toggled s' ∧ startingSession s' = S (startingSession s) ∧
        sessionId (chatbot s') = None ∧
        messages (chatbot s') = messages (chatbot s).
Proof.
  intros Ht Hsid. destruct (isOpen (chatbot s)) eqn:Ho.
  - exists (toggleChat (toggleChat s)).
    split; [apply toggled_click, toggled_click, Ht|].
    assert (E1 : toggleChat s = closeChat s)
      by (unfold toggleChat; rewrite Ho; reflexivity).
    assert (E2 : toggleChat (closeChat s) = openChat (closeChat s))
      by reflexivity.
    rewrite E1, E2. unfold closeChat, openChat.
    cbn [chatbot withChatbot setOpen isOpen sessionId startingSession messages].
    rewrite Hsid. repeat split.
  - exists (toggleChat s). split; [apply toggled_click, Ht|].
    unfold toggleChat. rewrite Ho. unfold openChat.
    cbn [chatbot setOpen sessionId startingSession messages].
    rewrite Hsid. repeat split.
Qed.

(** X19. Starting a session is not guarded the way sending a message is.
    Closing and opening the widget again before the reply to the first
    session request has arrived starts another session: for every n there
    is a state the widget can reach, by clicks on its toggle button alone,
    in which n session requests are under way at once and no session id is
    set yet.  Each of them, when it is answered, adds a greeting and
    replaces the session id. *)
Theorem session_starts_are_not_guarded (n : nat) :
  ∃ s, toggled s ∧ reachable s ∧ startingSession s = n ∧
       sessionId (chatbot s) = None ∧ messages (chatbot s) = [] ∧
       ∀ sid text k, startingSession s = S k →
         ∃ s', step s s' ∧ startingSession s' = k ∧
               sessionId (chatbot s') = Some sid ∧
               messages (chatbot s') = [(assistant, formatMessage text)].
Proof.
  assert (H : ∃ s, toggled s ∧ startingSession s = n ∧
                   sessionId (chatbot s) = None ∧ messages (chatbot s) = []).
  { induction n as [|n (s & Ht & Hn & Hsid & Hm)].
    - exists initial. repeat split. apply toggled_initial.
    - destruct (toggled_reopened s Ht Hsid) as (s' & Ht' & Hn' & Hsid' & Hm').
      exists s'. rewrite Hn', Hn, Hm', Hm. auto. }
  destruct H as (s & Ht & Hn & Hsid & Hm).
  exists s. split; [exact Ht|]. split; [now apply toggled_reachable|].
  repeat split; try assumption.
  intros sid text k Hk.
  eexists. split; [exact (step_session_started sid text k s Hk)|].
  cbn [startingSession chatbot addMessage setSession sessionId messages].
  rewrite Hm. repeat split.
Qed.

End SessionProperties.

(** ** Initialisation of the demo page *)

Module DemoPageProperties.
Import Navigation DemoPage.

Lemma filter_addEventListener_other l ls :
  sameHandler (handler l) HandleSearch = false →
  List.filter (fun l => sameHandler (handler l) HandleSearch)
    (addEventListener l ls) =
  List.filter (fun l => sameHandler (handler l) HandleSearch) ls.
Proof.
  intros H. unfold addEventListener.
  destruct (isNamed (handler l) && existsb (sameListener l) ls);
    [reflexivity|].
  rewrite List.filter_app. cbn [List.filter]. rewrite H. apply app_nil_r.
Qed.

Lemma filter_listenIfPresent_other el type f ls :
  sameHandler f HandleSearch = false →
  List.filter (fun l => sameHandler (handler l) HandleSearch)
    (listenIfPresent el type f ls) =
  List.filter (fun l => sameHandler (handler l) HandleSearch) ls.
Proof.
  intros H. destruct el as [i|]; [|reflexivity].
  now apply filter_addEventListener_other.
Qed.

Lemma filter_initLocationExamples doc ls :
  List.filter (fun l => sameHandler (handler l) HandleSearch)
    (initLocationExamples doc ls) =
  List.filter (fun l => sameHandler (handler l) HandleSearch) ls.
Proof.
  unfold initLocationExamples.
  destruct (getElementById doc "demo-location"); [|reflexivity].
  generalize (querySelectorAllFrom 0 "demo-example" doc). intros examples.
  revert ls. induction examples as [|x xs IH]; intros ls; [reflexivity|].
  cbn [foldl]. rewrite IH.
  now apply filter_addEventListener_other.
Qed.

Lemma filter_initBudgetFunctionality doc ls :
  List.filter (fun l => sameHandler (handler l) HandleSearch)
    (initBudgetFunctionality doc ls) =
  List.filter (fun l => sameHandler (handler l) HandleSearch) ls.
Proof.
  unfold initBudgetFunctionality.
  destruct (getElementById doc "custom-budget-toggle"); [|reflexivity].
  destruct (getElementById doc "custom-budget-inputs"); [|reflexivity].
  rewrite !filter_listenIfPresent_other by reflexivity.
  now apply filter_addEventListener_other.
Qed.

(** X20. The demo page is initialised once.  After the first run of
    [initDemoPage], further runs (every display of the demo page schedules
    one) change nothing, whatever the document has become.  So the search
    button has exactly one listener that runs [handleSearch] if it was in
    the document at the first run, and none, for good, if it was not. *)
Theorem demo_page_is_initialised_once (doc : Document)
    (later : list Document) :
  foldl (fun st d => initDemoPage d st) (initDemoPage doc initialState) later =
    initDemoPage doc initialState ∧
  searchListeners (initDemoPage doc initialState) =
    match getElementById doc "demo-search-btn" with
    | Some button =>
        [{| target := button; event := "click"; handler := HandleSearch |}]
    | None => []
    end.
Proof.
  split.
  - induction later as [|d later IH]; [reflexivity|].
    cbn [foldl]. exact IH.
  - unfold searchListeners, initDemoPage.
    cbn [demoPageInitialized listeners initialState].
    unfold initSearchFunctionality.
    destruct (getElementById doc "demo-search-btn") as [button|].
    + unfold addEventListener.
      set (ls := initBudgetFunctionality doc (initLocationExamples doc [])).
      assert (Hls : List.filter
                      (fun l => sameHandler (handler l) HandleSearch) ls = [])
        by (unfold ls;
            rewrite filter_initBudgetFunctionality, filter_initLocationExamples;
            reflexivity).
      assert (Hex : existsb
                      (sameListener
                         {| target := button; event := "click";
                            handler := HandleSearch |}) ls = false).
      { apply not_true_is_false. intros Hex.
        apply existsb_exists in Hex as (l & Hl & Hsame).
        unfold sameListener in Hsame. cbn [handler] in Hsame.
        apply andb_true_iff in Hsame as [_ Hh].
        assert (Hin : In l (List.filter
                              (fun l => sameHandler (handler l) HandleSearch)
                              ls)).
        { apply List.filter_In. split; [exact Hl|].
          destruct (handler l); try discriminate Hh; reflexivity. }
        rewrite Hls in Hin. exact Hin. }
      rewrite Hex, andb_false_r.
      rewrite List.filter_app, Hls. reflexivity.
    + rewrite filter_initBudgetFunctionality, filter_initLocationExamples.
      reflexivity.
Qed.

Lemma demo_page_is_initialised_once_witness :
  searchListeners
    (foldl (fun st d => initDemoPage d st)
       (initDemoPage demoDocument initialState) [demoDocument; []]) =
  [{| target := 10%nat; event := "click"; handler := HandleSearch |}].
Proof.
  destruct (demo_page_is_initialised_once demoDocument [demoDocument; []])
    as [-> ->].
  reflexivity.
Defined.

End DemoPageProperties.

(** ** What a search sends *)

Module SearchRequestProperties.
Import JS SearchForm SearchFormFacts.

(** X21. The location is sent as it was typed.  Validation looks at the
    trimmed text, but every request [handleSearch] sends carries the text
    of the location field unchanged, surrounding white space included. *)
Theorem location_is_sent_as_typed (env : Env) (f : DemoForm)
    (d : FrontendData) :
  d ∈ requests (handleSearch env f) →
  fd_location d = default [] (demo_location f) ∧
  ChatText.trim (fd_location d) ≠ [].
Proof.
  intros Hd. apply requests_handleSearch in Hd as [-> Hv].
  apply validateSearchData_true in Hv as (_ & Ht & _ & _).
  assert (Hloc : location (getSearchFormData f) = default [] (demo_location f))
    by (unfold getSearchFormData;
        destruct (truthy (custom_budget_toggle f)); reflexivity).
  unfold frontendData. cbn [fd_location]. rewrite <- Hloc. auto.
Qed.

Lemma location_is_sent_as_typed_witness :
  fd_location
    {| fd_location := ChatText.lit "  Austin, TX "; property_types := ["fix-flip"];
       budget_min := None; budget_max := None |} =
    ChatText.lit "  Austin, TX " ∧
  ChatText.trim (ChatText.lit "  Austin, TX ") ≠ [].
Proof.
  apply (location_is_sent_as_typed sampleEnv
           {| custom_budget_toggle := Some false;
              custom_min_price := None; custom_max_price := None;
              min_price := Some ""; max_price := Some "";
              demo_location := Some (ChatText.lit "  Austin, TX ");
              primary_residence := Some false; fix_flip := Some true;
              rental_property := Some false; multi_family := Some false;
              quick_deals := Some false |}
           {| fd_location := ChatText.lit "  Austin, TX "; property_types := ["fix-flip"];
              budget_min := None; budget_max := None |}).
  vm_compute. apply list_elem_of_here.
Defined.

End SearchRequestProperties.

(** ** The pricing page *)

Module PricingPageProperties.
Import Navigation NavigationFacts PricingPage.

Lemma foldl_snoc {A B} (f : B → A) (xs : list B) (ls : list A) :
  foldl (fun ls x => ls ++ [f x]) ls xs = ls ++ (f <$> xs).
Proof.
  revert ls. induction xs as [|x xs IH]; intros ls; cbn [foldl fmap list_fmap].
  - now rewrite app_nil_r.
  - rewrite IH, <- app_assoc. reflexivity.
Qed.

(** A run of [initPricingPage] adds its listeners after those that are
    there. *)
Lemma initPricingPage_app finalButtons doc ls :
  initPricingPage finalButtons doc ls =
  ls ++ initPricingPage finalButtons doc [].
Proof.
  unfold initPricingPage.
  rewrite !(foldl_snoc (fun b => {| target := b; installer := PricingCta |})).
  rewrite !(foldl_snoc (fun b => {| target := b; installer := FinalCta |})).
  rewrite app_nil_l, app_assoc. reflexivity.
Qed.

Lemma click_app doc ls1 ls2 i :
  click doc (ls1 ++ ls2) i = click doc ls1 i ++ click doc ls2 i.
Proof.
  unfold click. destruct (doc !! i); [apply flat_map_app|reflexivity].
Qed.

Lemma showPage_ids txt pageId st :
  el_id <$> document (showPage txt pageId st) = el_id <$> document st.
Proof.
  unfold showPage.
  destruct (getElementById (hidePage <$> document st)
              (elementIdOf txt (targetPageId pageId))) as [i|].
  - destruct (String.eqb pageId "marketplace"); cbn [document];
      unfold renderProperties;
      rewrite ?ids_withElement by apply keepsId_setInnerHTML;
      rewrite ids_alter by apply keepsId_setDisplay;
      apply ids_fmap, keepsId_hidePage.
  - cbn [document]. apply ids_fmap, keepsId_hidePage.
Qed.

Lemma showPage_pricing_timers txt st i :
  getElementById (document st) "pricing-page" = Some i →
  timers (showPage txt "pricing" st) = timers st ++ [InitPricingPage] ∧
  getElementById (document (showPage txt "pricing" st)) "pricing-page" = Some i.
Proof.
  intros Hi. split.
  - unfold showPage.
    rewrite (getElementById_ids (hidePage <$> document st) (document st))
      by (apply ids_fmap, keepsId_hidePage).
    change (elementIdOf txt (targetPageId "pricing")) with "pricing-page".
    rewrite Hi. reflexivity.
  - rewrite (getElementById_ids _ _ _ (showPage_ids txt "pricing" st)).
    exact Hi.
Qed.

(** X22. The listeners of the pricing page pile up.  Every display of
    the pricing page schedules one more run of [initPricingPage], and
    every run adds a further click listener to each button, so after k
    runs a click on a button does k times what it does after one run:
    "Contact Sales" shows its alert k times in a row. *)
Theorem pricing_listeners_pile_up (txt : string → string)
    (finalButtons : list nat) (st : State) (doc : Document) (k i : nat) :
  (getElementById (document st) "pricing-page" ≠ None →
   timers (Nat.iter k (showPage txt "pricing") st) =
     timers st ++ replicate k InitPricingPage) ∧
  click doc (Nat.iter k (initPricingPage finalButtons doc) []) i =
    concat (replicate k (click doc (initPricingPage finalButtons doc []) i)).
Proof.
  split.
  - intros Hp.
    destruct (getElementById (document st) "pricing-page") as [j|] eqn:Hj;
      [clear Hp|contradiction].
    assert (H : timers (Nat.iter k (showPage txt "pricing") st) =
                  timers st ++ replicate k InitPricingPage ∧
                getElementById
                  (document (Nat.iter k (showPage txt "pricing") st))
                  "pricing-page" = Some j).
    { induction k as [|k [IHt IHd]].
      - cbn [Nat.iter nat_rect replicate]. rewrite app_nil_r. auto.
      - rewrite Nat.iter_succ. cbn [replicate].
        destruct (showPage_pricing_timers txt _ j IHd) as [Ht Hd].
        rewrite Ht, IHt, <- app_assoc. split; [|exact Hd].
        f_equal. clear. induction k as [|k IH]; [reflexivity|].
        cbn [replicate app]. f_equal. exact IH. }
    exact (proj1 H).
  - induction k as [|k IH].
    + cbn [Nat.iter nat_rect replicate concat].
      unfold click. destruct (doc !! i); reflexivity.
    + rewrite Nat.iter_succ. cbn [replicate concat].
      rewrite initPricingPage_app, click_app, IH.
      clear. induction k as [|k IH]; cbn [replicate concat].
      * now rewrite app_nil_r.
      * rewrite <- app_assoc, IH. reflexivity.
Qed.

Lemma pricing_listeners_pile_up_witness :
  timers (Nat.iter 3 (showPage nativeText "pricing")
            (initialState pricingDocument)) =
    [InitPricingPage; InitPricingPage; InitPricingPage] ∧
  click pricingDocument
    (Nat.iter 3 (initPricingPage [] pricingDocument) []) 1 =
    [Alert "Thank you for your interest! Our sales team will contact you within 24 hours.";
     Alert "Thank you for your interest! Our sales team will contact you within 24 hours.";
     Alert "Thank you for your interest! Our sales team will contact you within 24 hours."].
Proof.
  destruct (pricing_listeners_pile_up nativeText [] (initialState pricingDocument)
              pricingDocument 3 1) as [Ht Hc].
  split.
  - rewrite Ht; [reflexivity|discriminate].
  - rewrite Hc. reflexivity.
Defined.

End PricingPageProperties.

(** ** Listing cards and the details page *)

Module ListingProperties.
Import JS Marketplace Navigation NavigationFacts.
Import DetailsProperties PricingPageProperties.

Lemma savingsPill_card savings :
  savingsPill savings =
  (savingsText savings, "savings-pill " +:+ savingsClass savings).
Proof.
  unfold savingsPill, savingsText, savingsClass.
  destruct (savings >? 0); [reflexivity|].
  destruct (savings <? 0); reflexivity.
Qed.

(** What [renderPropertyDetails] leaves in the elements that repeat the
    values of the listing card. *)
Lemma renderPropertyDetails_values p doc :
  (∀ i, getElementById doc "property-hero-image" = Some i →
     ∃ e, renderPropertyDetails p doc !! i = Some e ∧ src e = photo p) ∧
  (∀ i, getElementById doc "property-list-price" = Some i →
     ∃ e, renderPropertyDetails p doc !! i = Some e ∧
          textContent e = formatMoney (listPrice p)) ∧
  (∀ i, getElementById doc "property-est-value" = Some i →
     ∃ e, renderPropertyDetails p doc !! i = Some e ∧
          textContent e = formatMoney (estValue p)) ∧
  (∀ i, getElementById doc "property-savings" = Some i →
     ∃ e, renderPropertyDetails p doc !! i = Some e ∧
          textContent e = fst (savingsPill (estValue p - listPrice p)) ∧
          className e = snd (savingsPill (estValue p - listPrice p))).
Proof.
  repeat split; intros i Hi;
    destruct (getElementById_Some _ _ _ Hi) as (e0 & He0 & _);
    unfold renderPropertyDetails; lookup_in doc; settle doc i Hi;
    rewrite He0; cbv iota; eexists; (split; [reflexivity|]);
    try split; reflexivity.
Qed.

(** X23. The details page agrees with the listing card.  A click on the
    card of a listed property runs [showPropertyDetails] with that
    property's id, and the details page then shows the photo, the list
    price, the estimated value and the savings call-out (text and colour
    class) that the card showed. *)
Theorem details_agree_with_card (txt : string → string) (p : Property)
    (st : State) :
  p ∈ PROPERTIES →
  let card := propertyCard p in
  let st' := showPropertyDetails txt (card_onclick card) st in
  (∀ i, getElementById (document st) "property-hero-image" = Some i →
     ∃ e, document st' !! i = Some e ∧ src e = card_photo card) ∧
  (∀ i, getElementById (document st) "property-list-price" = Some i →
     ∃ e, document st' !! i = Some e ∧ textContent e = card_list_price card) ∧
  (∀ i, getElementById (document st) "property-est-value" = Some i →
     ∃ e, document st' !! i = Some e ∧
          card_est_value card = "Est. Value: " +:+ textContent e) ∧
  (∀ i, getElementById (document st) "property-savings" = Some i →
     ∃ e, document st' !! i = Some e ∧
          textContent e = card_savings_text card ∧
          className e = "savings-pill " +:+ card_savings_class card).
Proof.
  intros Hp card st'.
  set (st0 := {| document := document st; currentPage := currentPage st;
                 selectedProperty := Some p; timers := timers st |}).
  assert (Hdoc : document st' =
                 renderPropertyDetails p
                   (document (showPage txt "property-details" st0))).
  { unfold st', showPropertyDetails, card.
    cbn [card_onclick propertyCard]. rewrite (find_property_Some p Hp).
    reflexivity. }
  assert (Hids : ∀ x, getElementById
                        (document (showPage txt "property-details" st0)) x =
                      getElementById (document st) x).
  { intros x.
    rewrite (getElementById_ids _ _ x (showPage_ids txt "property-details" st0)).
    reflexivity. }
  destruct (renderPropertyDetails_values p
              (document (showPage txt "property-details" st0)))
    as (Hhero & Hlist & Hest & Hsav).
  rewrite Hdoc.
  split; [|split; [|split]]; intros i Hi; rewrite <- Hids in Hi.
  - exact (Hhero i Hi).
  - exact (Hlist i Hi).
  - destruct (Hest i Hi) as (e & He & Ht). exists e. split; [exact He|].
    rewrite Ht. reflexivity.
  - destruct (Hsav i Hi) as (e & He & Ht & Hc). exists e.
    rewrite savingsPill_card in Ht, Hc. cbn [fst snd] in Ht, Hc.
    split; [exact He|]. split; assumption.
Qed.

Lemma details_agree_with_card_witness :
  ∃ e, document (showPropertyDetails nativeText "p_001"
                   (initialState sampleDocument)) !! 4%nat = Some e ∧
       textContent e = "You save $25,000" ∧
       className e = "savings-pill positive".
Proof.
  assert (Hp : {| id := "p_001"; address1 := "123 Oak Street"; city := "Austin";
                  state := "TX"; zip := "78701"; beds := 3; baths := 2;
                  sqft := 1850; lotSqft := 7200; yearBuilt := 2018;
                  hasGarage := true; type := "Single Family";
                  listPrice := 485000; estValue := 510000;
                  photo := "hero-house.jpg";
                  photos := ["hero-house.jpg"; "houses-grid.jpg"] |}
               ∈ PROPERTIES) by apply list_elem_of_here.
  destruct (details_agree_with_card nativeText _ (initialState sampleDocument) Hp)
    as (_ & _ & _ & H).
  exact (H 4%nat eq_refl).
Defined.

End ListingProperties.
